(** * MeshBerry emoji table generator: a verification development

    Shallow embedding of [tools/generate_emoji.py].  The script fetches one
    Twemoji PNG per configured code point (through a cache directory),
    turns it into a 12x12 RGB565 bitmap, falls back to a question-mark
    placeholder when that fails, and prints a C header on standard output.

    Python integers are unbounded, so they are modelled by [Z] and the
    operators [&], [|], [<<], [>>] by [Z.land], [Z.lor], [Z.shiftl] and
    [Z.shiftr].  [str] values of the script are ASCII and are modelled by
    [string]; [bytes] by [list byte]; the cache directory by a finite map
    from file names to file contents. *)

From Stdlib Require Import ZArith List String Ascii Lia Bool.
From Stdlib Require Import HexadecimalString HexadecimalN.
From Stdlib.Strings Require Import Byte.
From stdpp Require Import gmap strings list pretty.
Import ListNotations.

Open Scope Z_scope.

(** ** Colour quantisation *)

Module Color.

(** [rgb_to_rgb565(r, g, b)]:
    [((r & 0xF8) << 8) | ((g & 0xFC) << 3) | (b >> 3)]. *)
Definition rgb_to_rgb565 (r g b : Z) : Z :=
  Z.lor (Z.lor (Z.shiftl (Z.land r 0xF8) 8) (Z.shiftl (Z.land g 0xFC) 3))
        (Z.shiftr b 3).

(** An 8-bit channel value, as PIL hands it out for mode RGB. *)
Definition channel8 (c : Z) : Prop := 0 <= c <= 255.

(** A value that fits the 16-bit cell of the emitted [uint16_t] array. *)
Definition is_u16 (v : Z) : Prop := 0 <= v <= 0xFFFF.

Definition is_u16b (v : Z) : bool := (0 <=? v) && (v <=? 0xFFFF).

End Color.

Import Color.

(** ** Text formatting, as Python's f-strings do it *)

Module Text.

Local Open Scope string_scope.

(** A double quote character, for the emitted C string literals. *)
Definition dquote : string := String "034"%char EmptyString.

(** [str.upper()] on one ASCII character. *)
Definition upper_ascii (c : ascii) : ascii :=
  let n := nat_of_ascii c in
  if ((97 <=? n) && (n <=? 122))%nat then ascii_of_nat (n - 32) else c.

(** [str.upper()]; the short codes of the configuration are ASCII. *)
Fixpoint upper (s : string) : string :=
  match s with
  | EmptyString => EmptyString
  | String c rest => String (upper_ascii c) (upper rest)
  end.

(** [c * n] for a one-character string [c]. *)
Fixpoint repeat_char (c : ascii) (n : nat) : string :=
  match n with
  | O => EmptyString
  | S k => String c (repeat_char c k)
  end.

(** The hexadecimal digits of a natural number, most significant first,
    lower case as with [format(n, 'x')]. *)
Definition hex_digits (n : N) : string :=
  NilZero.string_of_uint (N.to_hex_uint n).

(** [format(v, '0<width>x')] and, with [upper_case], [format(v, '0<width>X')]:
    sign first, then zeros up to [width] characters, then the digits.
    [width = 0] is the plain [format(v, 'x')]. *)
Definition format_hex (upper_case : bool) (width : nat) (v : Z) : string :=
  let digits := hex_digits (Z.abs_N v) in
  let digits := if upper_case then upper digits else digits in
  let sign := if (v <? 0)%Z then "-" else "" in
  sign +:+ repeat_char "0" (width - String.length sign - String.length digits)
       +:+ digits.

(** [str(n)] for an [int]. *)
Definition format_int (n : Z) : string := pretty n.

(** [sep.join(parts)]. *)
Definition join (sep : string) (parts : list string) : string :=
  String.concat sep parts.

(** [data[i:j]] for [0 <= i <= j]: slicing clamps to the list's length. *)
Definition slice {A} (l : list A) (i j : nat) : list A :=
  firstn (j - i) (skipn i l).

End Text.

Import Text.

(** ** Configuration: [EMOJI_DATA]

    The dict literal of the script, category by category, in source order
    (a Python dict iterates in insertion order).  Each entry is
    [(codepoint, shortcode)]. *)

Module Config.

Local Open Scope string_scope.

Definition FACES : list (Z * string) := [
  (0x1F600, "grin");
  (0x1F603, "smiley");
  (0x1F604, "smile");
  (0x1F601, "grin_sweat");
  (0x1F606, "laugh");
  (0x1F605, "sweat_smile");
  (0x1F923, "rofl");
  (0x1F602, "joy");
  (0x1F642, "slight_smile");
  (0x1F643, "upside_down");
  (0x1F609, "wink");
  (0x1F60A, "blush");
  (0x1F607, "innocent");
  (0x1F970, "smiling_hearts");
  (0x1F60D, "heart_eyes");
  (0x1F929, "star_struck");
  (0x1F618, "kiss");
  (0x1F617, "kissing");
  (0x263A, "relaxed");
  (0x1F61A, "kiss_closed");
  (0x1F619, "kiss_smiling");
  (0x1F972, "smiling_tear");
  (0x1F60B, "yum");
  (0x1F61B, "tongue_out");
  (0x1F61C, "wink_tongue");
  (0x1F92A, "zany");
  (0x1F61D, "squint_tongue");
  (0x1F911, "money_mouth");
  (0x1F917, "hugs");
  (0x1F92D, "hand_mouth");
  (0x1F92B, "shushing");
  (0x1F914, "thinking");
  (0x1F910, "zipper");
  (0x1F928, "raised_brow");
  (0x1F610, "neutral");
  (0x1F611, "expressionless");
  (0x1F636, "no_mouth");
  (0x1F60F, "smirk");
  (0x1F612, "unamused");
  (0x1F644, "eye_roll");
  (0x1F62C, "grimace");
  (0x1F925, "lying");
  (0x1F60C, "relieved");
  (0x1F614, "pensive");
  (0x1F62A, "sleepy");
  (0x1F924, "drooling");
  (0x1F634, "sleeping");
  (0x1F637, "mask");
  (0x1F912, "thermometer");
  (0x1F915, "bandage");
  (0x1F922, "nauseated");
  (0x1F92E, "vomiting");
  (0x1F927, "sneezing");
  (0x1F975, "hot");
  (0x1F976, "cold");
  (0x1F974, "woozy");
  (0x1F635, "dizzy_face");
  (0x1F92F, "exploding");
  (0x1F920, "cowboy");
  (0x1F973, "party");
  (0x1F978, "disguised");
  (0x1F60E, "sunglasses");
  (0x1F913, "nerd");
  (0x1F9D0, "monocle");
  (0x1F615, "confused");
  (0x1F61F, "worried");
  (0x1F641, "frown");
  (0x2639, "sad");
  (0x1F62E, "open_mouth");
  (0x1F62F, "hushed");
  (0x1F632, "astonished");
  (0x1F633, "flushed");
  (0x1F97A, "pleading");
  (0x1F626, "frowning");
  (0x1F627, "anguished");
  (0x1F628, "fearful");
  (0x1F630, "anxious");
  (0x1F625, "disappointed");
  (0x1F622, "cry");
  (0x1F62D, "sob");
  (0x1F631, "scream");
  (0x1F616, "confounded");
  (0x1F623, "persevere");
  (0x1F61E, "disappointed2");
  (0x1F613, "sweat");
  (0x1F629, "weary");
  (0x1F62B, "tired");
  (0x1F971, "yawning");
  (0x1F624, "triumph");
  (0x1F621, "rage");
  (0x1F620, "angry");
  (0x1F92C, "cursing");
  (0x1F608, "smiling_imp");
  (0x1F47F, "imp");
  (0x1F480, "skull");
  (0x2620, "skull_bones");
  (0x1F4A9, "poop");
  (0x1F921, "clown");
  (0x1F479, "ogre");
  (0x1F47A, "goblin");
  (0x1F47B, "ghost");
  (0x1F47D, "alien");
  (0x1F47E, "space_invader");
  (0x1F916, "robot");
  (0x1F63A, "smiley_cat");
  (0x1F638, "smile_cat");
  (0x1F639, "joy_cat");
  (0x1F63B, "heart_eyes_cat");
  (0x1F63C, "smirk_cat");
  (0x1F63D, "kiss_cat");
  (0x1F640, "scream_cat");
  (0x1F63F, "cry_cat");
  (0x1F63E, "angry_cat")
].

Definition GESTURES : list (Z * string) := [
  (0x1F44B, "wave");
  (0x1F91A, "raised_back");
  (0x1F590, "raised_hand");
  (0x270B, "hand");
  (0x1F596, "vulcan");
  (0x1F44C, "ok_hand");
  (0x1F90C, "pinched");
  (0x1F90F, "pinching");
  (0x270C, "v");
  (0x1F91E, "crossed_fingers");
  (0x1F91F, "love_you");
  (0x1F918, "horns");
  (0x1F919, "call_me");
  (0x1F448, "point_left");
  (0x1F449, "point_right");
  (0x1F446, "point_up2");
  (0x1F595, "middle_finger");
  (0x1F447, "point_down");
  (0x261D, "point_up");
  (0x1F44D, "thumbsup");
  (0x1F44E, "thumbsdown");
  (0x270A, "fist");
  (0x1F44A, "punch");
  (0x1F91B, "left_fist");
  (0x1F91C, "right_fist");
  (0x1F44F, "clap");
  (0x1F64C, "raised_hands");
  (0x1F450, "open_hands");
  (0x1F932, "palms_up");
  (0x1F91D, "handshake");
  (0x1F64F, "pray");
  (0x270D, "writing");
  (0x1F485, "nail_polish");
  (0x1F933, "selfie");
  (0x1F4AA, "muscle");
  (0x1F9BE, "mech_arm");
  (0x1F9BF, "mech_leg");
  (0x1F9B5, "leg");
  (0x1F9B6, "foot");
  (0x1F442, "ear");
  (0x1F9BB, "ear_aid");
  (0x1F443, "nose");
  (0x1F9E0, "brain");
  (0x1F9B7, "tooth");
  (0x1F9B4, "bone");
  (0x1F440, "eyes");
  (0x1F441, "eye");
  (0x1F445, "tongue");
  (0x1F444, "lips")
].

Definition PEOPLE : list (Z * string) := [
  (0x1F476, "baby");
  (0x1F9D2, "child");
  (0x1F466, "boy");
  (0x1F467, "girl");
  (0x1F9D1, "person");
  (0x1F471, "blond");
  (0x1F468, "man");
  (0x1F9D4, "beard");
  (0x1F469, "woman");
  (0x1F9D3, "older_person");
  (0x1F474, "old_man");
  (0x1F475, "old_woman");
  (0x1F64D, "person_frown");
  (0x1F64E, "person_pout");
  (0x1F645, "no_good");
  (0x1F646, "ok_person");
  (0x1F481, "tipping_hand");
  (0x1F64B, "raising_hand");
  (0x1F9CF, "deaf_person");
  (0x1F647, "person_bow");
  (0x1F926, "facepalm");
  (0x1F937, "shrug");
  (0x1F46E, "cop");
  (0x1F575, "detective");
  (0x1F482, "guard");
  (0x1F977, "ninja");
  (0x1F477, "construction_worker");
  (0x1F934, "prince");
  (0x1F478, "princess");
  (0x1F473, "turban");
  (0x1F472, "man_cap");
  (0x1F9D5, "headscarf");
  (0x1F935, "tuxedo");
  (0x1F470, "bride");
  (0x1F930, "pregnant");
  (0x1F931, "breastfeeding");
  (0x1F47C, "angel");
  (0x1F385, "santa");
  (0x1F936, "mrs_claus");
  (0x1F9B8, "superhero");
  (0x1F9B9, "supervillain");
  (0x1F9D9, "mage");
  (0x1F9DA, "fairy");
  (0x1F9DB, "vampire");
  (0x1F9DC, "merperson");
  (0x1F9DD, "elf");
  (0x1F9DE, "genie");
  (0x1F9DF, "zombie")
].

Definition HEARTS : list (Z * string) := [
  (0x2764, "heart");
  (0x1F9E1, "orange_heart");
  (0x1F49B, "yellow_heart");
  (0x1F49A, "green_heart");
  (0x1F499, "blue_heart");
  (0x1F49C, "purple_heart");
  (0x1F90E, "brown_heart");
  (0x1F5A4, "black_heart");
  (0x1F90D, "white_heart");
  (0x1F494, "broken_heart");
  (0x2763, "heart_excl");
  (0x1F495, "two_hearts");
  (0x1F49E, "revolving");
  (0x1F493, "heartbeat");
  (0x1F497, "heartpulse");
  (0x1F496, "sparkling");
  (0x1F498, "cupid");
  (0x1F49D, "gift_heart");
  (0x1F49F, "heart_decor");
  (0x2665, "hearts_suit");
  (0x1F48B, "kiss_mark");
  (0x1F48C, "love_letter");
  (0x1F48D, "ring");
  (0x1F48E, "gem");
  (0x1F490, "bouquet");
  (0x1F339, "rose");
  (0x1F940, "wilted");
  (0x1F33A, "hibiscus");
  (0x1F337, "tulip");
  (0x1F338, "cherry_blossom")
].

Definition ANIMALS : list (Z * string) := [
  (0x1F436, "dog");
  (0x1F431, "cat");
  (0x1F42D, "mouse");
  (0x1F439, "hamster");
  (0x1F430, "rabbit");
  (0x1F98A, "fox");
  (0x1F43B, "bear");
  (0x1F43C, "panda");
  (0x1F428, "koala");
  (0x1F42F, "tiger");
  (0x1F981, "lion");
  (0x1F42E, "cow");
  (0x1F437, "pig");
  (0x1F438, "frog");
  (0x1F435, "monkey");
  (0x1F648, "see_no_evil");
  (0x1F649, "hear_no_evil");
  (0x1F64A, "speak_no_evil");
  (0x1F412, "monkey2");
  (0x1F414, "chicken");
  (0x1F427, "penguin");
  (0x1F426, "bird");
  (0x1F424, "chick");
  (0x1F986, "duck");
  (0x1F985, "eagle");
  (0x1F989, "owl");
  (0x1F987, "bat");
  (0x1F43A, "wolf");
  (0x1F417, "boar");
  (0x1F434, "horse");
  (0x1F984, "unicorn");
  (0x1F41D, "bee");
  (0x1F41B, "bug");
  (0x1F98B, "butterfly");
  (0x1F40C, "snail");
  (0x1F41E, "ladybug");
  (0x1F41C, "ant");
  (0x1F422, "turtle");
  (0x1F40D, "snake");
  (0x1F409, "dragon");
  (0x1F432, "dragon_face");
  (0x1F995, "sauropod");
  (0x1F996, "t_rex");
  (0x1F433, "whale");
  (0x1F42C, "dolphin");
  (0x1F41F, "fish");
  (0x1F420, "trop_fish");
  (0x1F421, "blowfish");
  (0x1F988, "shark");
  (0x1F419, "octopus");
  (0x1F41A, "shell");
  (0x1F40B, "whale2");
  (0x1F40A, "crocodile");
  (0x1F406, "leopard");
  (0x1F405, "tiger2");
  (0x1F403, "water_buffalo");
  (0x1F402, "ox");
  (0x1F404, "cow2");
  (0x1F98C, "deer");
  (0x1F42A, "camel");
  (0x1F42B, "camel2");
  (0x1F999, "llama");
  (0x1F992, "giraffe");
  (0x1F418, "elephant");
  (0x1F98F, "rhino");
  (0x1F99B, "hippo");
  (0x1F401, "mouse2");
  (0x1F400, "rat");
  (0x1F407, "rabbit2");
  (0x1F43F, "chipmunk");
  (0x1F994, "hedgehog");
  (0x1F9A1, "badger");
  (0x1F43E, "paw_prints")
].

Definition FOOD : list (Z * string) := [
  (0x1F34E, "apple");
  (0x1F34F, "green_apple");
  (0x1F350, "pear");
  (0x1F34A, "orange");
  (0x1F34B, "lemon");
  (0x1F34C, "banana");
  (0x1F349, "watermelon");
  (0x1F347, "grapes");
  (0x1F353, "strawberry");
  (0x1FAD0, "blueberries");
  (0x1F352, "cherries");
  (0x1F351, "peach");
  (0x1F96D, "mango");
  (0x1F34D, "pineapple");
  (0x1F965, "coconut");
  (0x1F95D, "kiwi");
  (0x1F345, "tomato");
  (0x1F346, "eggplant");
  (0x1F951, "avocado");
  (0x1F966, "broccoli");
  (0x1F96C, "leafy_green");
  (0x1F952, "cucumber");
  (0x1F336, "hot_pepper");
  (0x1F33D, "corn");
  (0x1F955, "carrot");
  (0x1F9C4, "garlic");
  (0x1F9C5, "onion");
  (0x1F954, "potato");
  (0x1F360, "potato2");
  (0x1F950, "croissant");
  (0x1F35E, "bread");
  (0x1F956, "baguette");
  (0x1FAD3, "flatbread");
  (0x1F968, "pretzel");
  (0x1F96F, "bagel");
  (0x1F95E, "pancakes");
  (0x1F9C7, "waffle");
  (0x1F9C0, "cheese");
  (0x1F356, "meat");
  (0x1F357, "poultry");
  (0x1F969, "steak");
  (0x1F953, "bacon");
  (0x1F354, "hamburger");
  (0x1F35F, "fries");
  (0x1F355, "pizza");
  (0x1F32D, "hotdog");
  (0x1F96A, "sandwich");
  (0x1F32E, "taco");
  (0x1F32F, "burrito");
  (0x1FAD4, "tamale");
  (0x1F959, "falafel");
  (0x1F95A, "egg");
  (0x1F373, "cooking");
  (0x1F958, "paella");
  (0x1F372, "stew");
  (0x1FAD5, "fondue");
  (0x1F963, "bowl");
  (0x1F957, "salad");
  (0x1F37F, "popcorn");
  (0x1F9C8, "butter");
  (0x1F9C2, "salt");
  (0x1F35C, "ramen");
  (0x1F35D, "spaghetti");
  (0x1F35B, "curry");
  (0x1F35A, "rice");
  (0x1F359, "rice_ball");
  (0x1F358, "rice_cracker");
  (0x1F365, "fish_cake");
  (0x1F960, "fortune");
  (0x1F961, "takeout");
  (0x1F366, "icecream");
  (0x1F367, "shaved_ice");
  (0x1F368, "ice_cream");
  (0x1F369, "doughnut");
  (0x1F36A, "cookie");
  (0x1F382, "birthday");
  (0x1F370, "cake");
  (0x1F9C1, "cupcake");
  (0x1F967, "pie");
  (0x1F36B, "chocolate");
  (0x1F36C, "candy");
  (0x1F36D, "lollipop");
  (0x1F36E, "custard");
  (0x1F36F, "honey");
  (0x1F37C, "bottle");
  (0x1F95B, "milk");
  (0x2615, "coffee");
  (0x1FAD6, "teapot");
  (0x1F375, "tea");
  (0x1F376, "sake");
  (0x1F37E, "champagne");
  (0x1F377, "wine");
  (0x1F378, "cocktail");
  (0x1F379, "tropical");
  (0x1F37A, "beer");
  (0x1F37B, "beers");
  (0x1F942, "clinking");
  (0x1F943, "tumbler");
  (0x1F964, "cup_straw");
  (0x1F9CB, "bubble_tea");
  (0x1F9C3, "juice");
  (0x1F9C9, "mate");
  (0x1F9CA, "ice")
].

Definition ACTIVITIES : list (Z * string) := [
  (0x26BD, "soccer");
  (0x1F3C0, "basketball");
  (0x1F3C8, "football");
  (0x26BE, "baseball");
  (0x1F94E, "softball");
  (0x1F3BE, "tennis");
  (0x1F3D0, "volleyball");
  (0x1F3C9, "rugby");
  (0x1F94F, "flying_disc");
  (0x1F3B1, "billiards");
  (0x1F3D3, "ping_pong");
  (0x1F3F8, "badminton");
  (0x1F3D2, "hockey");
  (0x1F3D1, "field_hockey");
  (0x1F94D, "lacrosse");
  (0x1F3CF, "cricket");
  (0x1F945, "goal");
  (0x26F3, "golf");
  (0x1F3F9, "bow_arrow");
  (0x1F3A3, "fishing");
  (0x1F93F, "diving");
  (0x1F3BD, "running_shirt");
  (0x1F6F9, "skateboard");
  (0x1F6FC, "roller_skate");
  (0x1F94C, "curling");
  (0x26F7, "ski");
  (0x1F3BF, "skis");
  (0x1F3C2, "snowboard");
  (0x1F3CB, "weight_lift");
  (0x1F93C, "wrestling");
  (0x1F938, "cartwheeling");
  (0x1F93A, "fencing");
  (0x1F93E, "handball");
  (0x1F3CC, "golfing");
  (0x1F3C7, "horse_racing");
  (0x1F9D8, "yoga");
  (0x1F3AF, "dart");
  (0x1FA80, "yoyo");
  (0x1FA81, "kite");
  (0x1F3B0, "slot");
  (0x1F3B2, "dice");
  (0x1F9E9, "puzzle");
  (0x1F9F8, "teddy");
  (0x1FA86, "nesting");
  (0x2660, "spades");
  (0x2665, "hearts");
  (0x2666, "diamonds");
  (0x2663, "clubs");
  (0x265F, "chess");
  (0x1F0CF, "joker");
  (0x1F004, "mahjong");
  (0x1F3AD, "masks");
  (0x1F3A8, "art");
  (0x1F3C6, "trophy");
  (0x1F3C5, "medal");
  (0x1F947, "first_place");
  (0x1F948, "second_place");
  (0x1F949, "third_place");
  (0x1F94A, "boxing");
  (0x1F94B, "martial_arts");
  (0x1F3AE, "video_game");
  (0x1F579, "joystick");
  (0x1F3B9, "piano");
  (0x1F3B7, "saxophone");
  (0x1F3BA, "trumpet");
  (0x1F3B8, "guitar");
  (0x1FA95, "banjo");
  (0x1F3BB, "violin");
  (0x1FA98, "accordion");
  (0x1F941, "drum");
  (0x1FA97, "maracas");
  (0x1F3BC, "music_score");
  (0x1F3A4, "microphone");
  (0x1F3A7, "headphones");
  (0x1F4FB, "radio")
].

Definition TRAVEL : list (Z * string) := [
  (0x1F697, "car");
  (0x1F695, "taxi");
  (0x1F699, "suv");
  (0x1F68C, "bus");
  (0x1F68E, "trolley");
  (0x1F3CE, "race_car");
  (0x1F693, "police_car");
  (0x1F691, "ambulance");
  (0x1F692, "fire_engine");
  (0x1F690, "minibus");
  (0x1F6FB, "pickup");
  (0x1F69A, "truck");
  (0x1F69B, "semi");
  (0x1F69C, "tractor");
  (0x1F3CD, "motorcycle");
  (0x1F6F5, "scooter");
  (0x1F6B2, "bicycle");
  (0x1F6F4, "kick_scooter");
  (0x1F6FA, "auto_rick");
  (0x1F6A8, "police_light");
  (0x1F694, "police_car2");
  (0x1F68D, "bus2");
  (0x1F698, "car2");
  (0x1F696, "taxi2");
  (0x1F682, "train");
  (0x1F683, "railway");
  (0x1F684, "bullet");
  (0x1F685, "bullet2");
  (0x1F686, "train2");
  (0x1F687, "metro");
  (0x1F688, "light_rail");
  (0x1F689, "station");
  (0x1F68A, "tram");
  (0x1F69D, "monorail");
  (0x1F69E, "mountain_rail");
  (0x1F69F, "suspension");
  (0x1F6A0, "aerial");
  (0x1F6A1, "gondola");
  (0x1F681, "helicopter");
  (0x2708, "airplane");
  (0x1F6E9, "small_plane");
  (0x1F6EB, "departure");
  (0x1F6EC, "arrival");
  (0x1FA82, "parachute");
  (0x1F4BA, "seat");
  (0x1F680, "rocket");
  (0x1F6F8, "ufo");
  (0x1F6F0, "satellite");
  (0x1F6A2, "ship");
  (0x26F5, "sailboat");
  (0x1F6F6, "canoe");
  (0x1F6A4, "speedboat");
  (0x1F6F3, "ferry");
  (0x26F4, "ferry2");
  (0x1F6A3, "rowing");
  (0x2693, "anchor");
  (0x26FD, "fuel");
  (0x1F6A7, "construction");
  (0x1F6A6, "traffic");
  (0x1F6A5, "traffic2");
  (0x1F68F, "bus_stop");
  (0x1F5FA, "world_map");
  (0x1F5FF, "moyai");
  (0x1F5FD, "liberty");
  (0x1F5FC, "tokyo_tower");
  (0x1F3F0, "castle");
  (0x1F3EF, "japanese_castle");
  (0x1F3E0, "house");
  (0x1F3E1, "house_garden");
  (0x1F3E2, "office");
  (0x1F3E3, "post_office");
  (0x1F3E4, "post_office2");
  (0x1F3E5, "hospital");
  (0x1F3E6, "bank");
  (0x1F3E8, "hotel");
  (0x1F3E9, "love_hotel");
  (0x1F3EA, "store");
  (0x1F3EB, "school");
  (0x1F3EC, "department");
  (0x1F3ED, "factory");
  (0x26EA, "church");
  (0x1F54C, "mosque");
  (0x1F54D, "synagogue");
  (0x26E9, "shinto");
  (0x1F54B, "kaaba");
  (0x26F2, "fountain");
  (0x26FA, "tent");
  (0x1F30B, "volcano");
  (0x1F3D4, "mountain_snow");
  (0x1F3D5, "camping");
  (0x1F3D6, "beach");
  (0x1F3DC, "desert");
  (0x1F3DD, "island");
  (0x1F3DE, "park");
  (0x1F3DF, "stadium");
  (0x1F3DB, "classical");
  (0x1F3DA, "derelict");
  (0x1F3D7, "construction2");
  (0x1F3D8, "houses");
  (0x1F3D9, "cityscape")
].

Definition OBJECTS : list (Z * string) := [
  (0x231A, "watch");
  (0x1F4F1, "phone");
  (0x1F4F2, "calling");
  (0x1F4BB, "laptop");
  (0x2328, "keyboard");
  (0x1F5A5, "computer");
  (0x1F5A8, "printer");
  (0x1F5B1, "computer_mouse");
  (0x1F5B2, "trackball");
  (0x1F4BD, "minidisc");
  (0x1F4BE, "floppy");
  (0x1F4BF, "cd");
  (0x1F4C0, "dvd");
  (0x1F9EE, "abacus");
  (0x1F3A5, "film");
  (0x1F39E, "film_frames");
  (0x1F4FD, "projector");
  (0x1F3AC, "clapper");
  (0x1F4F7, "camera");
  (0x1F4F8, "camera_flash");
  (0x1F4F9, "video_camera");
  (0x1F4FC, "vhs");
  (0x1F50D, "mag");
  (0x1F50E, "mag_right");
  (0x1F56F, "candle");
  (0x1F4A1, "bulb");
  (0x1F526, "flashlight");
  (0x1F3EE, "lantern");
  (0x1FA94, "lamp");
  (0x1F4D4, "notebook");
  (0x1F4D5, "book_closed");
  (0x1F4D6, "book_open");
  (0x1F4D7, "green_book");
  (0x1F4D8, "blue_book");
  (0x1F4D9, "orange_book");
  (0x1F4DA, "books");
  (0x1F4D3, "notebook2");
  (0x1F4D2, "ledger");
  (0x1F4C3, "page_curl");
  (0x1F4DC, "scroll");
  (0x1F4C4, "page");
  (0x1F4F0, "newspaper");
  (0x1F5DE, "newspaper2");
  (0x1F4D1, "bookmark_tabs");
  (0x1F516, "bookmark");
  (0x1F3F7, "label");
  (0x1F4B0, "money_bag");
  (0x1FA99, "coin");
  (0x1F4B4, "yen");
  (0x1F4B5, "dollar");
  (0x1F4B6, "euro");
  (0x1F4B7, "pound");
  (0x1F4B8, "money_wings");
  (0x1F4B3, "credit_card");
  (0x1F9FE, "receipt");
  (0x1F4B9, "chart");
  (0x2709, "envelope");
  (0x1F4E7, "email");
  (0x1F4E8, "incoming");
  (0x1F4E9, "outbox");
  (0x1F4E4, "outbox2");
  (0x1F4E5, "inbox");
  (0x1F4E6, "package");
  (0x1F4EB, "mailbox");
  (0x1F4EA, "mailbox2");
  (0x1F4EC, "mailbox3");
  (0x1F4ED, "mailbox4");
  (0x1F4EE, "postbox");
  (0x1F5F3, "ballot");
  (0x270F, "pencil");
  (0x2712, "nib");
  (0x1F58B, "pen");
  (0x1F58A, "pen2");
  (0x1F58C, "brush");
  (0x1F58D, "crayon");
  (0x1F4DD, "memo");
  (0x1F4BC, "briefcase");
  (0x1F4C1, "folder");
  (0x1F4C2, "folder_open");
  (0x1F5C2, "dividers");
  (0x1F4C5, "calendar");
  (0x1F4C6, "calendar2");
  (0x1F5D2, "spiral_note");
  (0x1F5D3, "spiral_cal");
  (0x1F4C7, "rolodex");
  (0x1F4C8, "chart_up");
  (0x1F4C9, "chart_down");
  (0x1F4CA, "bar_chart");
  (0x1F4CB, "clipboard");
  (0x1F4CC, "pushpin");
  (0x1F4CD, "pin");
  (0x1F4CE, "paperclip");
  (0x1F587, "paperclips");
  (0x1F4CF, "ruler");
  (0x1F4D0, "ruler2");
  (0x2702, "scissors");
  (0x1F5C3, "card_box");
  (0x1F5C4, "cabinet");
  (0x1F5D1, "wastebasket");
  (0x1F512, "lock");
  (0x1F513, "unlock");
  (0x1F50F, "lock_pen");
  (0x1F510, "lock_key");
  (0x1F511, "key");
  (0x1F5DD, "old_key");
  (0x1F528, "hammer");
  (0x1FA93, "axe");
  (0x26CF, "pick");
  (0x2692, "hammer_pick");
  (0x1F6E0, "tools");
  (0x1F5E1, "dagger");
  (0x2694, "swords");
  (0x1F52B, "gun");
  (0x1FA83, "boomerang");
  (0x1F3F9, "bow2");
  (0x1F6E1, "shield");
  (0x1FA9A, "carpentry");
  (0x1F527, "wrench");
  (0x1FA9B, "screwdriver");
  (0x1F529, "nut_bolt");
  (0x2699, "gear");
  (0x1F5DC, "clamp");
  (0x2696, "scales");
  (0x1F9AF, "cane");
  (0x1F517, "link");
  (0x26D3, "chains");
  (0x1FA9D, "hook");
  (0x1F9F0, "toolbox");
  (0x1F9F2, "magnet");
  (0x1FA9C, "ladder");
  (0x2697, "alembic");
  (0x1F9EA, "test_tube");
  (0x1F9EB, "petri");
  (0x1F9EC, "dna");
  (0x1F52C, "microscope");
  (0x1F52D, "telescope");
  (0x1F4E1, "satellite2");
  (0x1F489, "syringe");
  (0x1FA78, "drop_blood");
  (0x1F48A, "pill");
  (0x1FA79, "adhesive_bandage");
  (0x1FA7A, "stethoscope");
  (0x1F6AA, "door");
  (0x1F6D7, "elevator");
  (0x1FA9E, "mirror");
  (0x1FA9F, "window");
  (0x1F6CF, "bed");
  (0x1F6CB, "couch");
  (0x1FA91, "chair");
  (0x1F6BD, "toilet");
  (0x1FAA0, "plunger");
  (0x1F6BF, "shower");
  (0x1F6C1, "bathtub");
  (0x1FAA4, "mousetrap");
  (0x1FA92, "razor");
  (0x1F9F4, "lotion");
  (0x1F9F7, "safety_pin");
  (0x1F9F9, "broom");
  (0x1F9FA, "basket");
  (0x1F9FB, "roll");
  (0x1FAA3, "bucket");
  (0x1F9FC, "soap");
  (0x1FAE7, "bubbles");
  (0x1FAA5, "toothbrush");
  (0x1F9FD, "sponge");
  (0x1F9EF, "extinguisher");
  (0x1F6D2, "cart");
  (0x1F6AC, "cigarette");
  (0x26B0, "coffin");
  (0x1FAA6, "headstone");
  (0x26B1, "urn");
  (0x1F5FF, "moai");
  (0x1FAA7, "placard");
  (0x1FAA8, "rock")
].

Definition SYMBOLS : list (Z * string) := [
  (0x2705, "check");
  (0x274C, "cross");
  (0x274E, "cross_neg");
  (0x2795, "plus");
  (0x2796, "minus");
  (0x2797, "divide");
  (0x27B0, "curly_loop");
  (0x27BF, "double_loop");
  (0x2B50, "star");
  (0x1F31F, "star2");
  (0x2728, "sparkles");
  (0x1F4AB, "dizzy");
  (0x1F4A5, "boom");
  (0x1F4A2, "anger");
  (0x1F4A6, "sweat_drops");
  (0x1F4A8, "dash");
  (0x1F573, "hole");
  (0x1F4AC, "speech");
  (0x1F5E8, "left_speech");
  (0x1F5EF, "speech_right");
  (0x1F4AD, "thought");
  (0x1F4A4, "zzz");
  (0x1F525, "fire");
  (0x1F4AF, "100");
  (0x1F389, "tada");
  (0x1F38A, "confetti");
  (0x1F388, "balloon");
  (0x1F381, "gift");
  (0x1F380, "ribbon");
  (0x1F397, "reminder");
  (0x1F39F, "tickets");
  (0x1F3AB, "ticket");
  (0x1F396, "military");
  (0x26A1, "zap");
  (0x1F300, "cyclone");
  (0x1F308, "rainbow");
  (0x2602, "umbrella2");
  (0x2614, "umbrella");
  (0x2604, "comet");
  (0x1F4A7, "droplet");
  (0x1F30A, "ocean");
  (0x1F514, "bell");
  (0x1F515, "no_bell");
  (0x1F3B5, "music");
  (0x1F3B6, "notes");
  (0x1F399, "studio_mic");
  (0x1F39A, "level");
  (0x1F39B, "knobs");
  (0x1F4FA, "tv");
  (0x1F507, "mute");
  (0x1F508, "quiet");
  (0x1F509, "sound");
  (0x1F50A, "loud");
  (0x1F4E3, "mega");
  (0x1F4E2, "loudspeaker");
  (0x1F50B, "battery");
  (0x1F50C, "plug");
  (0x2757, "exclamation");
  (0x2753, "question");
  (0x2754, "grey_question");
  (0x2755, "grey_excl");
  (0x2049, "interrobang");
  (0x203C, "bangbang");
  (0x1F534, "red_circle");
  (0x1F7E0, "orange_circle");
  (0x1F7E1, "yellow_circle");
  (0x1F7E2, "green_circle");
  (0x1F535, "blue_circle");
  (0x1F7E3, "purple_circle");
  (0x1F7E4, "brown_circle");
  (0x26AB, "black_circle");
  (0x26AA, "white_circle");
  (0x1F7E5, "red_square");
  (0x1F7E7, "orange_square");
  (0x1F7E8, "yellow_square");
  (0x1F7E9, "green_square");
  (0x1F7E6, "blue_square");
  (0x1F7EA, "purple_square");
  (0x1F7EB, "brown_square");
  (0x2B1B, "black_square");
  (0x2B1C, "white_square");
  (0x25FC, "black_medium");
  (0x25FB, "white_medium");
  (0x25FE, "black_small");
  (0x25FD, "white_small");
  (0x25AA, "black_tiny");
  (0x25AB, "white_tiny");
  (0x1F536, "orange_diamond");
  (0x1F537, "blue_diamond");
  (0x1F538, "small_orange");
  (0x1F539, "small_blue");
  (0x1F53A, "red_triangle");
  (0x1F53B, "red_triangle2");
  (0x1F4A0, "diamond_shape");
  (0x1F518, "radio_button");
  (0x1F532, "black_button");
  (0x1F533, "white_button");
  (0x26D4, "no_entry");
  (0x1F6AB, "no_entry2");
  (0x1F6B3, "no_bikes");
  (0x1F6AD, "no_smoking");
  (0x1F6AF, "no_litter");
  (0x1F6B1, "no_water");
  (0x1F6B7, "no_pedestrians");
  (0x1F4F5, "no_phones");
  (0x1F51E, "underage");
  (0x2622, "radioactive");
  (0x2623, "biohazard");
  (0x2B06, "arrow_up");
  (0x2197, "arrow_upper_right");
  (0x27A1, "arrow_right");
  (0x2198, "arrow_lower_right");
  (0x2B07, "arrow_down");
  (0x2199, "arrow_lower_left");
  (0x2B05, "arrow_left");
  (0x2196, "arrow_upper_left");
  (0x2195, "arrow_up_down");
  (0x2194, "arrow_left_right");
  (0x21A9, "leftwards");
  (0x21AA, "rightwards");
  (0x2934, "arrow_heading_up");
  (0x2935, "arrow_heading_down");
  (0x1F503, "clockwise");
  (0x1F504, "counterclockwise");
  (0x1F519, "back");
  (0x1F51A, "end");
  (0x1F51B, "on");
  (0x1F51C, "soon");
  (0x1F51D, "top");
  (0x1F6D0, "place_of_worship");
  (0x269B, "atom");
  (0x1F549, "om");
  (0x2721, "star_of_david");
  (0x2638, "wheel");
  (0x262F, "yin_yang");
  (0x271D, "cross2");
  (0x2626, "orthodox");
  (0x262A, "star_crescent");
  (0x262E, "peace");
  (0x1F54E, "menorah");
  (0x1F52F, "six_star");
  (0x2648, "aries");
  (0x2649, "taurus");
  (0x264A, "gemini");
  (0x264B, "cancer");
  (0x264C, "leo");
  (0x264D, "virgo");
  (0x264E, "libra");
  (0x264F, "scorpio");
  (0x2650, "sagittarius");
  (0x2651, "capricorn");
  (0x2652, "aquarius");
  (0x2653, "pisces");
  (0x26CE, "ophiuchus");
  (0x1F500, "shuffle");
  (0x1F501, "repeat");
  (0x1F502, "repeat_one");
  (0x25B6, "play");
  (0x23E9, "fast_forward");
  (0x23ED, "next_track");
  (0x23EF, "play_pause");
  (0x25C0, "reverse");
  (0x23EA, "rewind");
  (0x23EE, "prev_track");
  (0x1F53C, "up_button");
  (0x23EB, "fast_up");
  (0x1F53D, "down_button");
  (0x23EC, "fast_down");
  (0x23F8, "pause");
  (0x23F9, "stop");
  (0x23FA, "record");
  (0x23CF, "eject");
  (0x1F3A6, "cinema");
  (0x1F505, "low_bright");
  (0x1F506, "high_bright");
  (0x1F4F6, "signal");
  (0x1F4F3, "vibration");
  (0x1F4F4, "phone_off");
  (0x2640, "female");
  (0x2642, "male");
  (0x26A7, "transgender");
  (0x2716, "heavy_mult");
  (0x2795, "heavy_plus");
  (0x2796, "heavy_minus");
  (0x2797, "heavy_div");
  (0x267E, "infinity");
  (0x1F4B2, "heavy_dollar");
  (0x1F4B1, "currency");
  (0x00A9, "copyright");
  (0x00AE, "registered");
  (0x2122, "tm");
  (0x0030, "zero");
  (0x0031, "one");
  (0x0032, "two");
  (0x0033, "three");
  (0x0034, "four");
  (0x0035, "five");
  (0x0036, "six");
  (0x0037, "seven");
  (0x0038, "eight");
  (0x0039, "nine");
  (0x1F51F, "ten");
  (0x1F520, "abc_upper");
  (0x1F521, "abc_lower");
  (0x1F522, "numbers");
  (0x1F523, "symbols");
  (0x1F524, "abc");
  (0x1F170, "a_button");
  (0x1F18E, "ab_button");
  (0x1F171, "b_button");
  (0x1F191, "cl");
  (0x1F192, "cool");
  (0x1F193, "free");
  (0x2139, "info");
  (0x1F194, "id");
  (0x24C2, "m");
  (0x1F195, "new");
  (0x1F196, "ng");
  (0x1F17E, "o_button");
  (0x1F197, "ok");
  (0x1F17F, "parking");
  (0x1F198, "sos");
  (0x1F199, "up");
  (0x1F19A, "vs");
  (0x1F201, "koko");
  (0x1F202, "sa");
  (0x1F237, "monthly");
  (0x1F236, "u6709");
  (0x1F22F, "u6307");
  (0x1F250, "u5272");
  (0x1F239, "u5408");
  (0x1F21A, "u7121");
  (0x1F232, "u7981");
  (0x1F251, "u7a7a");
  (0x1F238, "u7533");
  (0x1F234, "u5408_2");
  (0x1F233, "u7a7a_2");
  (0x3297, "circled_ideograph");
  (0x3299, "circled_secret");
  (0x1F23A, "u55b6");
  (0x1F235, "u6e80")
].

Definition FLAGS : list (Z * string) := [
  (0x1F3C1, "checkered");
  (0x1F6A9, "triangular");
  (0x1F38C, "crossed_flags");
  (0x1F3F4, "black_flag");
  (0x1F3F3, "white_flag");
  (0x1F3F3, "rainbow_flag");
  (0x1F3F4, "pirate")
].

Definition EMOJI_DATA : list (string * list (Z * string)) := [
  ("FACES", FACES);
  ("GESTURES", GESTURES);
  ("PEOPLE", PEOPLE);
  ("HEARTS", HEARTS);
  ("ANIMALS", ANIMALS);
  ("FOOD", FOOD);
  ("ACTIVITIES", ACTIVITIES);
  ("TRAVEL", TRAVEL);
  ("OBJECTS", OBJECTS);
  ("SYMBOLS", SYMBOLS);
  ("FLAGS", FLAGS)
].

End Config.

Import Config.

(** [total = sum(len(v) for v in EMOJI_DATA.values())]. *)
Definition total : Z :=
  fold_left Z.add (map (fun kv => Z.of_nat (length (snd kv))) EMOJI_DATA) 0.

(** The configuration read as one sequence of records, in declaration
    order: categories in dict order, entries in list order. *)
Definition config_records (data : list (string * list (Z * string)))
  : list (string * (Z * string)) :=
  flat_map (fun kv => map (fun e => (fst kv, e)) (snd kv)) data.

Definition config_codepoints (data : list (string * list (Z * string))) : list Z :=
  map (fun r => fst (snd r)) (config_records data).

Definition config_shortcodes (data : list (string * list (Z * string))) : list string :=
  map (fun r => snd (snd r)) (config_records data).

(** ** The placeholder bitmap *)

Module Placeholder.

Local Open Scope string_scope.

Definition pattern : list string := [
  "000111111000";
  "001111111100";
  "011100001110";
  "011100001110";
  "000000011110";
  "000000111100";
  "000001111000";
  "000001110000";
  "000001110000";
  "000000000000";
  "000001110000";
  "000001110000"
].

(** [generate_placeholder(size=12)]: the two nested loops append one value
    per character of [pattern]; [size] is not read. *)
Definition generate_placeholder (size : Z) : list Z :=
  let yellow := rgb_to_rgb565 255 215 0 in
  let black := rgb_to_rgb565 0 0 0 in
  flat_map
    (fun row =>
       map (fun c => if Ascii.eqb c "1" then yellow else black)
           (list_ascii_of_string row))
    pattern.

End Placeholder.

Import Placeholder.

(** ** The process and its environment

    The script talks to four things outside itself: the cache directory,
    the network, the two output streams and the clock ([time.sleep]).
    They are gathered in one record that every operation threads through.

    - [cache_dir] is [None] while the directory [.emoji_cache] does not
      exist, and otherwise maps each file name in it to the file's bytes.
    - [network k url] is what the [k]-th request of the run, made for
      [url], yields: [Some body] when [urlopen] and [response.read()]
      succeed, [None] when they raise [URLError] or [HTTPError], the two
      exceptions [download_twemoji] handles.  What these calls raise
      beyond the two (a timeout or a dropped connection while the
      response is read) is caught nowhere and ends [main] with a
      traceback; a world has no such answer, so the development
      describes the runs in which no such exception is raised.
    - [trace] records, in order, every file read, file write, directory
      creation, network request and sleep.
    - [stdout] is the artifact, one element per [print] call (one line
      each); [stderr] holds the diagnostics. *)

Abbreviation bytes := (list Byte.byte).

Inductive Event : Type :=
| EvCacheRead (filename : string)
| EvRequest (url : string)
| EvMakeDirs
| EvCacheWrite (filename : string) (data : bytes)
| EvSleep.

(** The messages written to [sys.stderr]. *)
Inductive Diag : Type :=
| DTotal (n : Z)
| DGenerating
| DProcessing (codepoint : Z) (shortcode : string)
| DDownloadFailed (filename : string)
| DImageError
| DDone (success failed : Z).

Record World : Type := mkWorld {
  cache_dir : option (gmap string bytes);
  network : nat -> string -> option bytes;
  requests : nat;
  trace : list Event;
  stdout : list string;
  stderr : list Diag
}.

(** *** A state monad over [World] *)

Definition M (A : Type) : Type := World -> A * World.

#[global] Instance M_ret : MRet M := fun A (a : A) (w : World) => (a, w).

#[global] Instance M_bind : MBind M :=
  fun A B (k : A -> M B) (m : M A) (w : World) =>
    let (a, w') := m w in k a w'.

(** [for x in l: body(x)], with the loop-carried variables in [s]. *)
Fixpoint for_fold {A S : Type} (l : list A) (body : A -> S -> M S) (s : S) : M S :=
  match l with
  | [] => mret s
  | x :: rest => s' ← body x s; for_fold rest body s'
  end.

Definition for_each {A : Type} (l : list A) (body : A -> M ()) : M () :=
  for_fold l (fun x _ => body x) ().

(** The world a computation leaves, and the value it returns. *)
Definition exec {A} (m : M A) (w : World) : World := snd (m w).
Definition eval {A} (m : M A) (w : World) : A := fst (m w).

(** *** Primitive operations *)

Definition log_event (e : Event) : M () := fun w =>
  ((), mkWorld (cache_dir w) (network w) (requests w) (trace w ++ [e])
               (stdout w) (stderr w)).

(** [print(line)]. *)
Definition print (line : string) : M () := fun w =>
  ((), mkWorld (cache_dir w) (network w) (requests w) (trace w)
               (stdout w ++ [line]) (stderr w)).

(** [print(..., file=sys.stderr)]. *)
Definition print_err (d : Diag) : M () := fun w =>
  ((), mkWorld (cache_dir w) (network w) (requests w) (trace w)
               (stdout w) (stderr w ++ [d])).

(** [os.path.exists(CACHE_DIR)]. *)
Definition cache_dir_exists : M bool := fun w =>
  (bool_decide (is_Some (cache_dir w)), w).

(** [os.makedirs(CACHE_DIR)]: an empty directory appears. *)
Definition makedirs : M () := fun w =>
  ((), mkWorld (Some ∅) (network w) (requests w) (trace w ++ [EvMakeDirs])
               (stdout w) (stderr w)).

(** The bytes stored in the cache under [filename], if any: what
    [os.path.exists(cache_path)] and a read of the file observe. *)
Definition cached (w : World) (filename : string) : option bytes :=
  files ← cache_dir w; files !! filename.

(** [open(cache_path, 'wb').write(data)] in an existing directory. *)
Definition write_file (filename : string) (data : bytes) : M () := fun w =>
  ((), mkWorld (insert filename data <$> cache_dir w)
               (network w) (requests w)
               (trace w ++ [EvCacheWrite filename data])
               (stdout w) (stderr w)).

(** [ensure_cache_dir()]. *)
Definition ensure_cache_dir : M () :=
  there ← cache_dir_exists;
  if negb there then makedirs else mret ().

(** The cache read of [download_twemoji]: [os.path.exists(cache_path)],
    then [open(cache_path, 'rb').read()]; the bytes of the file when it is
    there, [None] when it is not. *)
Definition cache_get (filename : string) : M (option bytes) := fun w =>
  match cached w filename with
  | Some data => (Some data, snd (log_event (EvCacheRead filename) w))
  | None => (None, w)
  end.

(** The cache write of [download_twemoji]: [ensure_cache_dir()], then
    [open(cache_path, 'wb').write(data)]. *)
Definition cache_put (filename : string) (data : bytes) : M () :=
  ensure_cache_dir;;
  write_file filename data.

(** [urlopen(req, timeout=10, context=ctx)] and [response.read()]: one
    request; [None] stands for a raised [URLError] or [HTTPError], the
    exceptions the caller catches. *)
Definition urlopen_read (url : string) : M (option bytes) := fun w =>
  (network w (requests w) url,
   mkWorld (cache_dir w) (network w) (S (requests w))
           (trace w ++ [EvRequest url]) (stdout w) (stderr w)).

(** [time.sleep(0.05)]. *)
Definition sleep : M () := log_event EvSleep.

(** [if png_data:] – [None] and [b''] are both false. *)
Definition truthy {A} (v : option (list A)) : bool :=
  match v with
  | Some (_ :: _) => true
  | _ => false
  end.

(** ** The script *)

Section Script.

(** The Pillow part of [process_twemoji_to_rgb565]: [Image.open],
    [convert('RGBA')], [resize((size, size), LANCZOS)], pasting onto a black
    RGB canvas with the alpha channel as mask, and [getdata()].  It is
    library code; [pil_pixels png size] is the pixel list [getdata()]
    returns, or [None] when any of these calls raises. *)
Variable pil_pixels : bytes -> Z -> option (list (Z * Z * Z)).

Local Open Scope string_scope.

Definition TWEMOJI_BASE : string :=
  "https://raw.githubusercontent.com/twitter/twemoji/master/assets/72x72".

(** [codepoint_to_twemoji_filename(codepoint)]: [f"{codepoint:x}.png"]. *)
Definition codepoint_to_twemoji_filename (codepoint : Z) : string :=
  format_hex false 0 codepoint +:+ ".png".

(** [download_twemoji(codepoint)]. *)
Definition download_twemoji (codepoint : Z) : M (option bytes) :=
  let filename := codepoint_to_twemoji_filename codepoint in
  cached ← cache_get filename;
  match cached with
  | Some data => mret (Some data)
  | None =>
      let url := TWEMOJI_BASE +:+ "/" +:+ filename in
      response ← urlopen_read url;
      match response with
      | Some data =>
          cache_put filename data;;
          mret (Some data)
      | None =>
          print_err (DDownloadFailed filename);;
          mret None
      end
  end.

(** [process_twemoji_to_rgb565(png_data, size=12)]. *)
Definition process_twemoji_to_rgb565 (png_data : bytes) (size : Z)
  : M (option (list Z)) :=
  match pil_pixels png_data size with
  | Some pixels =>
      mret (Some (map (fun '(r, g, b) => rgb_to_rgb565 r g b) pixels))
  | None =>
      print_err DImageError;;
      mret None
  end.

(** One element of [all_entries]:
    [(codepoint, shortcode, var_name, category)]. *)
Record Entry : Type := mkEntry {
  entry_codepoint : Z;
  entry_shortcode : string;
  entry_var_name : string;
  entry_category : string
}.

(** The variables [main] carries through its loops. *)
Record Acc : Type := mkAcc {
  all_entries : list Entry;
  success_count : Z;
  fail_count : Z
}.

(** [range(start, stop, step)] for a positive [step]. *)
Definition range (start stop step : nat) : list nat :=
  map (fun k => (start + k * step)%nat)
      (seq 0 ((stop - start + step - 1) / step)).

(** One row of the emitted array: the values [data[i:i+12]]. *)
Definition bitmap_row (data : list Z) (i : nat) : string :=
  let row := slice data i (i + 12) in
  let hex_row := join ", " (map (fun v => "0x" +:+ format_hex true 4 v) row) in
  let comma := if (i + 12 <? 144)%nat then "," else "" in
  "    " +:+ hex_row +:+ comma.

(** The [PROGMEM] array printed for one emoji. *)
Definition bitmap_lines (var_name : string) (data : list Z) : list string :=
  ["static const uint16_t " +:+ var_name +:+ "[144] PROGMEM = {"]
  ++ map (bitmap_row data) (range 0 144 12)
  ++ ["};"; ""].

(** The choice of [data] in the loop body, with the counter it bumps. *)
Definition resolve_bitmap (codepoint : Z) (acc : Acc) : M (list Z * Acc) :=
  png_data ← download_twemoji codepoint;
  if truthy png_data then
    data ← process_twemoji_to_rgb565 (default [] png_data) 12;
    if truthy data then
      mret (default [] data,
            mkAcc (all_entries acc) (success_count acc + 1) (fail_count acc))
    else
      mret (generate_placeholder 12,
            mkAcc (all_entries acc) (success_count acc) (fail_count acc + 1))
  else
    mret (generate_placeholder 12,
          mkAcc (all_entries acc) (success_count acc) (fail_count acc + 1)).

(** The body of the inner loop, [for codepoint, shortcode in emojis].
    The diagnostic applies [chr()] to a code point below 0x10000, which
    needs it to be at least 0, and the name of the constant is made with
    [str.upper()], which [upper] is on ASCII: the definition is the loop
    body for records with such a code point and such a short code
    ([in_domain] below), as those of [EMOJI_DATA] are. *)
Definition process_emoji (category : string) (emoji : Z * string) (acc : Acc)
  : M Acc :=
  let '(codepoint, shortcode) := emoji in
  let var_name := "EMOJI_BMP_" +:+ upper shortcode in
  print_err (DProcessing codepoint shortcode);;
  '(data, acc) ← resolve_bitmap codepoint acc;
  for_each (bitmap_lines var_name data) print;;
  let acc := mkAcc (all_entries acc ++ [mkEntry codepoint shortcode var_name category])
                   (success_count acc) (fail_count acc) in
  sleep;;
  mret acc.

(** The body of the outer loop, [for category, emojis in EMOJI_DATA.items()]. *)
Definition process_category (item : string * list (Z * string)) (acc : Acc)
  : M Acc :=
  let '(category, emojis) := item in
  print ("// ============ " +:+ category +:+ " ("
         +:+ format_int (Z.of_nat (length emojis)) +:+ " emoji) ============");;
  print "";;
  for_fold emojis (process_emoji category) acc.

Definition header_lines (emoji_total : Z) : list string := [
  "/**";
  " * MeshBerry Emoji Bitmap Data (Auto-Generated from Twemoji)";
  " * ";
  " * SPDX-License-Identifier: GPL-3.0-or-later";
  " * Copyright (C) 2026 NodakMesh (nodakmesh.org)";
  " * ";
  " * Twemoji graphics licensed under CC-BY 4.0";
  " * https://github.com/twitter/twemoji";
  " * ";
  " * Total: " +:+ format_int emoji_total +:+ " emoji as 12x12 RGB565 bitmaps";
  " */";
  "";
  "#ifndef MESHBERRY_EMOJI_DATA_H";
  "#define MESHBERRY_EMOJI_DATA_H";
  "";
  "#include <Arduino.h>";
  "#include " +:+ dquote +:+ "Emoji.h" +:+ dquote;
  ""
].

(** One record of [EMOJI_TABLE]. *)
Definition table_line (e : Entry) : string :=
  let cat_enum := "EmojiCategory::" +:+ entry_category e in
  "    { 0x" +:+ format_hex true 5 (entry_codepoint e) +:+ ", "
  +:+ dquote +:+ entry_shortcode e +:+ dquote +:+ ", "
  +:+ entry_var_name e +:+ ", " +:+ cat_enum +:+ " },".

Definition table_lines (entries : list Entry) : list string :=
  ["// ============ EMOJI TABLE ============";
   "";
   "const int EMOJI_COUNT = " +:+ format_int (Z.of_nat (length entries)) +:+ ";";
   "";
   "const EmojiEntry EMOJI_TABLE[EMOJI_COUNT] PROGMEM = {"]
  ++ map table_line entries
  ++ ["};";
      "";
      "#endif // MESHBERRY_EMOJI_DATA_H"].

(** [main()], over the configuration [emoji_data] whose size was computed
    as [emoji_total] when the module was loaded.  It returns the final
    value of its local variables. *)
Definition main_on (emoji_data : list (string * list (Z * string)))
           (emoji_total : Z) : M Acc :=
  print_err DGenerating;;
  ensure_cache_dir;;
  for_each (header_lines emoji_total) print;;
  acc ← for_fold emoji_data process_category (mkAcc [] 0 0);
  for_each (table_lines (all_entries acc)) print;;
  print_err (DDone (success_count acc) (fail_count acc));;
  mret acc.

(** [main()] of the script: the configuration is the global [EMOJI_DATA]. *)
Definition main : M Acc := main_on EMOJI_DATA total.

(** The module-level statement that reports [total], then [main()]. *)
Definition script : M Acc :=
  print_err (DTotal total);;
  main.

End Script.

(** The artifact as text: every [print] ends its line with a newline. *)
Definition artifact_text (w : World) : string :=
  String.concat "" (map (fun line => line +:+ String "010"%char EmptyString) (stdout w)).

(** ** Vocabulary of the specification *)

(** The address [download_twemoji] requests for a code point. *)
Definition twemoji_url (codepoint : Z) : string :=
  TWEMOJI_BASE +:+ "/" +:+ codepoint_to_twemoji_filename codepoint.

(** The world at the start of a run: nothing printed, nothing requested. *)
Definition fresh_world (cache : option (gmap string bytes))
           (net : nat -> string -> option bytes) : World :=
  mkWorld cache net 0 [] [] [].

(** The [all_entries] element the loop body appends for one
    configuration record. *)
Definition entry_of_record (r : string * (Z * string)) : Entry :=
  let '(category, (codepoint, shortcode)) := r in
  mkEntry codepoint shortcode ("EMOJI_BMP_" +:+ upper shortcode) category.

Definition is_sleep (e : Event) : bool :=
  match e with EvSleep => true | _ => false end.

Definition is_request (e : Event) : bool :=
  match e with EvRequest _ => true | _ => false end.

(** How many times the run has slept, and how many requests it has made. *)
Definition count_sleeps (t : list Event) : nat := length (List.filter is_sleep t).
Definition count_requests (t : list Event) : nat := length (List.filter is_request t).

(** Every configured code point has its file in the cache. *)
Definition fully_warm (files : gmap string bytes)
           (data : list (string * list (Z * string))) : bool :=
  forallb (fun cp => bool_decide (is_Some (files !! codepoint_to_twemoji_filename cp)))
          (config_codepoints data).

(** What Pillow guarantees about [getdata()] on a [size] x [size] RGB
    image: [size * size] pixels, each channel an 8-bit value. *)
Definition pil_contract (pil_pixels : bytes -> Z -> option (list (Z * Z * Z))) : Prop :=
  forall png size pixels,
    pil_pixels png size = Some pixels ->
    length pixels = Z.to_nat (size * size)
    /\ Forall (fun '(r, g, b) => channel8 r /\ channel8 g /\ channel8 b) pixels.

(** A bitmap that fits the emitted [uint16_t name[144]] array. *)
Definition bitmap_ok (data : list Z) : Prop :=
  length data = 144%nat /\ Forall is_u16 data.

(** *** Concrete environments, used to exercise the theorems *)

Module Sample.

(** A stand-in for Pillow: payloads that start with the PNG signature
    byte decode to a uniformly orange image, others are rejected. *)
Definition pil (png : bytes) (size : Z) : option (list (Z * Z * Z)) :=
  match png with
  | x89 :: _ => Some (repeat (255, 128, 7) (Z.to_nat (size * size)))
  | _ => None
  end.

Definition png : bytes := [x89; x50; x4e; x47].

(** Three networks: one that always answers, one that never does, and
    one that answers with something Pillow rejects. *)
Definition net_up (k : nat) (url : string) : option bytes := Some png.
Definition net_down (k : nat) (url : string) : option bytes := None.
Definition net_junk (k : nat) (url : string) : option bytes := Some [x00].

(** A cache holding a file for every configured code point. *)
Definition warm_files : gmap string bytes :=
  list_to_map (map (fun cp => (codepoint_to_twemoji_filename cp, png))
                   (config_codepoints EMOJI_DATA)).

(** A cache holding only the file of U+1F600. *)
Definition grin_files : gmap string bytes := {[ "1f600.png"%string := png ]}.

Definition acc0 : Acc := mkAcc [] 0 0.

End Sample.

(** The two counter updates of the loop body. *)
Definition bump_success (acc : Acc) : Acc :=
  mkAcc (all_entries acc) (success_count acc + 1) (fail_count acc).

Definition bump_fail (acc : Acc) : Acc :=
  mkAcc (all_entries acc) (success_count acc) (fail_count acc + 1).

(** [rgb_to_rgb565] over a pixel list, as the conversion loop does it. *)
Definition quantize (pixels : list (Z * Z * Z)) : list Z :=
  map (fun '(r, g, b) => rgb_to_rgb565 r g b) pixels.

(** The events one fetch adds to the trace, read off the world it starts
    in: a file read on a hit; on a miss one request, followed, when the
    request succeeds, by the creation of the cache directory if it is
    missing and by the write of the file. *)
Definition fetch_events (codepoint : Z) (w : World) : list Event :=
  let filename := codepoint_to_twemoji_filename codepoint in
  match cached w filename with
  | Some _ => [EvCacheRead filename]
  | None =>
      match network w (requests w) (twemoji_url codepoint) with
      | Some data =>
          [EvRequest (twemoji_url codepoint)]
          ++ match cache_dir w with Some _ => [] | None => [EvMakeDirs] end
          ++ [EvCacheWrite filename data]
      | None => [EvRequest (twemoji_url codepoint)]
      end
  end.

(** The name of the bitmap constant of a short code. *)
Definition var_name_of (shortcode : string) : string :=
  "EMOJI_BMP_" +:+ upper shortcode.

(** What a stretch of the run has achieved, from the accumulator and
    world [(acc, w)] it started in, once it has gone through the
    configuration records [rs]: their entries were appended in order,
    standard output only grew, there was one sleep per record and one
    counter was bumped per record. *)
Definition progressed (acc : Acc) (w : World)
           (rs : list (string * (Z * string))) (acc' : Acc) (w' : World) : Prop :=
  all_entries acc' = all_entries acc ++ map entry_of_record rs
  /\ (exists body, stdout w' = stdout w ++ body)
  /\ count_sleeps (trace w') = (count_sleeps (trace w) + length rs)%nat
  /\ success_count acc' + fail_count acc'
     = success_count acc + fail_count acc + Z.of_nat (length rs).

(** The bitmap and the counters the loop body settles on, as a function
    of what the fetch returned. *)
Definition choose_bitmap (pil_pixels : bytes -> Z -> option (list (Z * Z * Z)))
           (png_data : option bytes) (acc : Acc) : list Z * Acc :=
  if truthy png_data then
    match pil_pixels (default [] png_data) 12 with
    | Some pixels =>
        if truthy (Some (quantize pixels))
        then (quantize pixels, bump_success acc)
        else (generate_placeholder 12, bump_fail acc)
    | None => (generate_placeholder 12, bump_fail acc)
    end
  else (generate_placeholder 12, bump_fail acc).

(** Two runs are in step over the cache [files] when they carry the same
    loop variables, have printed the same lines and both see [files]. *)
Definition in_step (files : gmap string bytes)
           (acc1 : Acc) (w1 : World) (acc2 : Acc) (w2 : World) : Prop :=
  acc1 = acc2 /\ stdout w1 = stdout w2
  /\ cache_dir w1 = Some files /\ cache_dir w2 = Some files.

(** The cache [files] holds the file of the record [e]. *)
Definition has_file (files : gmap string bytes) (e : Z * string) : Prop :=
  is_Some (files !! codepoint_to_twemoji_filename (fst e)).

Module SampleWorlds.

Import Sample.

(** The cache holds the file of U+1F600 and the network is down. *)
Definition hit_world : World := fresh_world (Some grin_files) net_down.

(** No cache directory yet; the network answers. *)
Definition cold_world_up : World := fresh_world None net_up.

(** No cache directory yet; the network is down. *)
Definition cold_world_down : World := fresh_world None net_down.

(** No cache directory yet; the network answers with an undecodable body. *)
Definition cold_world_junk : World := fresh_world None net_junk.

(** Every configured file is cached; the network answers, or is down. *)
Definition warm_world_up : World := fresh_world (Some warm_files) net_up.
Definition warm_world_down : World := fresh_world (Some warm_files) net_down.

End SampleWorlds.

(** An entry carries the code point and the short code of a record. *)
Definition carries (codepoint : Z) (shortcode : string) (e : Entry) : bool :=
  (entry_codepoint e =? codepoint) && String.eqb (entry_shortcode e) shortcode.

(** How many of [entries] carry that code point and short code. *)
Definition occurrences (codepoint : Z) (shortcode : string)
           (entries : list Entry) : nat :=
  length (List.filter (carries codepoint shortcode) entries).

(** Reads a trace for the pacing of requests.  [pending] tells whether a
    request has been made that no sleep has followed yet; a second
    request while one is pending is a violation ([None]); otherwise the
    result is the [pending] flag at the end of the trace. *)
Fixpoint paced (pending : bool) (t : list Event) : option bool :=
  match t with
  | [] => Some pending
  | EvRequest _ :: rest => if pending then None else paced true rest
  | EvSleep :: rest => paced false rest
  | _ :: rest => paced pending rest
  end.

(** From [w] to [w'] the run added events in which every request is
    followed by a sleep before the next request, and before the end. *)
Definition paced_run (w w' : World) : Prop :=
  exists events, trace w' = trace w ++ events /\ paced false events = Some false.

(** ** Further vocabulary: the life of the cache *)

(** Every file the cache held in [w] is still there in [w'], with the
    same bytes. *)
Definition cache_kept (w w' : World) : Prop :=
  forall filename data, cached w filename = Some data -> cached w' filename = Some data.

(** The cache of [w] holds a file for each of the records [rs]. *)
Definition fetched (rs : list (string * (Z * string))) (w : World) : Prop :=
  List.Forall
    (fun r => is_Some (cached w (codepoint_to_twemoji_filename (fst (snd r))))) rs.

(** The network answers every request. *)
Definition always_answers (net : nat -> string -> option bytes) : Prop :=
  forall k url, is_Some (net k url).

(** From [w] to [w'], with the same network, the cache lost nothing and
    came to hold a file for each of the records [rs]. *)
Definition stocked (w : World) (rs : list (string * (Z * string))) (w' : World) : Prop :=
  network w' = network w /\ cache_kept w w' /\ fetched rs w'.

(** From [w] to [w'] at most [n] requests were made, on the trace and on
    the request counter alike. *)
Definition requests_within (n : nat) (w w' : World) : Prop :=
  (count_requests (trace w) <= count_requests (trace w')
   /\ count_requests (trace w') <= count_requests (trace w) + n
   /\ requests w' - requests w = count_requests (trace w') - count_requests (trace w)
   /\ requests w <= requests w')%nat.

(** The run from [w] to [w'] stayed off the network and left the cache
    [files] as it was. *)
Definition offline (files : gmap string bytes) (w w' : World) : Prop :=
  cache_dir w' = Some files
  /\ requests w' = requests w
  /\ count_requests (trace w') = count_requests (trace w).

(** [w'] differs from [w] at most in what was printed. *)
Definition same_io (w w' : World) : Prop :=
  cache_dir w' = cache_dir w /\ network w' = network w
  /\ requests w' = requests w /\ trace w' = trace w.

(** ** Further vocabulary: the shape of the artifact *)

(** The line that opens the array of a bitmap constant. *)
Definition array_decl (var_name : string) : string :=
  "static const uint16_t " +:+ var_name +:+ "[144] PROGMEM = {".

(** A line opens an array when it starts like [array_decl]. *)
Definition is_array_decl (line : string) : bool :=
  String.prefix "static const uint16_t " line.

(** The bitmap constant a table record refers to: its third field. *)
Definition declared_names (data : list (string * list (Z * string))) : list string :=
  map (fun r => var_name_of (snd (snd r))) (config_records data).

(** From [w] to [w'] the lines printed open exactly the arrays of the
    records [rs], in order. *)
Definition declares (rs : list (string * (Z * string))) (w w' : World) : Prop :=
  exists body,
    stdout w' = stdout w ++ body
    /\ List.filter is_array_decl body
       = map (fun r => array_decl (var_name_of (snd (snd r)))) rs.

(** * The theme patch script

    Shallow embedding of
    [meshtastic_base/firmware/lib/device-ui-override/apply_theme_patch.py],
    a PlatformIO pre-build script that copies patched files over those of
    the device-ui library, keeping a backup of each original.

    The script sees the file system and prints.  Regular files are a
    finite map from paths to contents, directories a finite map from
    paths to what [os.listdir] returns for them, in that order.  The
    paths the script copies from and to are taken to name regular files
    or nothing, and the library directory to be a directory or nothing;
    [shutil.copy2] is then the copy of the bytes, and a copy to a path
    that did not exist adds the new name to the listing of its
    directory.  [os.path.join], [os.path.basename] and [os.path.dirname]
    are library code and are parameters. *)

Module ThemePatch.

Local Open Scope string_scope.

Record PatchWorld : Type := mkPatchWorld {
  files : gmap string bytes;
  dirs : gmap string (list string);
  printed : list string
}.

(** [str.lower()] on one ASCII character, and on a string. *)
Definition lower_ascii (c : ascii) : ascii :=
  let n := nat_of_ascii c in
  if ((65 <=? n) && (n <=? 90))%nat then ascii_of_nat (n + 32) else c.

Fixpoint lower (s : string) : string :=
  match s with
  | EmptyString => EmptyString
  | String c rest => String (lower_ascii c) (lower rest)
  end.

(** [needle in hay] for strings. *)
Fixpoint contains (needle hay : string) : bool :=
  String.prefix needle hay
  || match hay with
     | EmptyString => false
     | String _ rest => contains needle rest
     end.

(** [env.get(key, "")]. *)
Definition env_get (env : gmap string string) (key : string) : string :=
  default "" (env !! key).

(** [os.path.exists] of a path used as a file. *)
Definition file_exists (w : PatchWorld) (path : string) : bool :=
  bool_decide (is_Some (files w !! path)).

(** [print(line)]. *)
Definition say (line : string) (w : PatchWorld) : PatchWorld :=
  mkPatchWorld (files w) (dirs w) (printed w ++ [line]).

(** A new name in the listing of directory [dir].  [os.listdir] promises
    no order; the new name is put last.  A directory the world does not
    list stays unlisted. *)
Definition add_name (dir name : string) (listings : gmap string (list string))
  : gmap string (list string) :=
  alter (fun names => (names ++ [name])%list) dir listings.

Definition PATCH_FILES : list (string * string) := [
  ("source/graphics/TFT/Themes.cpp", "source/graphics/TFT/Themes.cpp");
  ("generated/ui_320x240/screens.c", "generated/ui_320x240/screens.c")
].

Section Script.

Variable path_join : string -> string -> string.
Variable basename : string -> string.
Variable dirname : string -> string.

(** [shutil.copy2(src, dst)], called on an existing [src] only: [dst]
    receives the bytes of [src]; when [dst] did not exist, its name
    appears in the listing of its directory. *)
Definition copy2 (src dst : string) (w : PatchWorld) : PatchWorld :=
  match files w !! src with
  | Some content =>
      mkPatchWorld (<[dst := content]> (files w))
                   (if files w !! dst is Some _ then dirs w
                    else add_name (dirname dst) (basename dst) (dirs w))
                   (printed w)
  | None => w
  end.

(** [libdeps_dir]: [os.path.join(project_dir, ".pio", "libdeps", PIOENV)]. *)
Definition libdeps_dir_of (env : gmap string string) : string :=
  path_join (path_join (path_join (env_get env "PROJECT_DIR") ".pio") "libdeps")
            (env_get env "PIOENV").

(** [override_dir]: [os.path.join(project_dir, "lib", "device-ui-override")]. *)
Definition override_dir_of (env : gmap string string) : string :=
  path_join (path_join (env_get env "PROJECT_DIR") "lib") "device-ui-override".

(** The search loop: the first listed name that passes the test, joined
    to the directory; [None] when the loop ends without a [break]. *)
Fixpoint find_device_ui (libdeps_dir : string) (names : list string) : option string :=
  match names with
  | [] => None
  | name :: rest =>
      if contains "device-ui" (lower name)
         || contains "meshtastic-device-ui" (lower name)
      then Some (path_join libdeps_dir name)
      else find_device_ui libdeps_dir rest
  end.

(** [device_ui_dir] after the search: the loop runs only when
    [os.path.exists(libdeps_dir)]. *)
Definition device_ui_dir_of (env : gmap string string) (w : PatchWorld) : option string :=
  match dirs w !! libdeps_dir_of env with
  | Some names => find_device_ui (libdeps_dir_of env) names
  | None => None
  end.

(** The body of [for source_rel, target_rel in PATCH_FILES]. *)
Definition apply_patch (override_dir device_ui_dir : string)
           (patch : string * string) (w : PatchWorld) : PatchWorld :=
  let '(source_rel, target_rel) := patch in
  let patch_source := path_join override_dir source_rel in
  let patch_target := path_join device_ui_dir target_rel in
  if negb (file_exists w patch_source) then w
  else if file_exists w patch_target then
    let backup_path := patch_target +:+ ".original" in
    let w :=
      if negb (file_exists w backup_path)
      then say ("Backed up original " +:+ basename patch_target)
               (copy2 patch_target backup_path w)
      else w in
    say ("Applied Unbound Meshberry patch: " +:+ basename patch_target)
        (copy2 patch_source patch_target w)
  else say ("WARNING: Target not found: " +:+ patch_target) w.

(** [apply_patches(source, target, env)] over the patch list
    [patch_files]; its first two arguments are not used. *)
Definition apply_patches_on (patch_files : list (string * string))
           (env : gmap string string) (w : PatchWorld) : PatchWorld :=
  match device_ui_dir_of env w with
  | None =>
      say "WARNING: device-ui library not found, Unbound Meshberry patches not applied" w
  | Some device_ui_dir =>
      fold_left (fun w patch => apply_patch (override_dir_of env) device_ui_dir patch w)
                patch_files w
  end.

Definition apply_patches (env : gmap string string) (w : PatchWorld) : PatchWorld :=
  apply_patches_on PATCH_FILES env w.

(** The paths a run may write: the targets of the patches and their
    backups. *)
Definition targets_of (device_ui_dir : string) (patch_files : list (string * string))
  : list string :=
  map (fun p => path_join device_ui_dir (snd p)) patch_files.

Definition backups_of (device_ui_dir : string) (patch_files : list (string * string))
  : list string :=
  map (fun p => path_join device_ui_dir (snd p) +:+ ".original") patch_files.

Definition sources_of (override_dir : string) (patch_files : list (string * string))
  : list string :=
  map (fun p => path_join override_dir (fst p)) patch_files.

(** The layout the script is written for: targets and backups are
    pairwise distinct paths, and no patch source is among them. *)
Definition separate (override_dir device_ui_dir : string)
           (patch_files : list (string * string)) : Prop :=
  NoDup (targets_of device_ui_dir patch_files ++ backups_of device_ui_dir patch_files)
  /\ List.Forall
       (fun s => ~ In s (targets_of device_ui_dir patch_files
                         ++ backups_of device_ui_dir patch_files))
       (sources_of override_dir patch_files).

(** A patch that has nothing left to do: its source or its target is
    missing, or the backup exists and the target holds the source's
    bytes. *)
Definition settled (od dd : string) (w : PatchWorld) (patch : string * string) : Prop :=
  let s := path_join od (fst patch) in
  let t := path_join dd (snd patch) in
  let b := (t +:+ ".original")%string in
  files w !! s = None
  \/ files w !! t = None
  \/ (is_Some (files w !! b) /\ files w !! t = files w !! s).

End Script.

(** [os.path.join], [os.path.basename] and [os.path.dirname] as on a
    POSIX host, [os.path.join] for two components; used to exercise the
    theorems. *)
Definition ends_with_slash (s : string) : bool :=
  match get (String.length s - 1) s with
  | Some c => Ascii.eqb c "/"
  | None => false
  end.

Definition posix_join (a b : string) : string :=
  if String.prefix "/" b then b
  else if (String.length a =? 0)%nat || ends_with_slash a then a +:+ b
  else a +:+ "/" +:+ b.

Fixpoint posix_basename (s : string) : string :=
  match s with
  | EmptyString => EmptyString
  | String c rest =>
      if contains "/" rest then posix_basename rest
      else if Ascii.eqb c "/" then rest else s
  end.

(** [os.path.dirname]: what precedes the last slash, without the
    slashes that end it, unless it consists of slashes only. *)
Fixpoint strip_slashes (rev_head : list ascii) : list ascii :=
  match rev_head with
  | c :: rest => if Ascii.eqb c "/" then strip_slashes rest else rev_head
  | [] => []
  end.

Fixpoint posix_head (s : string) : list ascii :=
  match s with
  | EmptyString => []
  | String c rest => if contains "/" s then c :: posix_head rest else []
  end.

Definition posix_dirname (s : string) : string :=
  let head := posix_head s in
  match strip_slashes (rev head) with
  | [] => string_of_list_ascii head
  | kept => string_of_list_ascii (rev kept)
  end.

(** A project with the library installed, both patch sources present,
    only the first target present. *)
Definition sample_env : gmap string string :=
  {[ "PROJECT_DIR" := "/p"; "PIOENV" := "t-deck" ]}.

Definition sample_world : PatchWorld :=
  mkPatchWorld
    {[ "/p/lib/device-ui-override/source/graphics/TFT/Themes.cpp" := [x01];
       "/p/lib/device-ui-override/generated/ui_320x240/screens.c" := [x02];
       "/p/.pio/libdeps/t-deck/Meshtastic-Device-UI/source/graphics/TFT/Themes.cpp" := [x03] ]}
    {[ "/p/.pio/libdeps/t-deck" := ["ArduinoJson"; "Meshtastic-Device-UI"; "device-ui-old"];
       "/p/.pio/libdeps/t-deck/Meshtastic-Device-UI/source/graphics/TFT"
         := ["Themes.cpp"; "Themes.h"] ]}
    [].

(** The library directory the script finds in [sample_world]. *)
Definition sample_library : string := "/p/.pio/libdeps/t-deck/Meshtastic-Device-UI".

(** A project whose libraries were never installed. *)
Definition bare_world : PatchWorld := mkPatchWorld ∅ ∅ [].

End ThemePatch.
(** ** Further vocabulary: the printed text *)

(** A value as an array prints it: [f"0x{v:04X}"]. *)
Definition hex_literal (v : Z) : string := "0x" +:+ format_hex true 4 v.

(** The values of row [k] of an array printed from [data]:
    [data[12 * k : 12 * k + 12]]. *)
Definition row_values (data : list Z) (k : nat) : list Z :=
  firstn 12 (skipn (12 * k) data).

(** A printed row: four spaces, the values separated by a comma and a
    space, and a comma at the end of every row but the last. *)
Definition row_text (values : list Z) (last : bool) : string :=
  "    " +:+ String.concat ", " (map hex_literal values) +:+ (if last then "" else ",")%string.

(** The fifteen lines of the array [var_name] printed from [data]: the
    declaration, twelve rows, the closing brace and an empty line. *)
Definition array_text (var_name : string) (data : list Z) : list string :=
  array_decl var_name
  :: map (fun k => row_text (row_values data k) (k =? 11)%nat) (seq 0 12)
  ++ ["};"; ""]%string.

(** The twelve rows printed for the placeholder: a question mark in
    yellow ([0xFEA0]) on black. *)
Definition placeholder_rows : list string := [
  "    0x0000, 0x0000, 0x0000, 0xFEA0, 0xFEA0, 0xFEA0, 0xFEA0, 0xFEA0, 0xFEA0, 0x0000, 0x0000, 0x0000,";
  "    0x0000, 0x0000, 0xFEA0, 0xFEA0, 0xFEA0, 0xFEA0, 0xFEA0, 0xFEA0, 0xFEA0, 0xFEA0, 0x0000, 0x0000,";
  "    0x0000, 0xFEA0, 0xFEA0, 0xFEA0, 0x0000, 0x0000, 0x0000, 0x0000, 0xFEA0, 0xFEA0, 0xFEA0, 0x0000,";
  "    0x0000, 0xFEA0, 0xFEA0, 0xFEA0, 0x0000, 0x0000, 0x0000, 0x0000, 0xFEA0, 0xFEA0, 0xFEA0, 0x0000,";
  "    0x0000, 0x0000, 0x0000, 0x0000, 0x0000, 0x0000, 0x0000, 0xFEA0, 0xFEA0, 0xFEA0, 0xFEA0, 0x0000,";
  "    0x0000, 0x0000, 0x0000, 0x0000, 0x0000, 0x0000, 0xFEA0, 0xFEA0, 0xFEA0, 0xFEA0, 0x0000, 0x0000,";
  "    0x0000, 0x0000, 0x0000, 0x0000, 0x0000, 0xFEA0, 0xFEA0, 0xFEA0, 0xFEA0, 0x0000, 0x0000, 0x0000,";
  "    0x0000, 0x0000, 0x0000, 0x0000, 0x0000, 0xFEA0, 0xFEA0, 0xFEA0, 0x0000, 0x0000, 0x0000, 0x0000,";
  "    0x0000, 0x0000, 0x0000, 0x0000, 0x0000, 0xFEA0, 0xFEA0, 0xFEA0, 0x0000, 0x0000, 0x0000, 0x0000,";
  "    0x0000, 0x0000, 0x0000, 0x0000, 0x0000, 0x0000, 0x0000, 0x0000, 0x0000, 0x0000, 0x0000, 0x0000,";
  "    0x0000, 0x0000, 0x0000, 0x0000, 0x0000, 0xFEA0, 0xFEA0, 0xFEA0, 0x0000, 0x0000, 0x0000, 0x0000,";
  "    0x0000, 0x0000, 0x0000, 0x0000, 0x0000, 0xFEA0, 0xFEA0, 0xFEA0, 0x0000, 0x0000, 0x0000, 0x0000"
]%string.

(** The twelve rows printed for a bitmap that is [0xFC00] throughout. *)
Definition orange_rows : list string :=
  repeat "    0xFC00, 0xFC00, 0xFC00, 0xFC00, 0xFC00, 0xFC00, 0xFC00, 0xFC00, 0xFC00, 0xFC00, 0xFC00, 0xFC00,"%string 11
  ++ ["    0xFC00, 0xFC00, 0xFC00, 0xFC00, 0xFC00, 0xFC00, 0xFC00, 0xFC00, 0xFC00, 0xFC00, 0xFC00, 0xFC00"%string].

(** The record the table holds for a configuration record:
    [{ 0x<id>, "<name>", EMOJI_BMP_<NAME>, EmojiCategory::<category> },]. *)
Definition table_record (r : string * (Z * string)) : string :=
  let '(category, (codepoint, shortcode)) := r in
  "    { 0x" +:+ format_hex true 5 codepoint +:+ ", "
  +:+ dquote +:+ shortcode +:+ dquote
  +:+ ", EMOJI_BMP_" +:+ upper shortcode
  +:+ ", EmojiCategory::" +:+ category +:+ " },".

(** A line is a table record when it starts like one. *)
Definition is_table_record (line : string) : bool :=
  String.prefix "    { 0x" line.

(** The text between the first two double quotes of a line: the name a
    table record carries. *)
Fixpoint after_quote (s : string) : string :=
  match s with
  | EmptyString => EmptyString
  | String c rest => if Ascii.eqb c "034"%char then rest else after_quote rest
  end.

Fixpoint before_quote (s : string) : string :=
  match s with
  | EmptyString => EmptyString
  | String c rest =>
      if Ascii.eqb c "034"%char then EmptyString else String c (before_quote rest)
  end.

Definition name_field (line : string) : string := before_quote (after_quote line).

(** The table records among [lines] that carry the name [shortcode]. *)
Definition records_named (shortcode : string) (lines : list string) : list string :=
  List.filter (fun line => is_table_record line && String.eqb (name_field line) shortcode)
              lines.

(** From [w] to [w'] lines were printed, none of them a table record. *)
Definition plain (w w' : World) : Prop :=
  exists body, stdout w' = stdout w ++ body /\ List.filter is_table_record body = [].

(** How many requests for [url] a trace holds. *)
Definition requests_for (url : string) (t : list Event) : nat :=
  length (List.filter (fun e => match e with
                                | EvRequest u => String.eqb u url
                                | _ => false
                                end) t).

(** [f] holds of every integer from 0 up to [n], [n] excluded. *)
Definition holds_below (f : Z -> bool) (n : N) : bool :=
  fst (N.iter n (fun s : bool * Z => (fst s && f (snd s), snd s + 1)) (true, 0)).

(** The domain of the embedding: code points that [chr()] and the
    format specifications accept, and short codes in ASCII, on which
    [Text.upper] is [str.upper()]. *)
Definition in_domain (r : string * (Z * string)) : bool :=
  let '(_, (codepoint, shortcode)) := r in
  (0 <=? codepoint) && (codepoint <=? 0x10FFFF)
  && forallb (fun c => (nat_of_ascii c <? 128)%nat) (list_ascii_of_string shortcode).

(** ** The image pipeline, pixel by pixel

    [process_twemoji_to_rgb565] takes the result of [getdata()] as a
    whole, from [pil_pixels].  Here the Pillow calls of that function are
    followed one by one, as far as the number of pixels and the width of
    the channels go.  Decoding, conversion and resampling stay a
    parameter, and so does the arithmetic of blending one channel; the
    canvas is the one [Image.new] creates, [paste] changes it in place,
    and a channel of an RGB image is one byte. *)

Module Pillow.

Definition rgba : Type := Byte.byte * Byte.byte * Byte.byte * Byte.byte.
Definition rgb : Type := Byte.byte * Byte.byte * Byte.byte.

Section Pipeline.

(** [Image.open(io.BytesIO(png_data))], [convert('RGBA')] when the mode is
    another, and [resize((size, size), LANCZOS)]: the pixels of the
    resized image, row by row, or [None] when one of the calls raises. *)
Variable load : bytes -> Z -> option (list rgba).

(** What [paste] under a mask leaves in one channel of one pixel, from
    the channel of the canvas, that of the pasted image, and the mask. *)
Variable blend : Byte.byte -> Byte.byte -> Byte.byte -> Byte.byte.

(** [Image.new('RGB', (size, size), (0, 0, 0))], for [size >= 0]. *)
Definition new_canvas (size : Z) : list rgb :=
  repeat (x00, x00, x00) (Z.to_nat size * Z.to_nat size).

(** [r, g, b, a = img.split()], [rgb_img = Image.merge('RGB', (r, g, b))]
    and [background.paste(rgb_img, mask=a)], for an image with as many
    pixels as the canvas: the canvas is changed in place, pixel by pixel. *)
Definition paste (background : list rgb) (img : list rgba) : list rgb :=
  zip_with (fun (under : rgb) (over : rgba) =>
              let '(r0, g0, b0) := under in
              let '(r, g, b, a) := over in
              (blend r0 r a, blend g0 g a, blend b0 b a))
           background img.

(** [list(background.getdata())]: one tuple of integers per pixel. *)
Definition getdata (image : list rgb) : list (Z * Z * Z) :=
  map (fun px : rgb =>
         let '(r, g, b) := px in
         (Z.of_N (Byte.to_N r), Z.of_N (Byte.to_N g), Z.of_N (Byte.to_N b)))
      image.

(** The pixel list the conversion loop of [process_twemoji_to_rgb565]
    runs over, or [None] when a Pillow call raises: [Image.new] refuses a
    negative size, and [paste] an image that does not match the canvas. *)
Definition pixels (png_data : bytes) (size : Z) : option (list (Z * Z * Z)) :=
  if size <? 0 then None
  else
    match load png_data size with
    | Some img =>
        let background := new_canvas size in
        if (length img =? length background)%nat
        then Some (getdata (paste background img))
        else None
    | None => None
    end.

End Pipeline.

(** A stand-in for the library, used to exercise the theorems: payloads
    that start with the PNG signature byte decode to an opaque orange
    image, and an opaque pixel replaces the canvas. *)
Definition sample_load (png : bytes) (size : Z) : option (list rgba) :=
  match png with
  | x89 :: _ => Some (repeat (xff, x80, x07, xff) (Z.to_nat (size * size)))
  | _ => None
  end.

Definition sample_blend (under over mask : Byte.byte) : Byte.byte :=
  if Byte.eqb mask xff then over else under.

End Pillow.
(** * Theorems *)

Example format_hex_04X : format_hex true 4 0xFEA0 = "FEA0"%string.
Proof. reflexivity. Qed.

Example format_hex_04X_pad : format_hex true 4 0x1F = "001F"%string.
Proof. reflexivity. Qed.

Example format_hex_05X : format_hex true 5 0x263A = "0263A"%string.
Proof. reflexivity. Qed.

Example format_hex_x : format_hex false 0 0x1F600 = "1f600"%string.
Proof. reflexivity. Qed.

Example upper_shortcode : upper "grin_sweat2" = "GRIN_SWEAT2"%string.
Proof. reflexivity. Qed.

Example format_hex_negative : format_hex true 4 (-15) = "-00F"%string.
Proof. reflexivity. Qed.

Example yellow_is_FEA0 : rgb_to_rgb565 255 215 0 = 0xFEA0.
Proof. reflexivity. Qed.

Example placeholder_first_row :
  bitmap_row (generate_placeholder 12) 0 =
  "    0x0000, 0x0000, 0x0000, 0xFEA0, 0xFEA0, 0xFEA0, 0xFEA0, 0xFEA0, 0xFEA0, 0x0000, 0x0000, 0x0000,"%string.
Proof. reflexivity. Qed.

Example placeholder_last_row :
  bitmap_row (generate_placeholder 12) 132 =
  "    0x0000, 0x0000, 0x0000, 0x0000, 0x0000, 0xFEA0, 0xFEA0, 0xFEA0, 0x0000, 0x0000, 0x0000, 0x0000"%string.
Proof. reflexivity. Qed.

Example table_line_checkered :
  table_line (entry_of_record ("FLAGS", (0x1F3C1, "checkered")))%string =
  ("    { 0x1F3C1, " +:+ dquote +:+ "checkered" +:+ dquote
   +:+ ", EMOJI_BMP_CHECKERED, EmojiCategory::FLAGS },")%string.
Proof. reflexivity. Qed.

(** A run over a one-record configuration, no cache directory, network
    down: the directory is created, one request is made and fails, the
    placeholder is printed and the run sleeps once. *)
Example one_record_run :
  let w := exec (main_on Sample.pil [("FLAGS", [(0x1F3C1, "checkered")])]%string 1)
                SampleWorlds.cold_world_down in
  trace w = [EvMakeDirs; EvRequest (twemoji_url 0x1F3C1); EvSleep]
  /\ stderr w = [DGenerating; DProcessing 0x1F3C1 "checkered";
                 DDownloadFailed "1f3c1.png"; DDone 0 1]
  /\ cache_dir w = Some ∅
  /\ firstn 3 (skipn 18 (stdout w)) =
       ["// ============ FLAGS (1 emoji) ============"; "";
        "static const uint16_t EMOJI_BMP_CHECKERED[144] PROGMEM = {"]%string
  /\ skipn 35 (stdout w) =
       ["// ============ EMOJI TABLE ============"; "";
        "const int EMOJI_COUNT = 1;"; "";
        "const EmojiEntry EMOJI_TABLE[EMOJI_COUNT] PROGMEM = {";
        table_line (entry_of_record ("FLAGS", (0x1F3C1, "checkered")));
        "};"; ""; "#endif // MESHBERRY_EMOJI_DATA_H"]%string.
Proof. vm_compute. repeat split. Qed.

(** ** Bit-level facts used by the quantisation proof *)

Section Bits.

Lemma testbit_above (x k n : Z) :
  0 <= x < 2 ^ k -> 0 <= k <= n -> Z.testbit x n = false.
Proof.
  intros Hx Hk. destruct (Z.eq_dec x 0) as [->|Hne]; [apply Z.bits_0|].
  apply Z.bits_above_log2; [lia|].
  apply Z.lt_le_trans with k; [|lia]. apply Z.log2_lt_pow2; lia.
Qed.

(** The mask [256 - 2^k] has exactly the bits [k..7]. *)
Lemma testbit_high_mask (k n : Z) :
  0 <= k <= 8 -> 0 <= n ->
  Z.testbit (256 - 2 ^ k) n = (k <=? n) && (n <? 8).
Proof.
  intros Hk Hn.
  assert (k = 0 \/ k = 1 \/ k = 2 \/ k = 3 \/ k = 4 \/ k = 5 \/ k = 6
          \/ k = 7 \/ k = 8) as Hcases by lia.
  destruct (Z_lt_le_dec n 8) as [Hlt|Hge].
  - assert (n = 0 \/ n = 1 \/ n = 2 \/ n = 3 \/ n = 4 \/ n = 5 \/ n = 6
            \/ n = 7) as Hn8 by lia.
    repeat (destruct Hcases as [->|Hcases]); try subst k;
      repeat (destruct Hn8 as [->|Hn8]); try subst n; reflexivity.
  - replace (n <? 8) with false by (symmetry; apply Z.ltb_ge; lia).
    rewrite andb_false_r.
    apply (testbit_above _ 8); [|lia].
    assert (0 < 2 ^ k) by (apply Z.pow_pos_nonneg; lia).
    assert (2 ^ k <= 2 ^ 8) by (apply Z.pow_le_mono_r; lia).
    change (2 ^ 8) with 256 in *. lia.
Qed.

(** Masking an 8-bit value with [256 - 2^k] clears its [k] low bits. *)
Lemma land_high_mask (x k : Z) :
  0 <= k <= 8 -> 0 <= x <= 255 ->
  Z.land x (256 - 2 ^ k) = Z.shiftl (Z.shiftr x k) k.
Proof.
  intros Hk Hx. apply Z.bits_inj'. intros n Hn.
  rewrite Z.land_spec, testbit_high_mask by lia.
  rewrite Z.shiftl_spec by lia.
  destruct (Z_lt_le_dec n k) as [Hlt|Hge].
  - replace (k <=? n) with false by (symmetry; apply Z.leb_gt; lia).
    rewrite (Z.testbit_neg_r _ (n - k)) by lia. now rewrite andb_false_r.
  - replace (k <=? n) with true by (symmetry; apply Z.leb_le; lia).
    rewrite Z.shiftr_spec by lia. replace (n - k + k) with n by lia.
    cbn [andb]. destruct (Z_lt_le_dec n 8) as [Hn8|Hn8].
    + replace (n <? 8) with true by (symmetry; apply Z.ltb_lt; lia).
      apply andb_true_r.
    + rewrite (testbit_above x 8 n) by (change (2 ^ 8) with 256; lia).
      reflexivity.
Qed.

(** Truncating shift then re-positioning is division then multiplication. *)
Lemma shift_field (x k p : Z) :
  0 <= k -> 0 <= p ->
  Z.shiftl (Z.shiftr x k) p = (x / 2 ^ k) * 2 ^ p.
Proof.
  intros Hk Hp. now rewrite Z.shiftl_mul_pow2, Z.shiftr_div_pow2 by lia.
Qed.

(** Two values whose bits do not overlap are or-ed by adding them. *)
Lemma lor_disjoint_add (a b : Z) : Z.land a b = 0 -> Z.lor a b = a + b.
Proof.
  intros H. rewrite <- Z.lxor_lor by exact H.
  symmetry. apply Z.add_nocarry_lxor. exact H.
Qed.

(** A value below [2^k], placed at [p], does not meet a value below [2^p]. *)
Lemma land_shifted_disjoint (hi lo p : Z) :
  0 <= p -> 0 <= lo < 2 ^ p -> Z.land (Z.shiftl hi p) lo = 0.
Proof.
  intros Hp Hlo. apply Z.bits_inj'. intros n Hn.
  rewrite Z.land_spec, Z.bits_0, Z.shiftl_spec by lia.
  destruct (Z_lt_le_dec n p) as [Hlt|Hge].
  - now rewrite Z.testbit_neg_r by lia.
  - rewrite (testbit_above lo p n) by lia. apply andb_false_r.
Qed.

End Bits.

(** ** C1: the 5-6-5 packing *)

Lemma rgb565_shift_form (r g b : Z) :
  channel8 r -> channel8 g ->
  rgb_to_rgb565 r g b =
  Z.lor (Z.lor (Z.shiftl (Z.shiftr r 3) 11) (Z.shiftl (Z.shiftr g 2) 5))
        (Z.shiftr b 3).
Proof.
  unfold channel8, rgb_to_rgb565. intros Hr Hg.
  change 0xF8 with (256 - 2 ^ 3). change 0xFC with (256 - 2 ^ 2).
  rewrite !land_high_mask by lia.
  rewrite !Z.shiftl_shiftl by lia. reflexivity.
Qed.

Lemma rgb565_sum_form (r g b : Z) :
  channel8 r -> channel8 g -> channel8 b ->
  rgb_to_rgb565 r g b = (r / 8) * 2048 + (g / 4) * 32 + b / 8.
Proof.
  unfold channel8. intros Hr Hg Hb.
  rewrite rgb565_shift_form by assumption.
  rewrite !shift_field by lia.
  rewrite Z.shiftr_div_pow2 by lia.
  change (2 ^ 3) with 8. change (2 ^ 2) with 4.
  change (2 ^ 11) with 2048. change (2 ^ 5) with 32.
  assert (0 <= r / 8 <= 31) by (Z.div_mod_to_equations; lia).
  assert (0 <= g / 4 <= 63) by (Z.div_mod_to_equations; lia).
  assert (0 <= b / 8 <= 31) by (Z.div_mod_to_equations; lia).
  rewrite (lor_disjoint_add (r / 8 * 2048) (g / 4 * 32)).
  - rewrite lor_disjoint_add; [reflexivity|].
    replace (r / 8 * 2048 + g / 4 * 32) with (Z.shiftl (r / 8 * 64 + g / 4) 5)
      by (rewrite Z.shiftl_mul_pow2 by lia; change (2 ^ 5) with 32; lia).
    apply land_shifted_disjoint; [lia|]. change (2 ^ 5) with 32. lia.
  - replace (r / 8 * 2048) with (Z.shiftl (r / 8) 11)
      by (rewrite Z.shiftl_mul_pow2 by lia; reflexivity).
    apply land_shifted_disjoint; [lia|]. change (2 ^ 11) with 2048. lia.
Qed.

Lemma rgb565_is_u16 (r g b : Z) :
  channel8 r -> channel8 g -> channel8 b -> is_u16 (rgb_to_rgb565 r g b).
Proof.
  intros Hr Hg Hb. rewrite rgb565_sum_form by assumption.
  unfold channel8, is_u16 in *.
  assert (0 <= r / 8 <= 31) by (Z.div_mod_to_equations; lia).
  assert (0 <= g / 4 <= 63) by (Z.div_mod_to_equations; lia).
  assert (0 <= b / 8 <= 31) by (Z.div_mod_to_equations; lia).
  lia.
Qed.

(** C1.  For 8-bit channels the quantiser returns
    [((r >> 3) << 11) | ((g >> 2) << 5) | (b >> 3)]: red in the five top
    bits, green in the six middle bits, blue in the five low bits, each
    channel truncated (the result is [r/8 * 2^11 + g/4 * 2^5 + b/8] with
    floor division), a 16-bit value; white gives 0xFFFF, black 0x0000 and
    pure red 0xF800. *)
Theorem rgb_to_rgb565_packs_565 (r g b : Z) :
  channel8 r -> channel8 g -> channel8 b ->
  rgb_to_rgb565 r g b =
    Z.lor (Z.lor (Z.shiftl (Z.shiftr r 3) 11) (Z.shiftl (Z.shiftr g 2) 5))
          (Z.shiftr b 3)
  /\ rgb_to_rgb565 r g b = (r / 8) * 2 ^ 11 + (g / 4) * 2 ^ 5 + b / 8
  /\ is_u16 (rgb_to_rgb565 r g b)
  /\ rgb_to_rgb565 255 255 255 = 0xFFFF
  /\ rgb_to_rgb565 0 0 0 = 0x0000
  /\ rgb_to_rgb565 255 0 0 = 0xF800.
Proof.
  intros Hr Hg Hb.
  split; [now apply rgb565_shift_form|].
  split; [now apply rgb565_sum_form|].
  split; [now apply rgb565_is_u16|].
  repeat split; reflexivity.
Qed.

Lemma rgb_to_rgb565_packs_565_witness :
  channel8 200 /\ channel8 100 /\ channel8 50
  /\ rgb_to_rgb565 200 100 50 = (200 / 8) * 2 ^ 11 + (100 / 4) * 2 ^ 5 + 50 / 8
  /\ is_u16 (rgb_to_rgb565 200 100 50).
Proof.
  assert (H200 : channel8 200) by (unfold channel8; lia).
  assert (H100 : channel8 100) by (unfold channel8; lia).
  assert (H50 : channel8 50) by (unfold channel8; lia).
  destruct (rgb_to_rgb565_packs_565 200 100 50 H200 H100 H50) as (_ & Hsum & Hu16 & _).
  split; [exact H200|]. split; [exact H100|]. split; [exact H50|].
  split; [exact Hsum|exact Hu16].
Defined.

(** ** The placeholder *)

Lemma generate_placeholder_const (size : Z) :
  generate_placeholder size = generate_placeholder 12.
Proof. reflexivity. Qed.

Lemma generate_placeholder_length (size : Z) :
  length (generate_placeholder size) = 144%nat.
Proof. reflexivity. Qed.

Lemma generate_placeholder_colors (size : Z) :
  Forall (fun v => v = 0xFEA0 \/ v = 0x0000) (generate_placeholder size).
Proof.
  unfold generate_placeholder. apply List.Forall_forall. intros v Hv.
  apply in_flat_map in Hv. destruct Hv as (row & _ & Hv).
  apply in_map_iff in Hv. destruct Hv as (c & <- & _).
  destruct (Ascii.eqb c "1"); [left|right]; reflexivity.
Qed.

Lemma generate_placeholder_ok (size : Z) : bitmap_ok (generate_placeholder size).
Proof.
  split; [apply generate_placeholder_length|].
  eapply List.Forall_impl; [|apply generate_placeholder_colors].
  intros v [->| ->]; unfold is_u16; lia.
Qed.

(** C10.  The placeholder generator does not read [size]: whatever the
    argument, the result is the value computed for 12, a list of 144 cells
    that are yellow (0xFEA0) where [pattern] has a 1 and black elsewhere.
    Hence the list has [size * size] cells only for a side length of 12
    (over all of [Z], 144 is also the square of -12, which is no side
    length). *)
Theorem generate_placeholder_ignores_size (size : Z) :
  generate_placeholder size = generate_placeholder 12
  /\ length (generate_placeholder size) = 144%nat
  /\ generate_placeholder size =
       flat_map (fun row => map (fun c => if Ascii.eqb c "1" then 0xFEA0 else 0x0000)
                                (list_ascii_of_string row)) pattern
  /\ (Z.of_nat (length (generate_placeholder size)) = size * size
      <-> size = 12 \/ size = -12)
  /\ (0 <= size ->
      (Z.of_nat (length (generate_placeholder size)) = size * size <-> size = 12)).
Proof.
  split; [reflexivity|]. split; [reflexivity|]. split; [reflexivity|].
  rewrite generate_placeholder_length. change (Z.of_nat 144) with 144.
  split; [|intros Hsize]; split; intros H; nia.
Qed.

Lemma generate_placeholder_ignores_size_witness :
  generate_placeholder 5 = generate_placeholder 12
  /\ Z.of_nat (length (generate_placeholder 5)) <> 5 * 5
  /\ Z.of_nat (length (generate_placeholder 12)) = 12 * 12.
Proof.
  destruct (generate_placeholder_ignores_size 5) as (H1 & _ & _ & _ & H5).
  destruct (generate_placeholder_ignores_size 12) as (_ & _ & _ & _ & H12).
  split; [exact H1|]. split.
  - intros Heq. apply H5 in Heq; lia.
  - apply H12; lia.
Defined.

(** ** Running the monad *)

Section Run.

Context {A B : Type}.

Lemma run_bind (m : M A) (k : A -> M B) (w : World) :
  (m ≫= k) w = k (eval m w) (exec m w).
Proof. unfold mbind, M_bind, eval, exec. now destruct (m w). Qed.

End Run.

Section Loops.

Context {A S : Type}.
Variable body : A -> S -> M S.

Lemma for_fold_cons (x : A) (l : list A) (s : S) (w : World) :
  for_fold (x :: l) body s w = for_fold l body (eval (body x s) w) (exec (body x s) w).
Proof. cbn [for_fold]. apply run_bind. Qed.

(** The loop rule: an invariant indexed by the elements already visited. *)
Lemma for_fold_invariant (Inv : list A -> S -> World -> Prop) :
  (forall seen x s w,
      Inv seen s w -> Inv (seen ++ [x]) (eval (body x s) w) (exec (body x s) w)) ->
  forall l seen s w,
    Inv seen s w ->
    Inv (seen ++ l) (eval (for_fold l body s) w) (exec (for_fold l body s) w).
Proof.
  intros Hstep l. induction l as [|x l IH]; intros seen s w Hinv.
  - rewrite app_nil_r. exact Hinv.
  - unfold eval, exec in *. rewrite for_fold_cons.
    replace (seen ++ x :: l) with ((seen ++ [x]) ++ l) by now rewrite <- app_assoc.
    apply IH. apply Hstep. exact Hinv.
Qed.

(** The same rule for two runs in lockstep, over elements that satisfy a
    side condition [P]. *)
Lemma for_fold_lockstep (P : A -> Prop) (R : S -> World -> S -> World -> Prop) :
  (forall x s1 w1 s2 w2,
      P x -> R s1 w1 s2 w2 ->
      R (eval (body x s1) w1) (exec (body x s1) w1)
        (eval (body x s2) w2) (exec (body x s2) w2)) ->
  forall l s1 w1 s2 w2,
    List.Forall P l -> R s1 w1 s2 w2 ->
    R (eval (for_fold l body s1) w1) (exec (for_fold l body s1) w1)
      (eval (for_fold l body s2) w2) (exec (for_fold l body s2) w2).
Proof.
  intros Hstep l. induction l as [|x l IH]; intros s1 w1 s2 w2 HP HR.
  - exact HR.
  - unfold eval, exec in *. rewrite !for_fold_cons.
    apply IH; [now inversion HP|]. apply Hstep; [now inversion HP|exact HR].
Qed.

End Loops.

Lemma for_each_print (l : list string) (w : World) :
  for_each l print w =
  ((), mkWorld (cache_dir w) (network w) (requests w) (trace w)
               (stdout w ++ l) (stderr w)).
Proof.
  revert w. induction l as [|x l IH]; intros w.
  - destruct w. cbn. now rewrite app_nil_r.
  - unfold for_each in *. cbn. unfold mbind, M_bind. cbn. rewrite IH. cbn.
    now rewrite <- app_assoc.
Qed.

(** ** The fetcher *)

Lemma ensure_cache_dir_run (w : World) :
  ensure_cache_dir w =
  ((), match cache_dir w with
       | Some _ => w
       | None => mkWorld (Some ∅) (network w) (requests w)
                         (trace w ++ [EvMakeDirs]) (stdout w) (stderr w)
       end).
Proof.
  unfold ensure_cache_dir, mbind, M_bind, cache_dir_exists.
  destruct (cache_dir w) eqn:E; reflexivity.
Qed.

Lemma cache_put_run (filename : string) (data : bytes) (w : World) :
  cache_put filename data w =
  ((), mkWorld (Some (<[filename := data]> (default ∅ (cache_dir w))))
               (network w) (requests w)
               (trace w ++ match cache_dir w with Some _ => [] | None => [EvMakeDirs] end
                        ++ [EvCacheWrite filename data])
               (stdout w) (stderr w)).
Proof.
  unfold cache_put. rewrite run_bind. unfold eval, exec. rewrite ensure_cache_dir_run.
  destruct w as [c n r t o e]. destruct c; unfold write_file; cbn; [reflexivity|].
  now rewrite <- app_assoc.
Qed.

Lemma download_hit (cp : Z) (w : World) (data : bytes) :
  cached w (codepoint_to_twemoji_filename cp) = Some data ->
  download_twemoji cp w =
  (Some data,
   mkWorld (cache_dir w) (network w) (requests w)
           (trace w ++ [EvCacheRead (codepoint_to_twemoji_filename cp)])
           (stdout w) (stderr w)).
Proof.
  intros H. unfold download_twemoji, mbind, M_bind, cache_get.
  rewrite H. reflexivity.
Qed.

Lemma download_miss_ok (cp : Z) (w : World) (data : bytes) :
  cached w (codepoint_to_twemoji_filename cp) = None ->
  network w (requests w) (twemoji_url cp) = Some data ->
  download_twemoji cp w =
  (Some data,
   mkWorld (Some (<[codepoint_to_twemoji_filename cp := data]> (default ∅ (cache_dir w))))
           (network w) (S (requests w))
           (trace w ++ [EvRequest (twemoji_url cp)]
                    ++ match cache_dir w with Some _ => [] | None => [EvMakeDirs] end
                    ++ [EvCacheWrite (codepoint_to_twemoji_filename cp) data])
           (stdout w) (stderr w)).
Proof.
  intros H Hn. unfold download_twemoji, mbind, M_bind, cache_get. rewrite H.
  unfold urlopen_read. fold (twemoji_url cp). rewrite Hn.
  rewrite cache_put_run. cbn [cache_dir network requests trace stdout stderr].
  now rewrite <- app_assoc.
Qed.

Lemma download_miss_fail (cp : Z) (w : World) :
  cached w (codepoint_to_twemoji_filename cp) = None ->
  network w (requests w) (twemoji_url cp) = None ->
  download_twemoji cp w =
  (None,
   mkWorld (cache_dir w) (network w) (S (requests w))
           (trace w ++ [EvRequest (twemoji_url cp)])
           (stdout w) (stderr w ++ [DDownloadFailed (codepoint_to_twemoji_filename cp)])).
Proof.
  intros H Hn. unfold download_twemoji, mbind, M_bind, cache_get. rewrite H.
  unfold urlopen_read. fold (twemoji_url cp). rewrite Hn. reflexivity.
Qed.

(** The three ways a fetch can go: a cache hit, a miss answered by the
    network, a miss the network fails. *)
Ltac fetch_cases cp w :=
  let Hc := fresh "Hc" in
  let Hn := fresh "Hn" in
  destruct (cached w (codepoint_to_twemoji_filename cp)) as [?data|] eqn:Hc;
  [ rewrite (download_hit cp w _ Hc)
  | destruct (network w (requests w) (twemoji_url cp)) as [?data|] eqn:Hn;
    [ rewrite (download_miss_ok cp w _ Hc Hn)
    | rewrite (download_miss_fail cp w Hc Hn) ] ].

(** What a fetch returns, read off the world it starts in. *)
Lemma download_eval (cp : Z) (w : World) :
  eval (download_twemoji cp) w =
  match cached w (codepoint_to_twemoji_filename cp) with
  | Some data => Some data
  | None => network w (requests w) (twemoji_url cp)
  end.
Proof. unfold eval. fetch_cases cp w; reflexivity. Qed.

(** A fetch never prints on standard output. *)
Lemma download_stdout (cp : Z) (w : World) :
  stdout (exec (download_twemoji cp) w) = stdout w.
Proof. unfold exec. fetch_cases cp w; reflexivity. Qed.

Lemma count_sleeps_app (t1 t2 : list Event) :
  count_sleeps (t1 ++ t2) = (count_sleeps t1 + count_sleeps t2)%nat.
Proof. unfold count_sleeps. now rewrite List.filter_app, length_app. Qed.

Lemma count_requests_app (t1 t2 : list Event) :
  count_requests (t1 ++ t2) = (count_requests t1 + count_requests t2)%nat.
Proof. unfold count_requests. now rewrite List.filter_app, length_app. Qed.

(** A fetch never sleeps. *)
Lemma download_sleeps (cp : Z) (w : World) :
  count_sleeps (trace (exec (download_twemoji cp) w)) = count_sleeps (trace w).
Proof.
  unfold exec. fetch_cases cp w; cbn [snd trace];
    rewrite !count_sleeps_app; try destruct (cache_dir w); cbn; lia.
Qed.

(** A fetch makes at most one request, and none on a cache hit. *)
Lemma download_requests (cp : Z) (w : World) :
  count_requests (trace (exec (download_twemoji cp) w)) =
  (count_requests (trace w)
   + match cached w (codepoint_to_twemoji_filename cp) with
     | Some _ => 0
     | None => 1
     end)%nat.
Proof.
  unfold exec. fetch_cases cp w; cbn [snd trace];
    rewrite !count_requests_app; try destruct (cache_dir w); cbn; lia.
Qed.

(** ** Choosing the bitmap *)

Section Bitmap.

Variable pil_pixels : bytes -> Z -> option (list (Z * Z * Z)).

Lemma process_twemoji_run (png : bytes) (size : Z) (w : World) :
  process_twemoji_to_rgb565 pil_pixels png size w =
  match pil_pixels png size with
  | Some pixels => (Some (quantize pixels), w)
  | None => (None, exec (print_err DImageError) w)
  end.
Proof.
  unfold process_twemoji_to_rgb565. destruct (pil_pixels png size); reflexivity.
Qed.

Lemma process_twemoji_eval (png : bytes) (size : Z) (w : World) :
  eval (process_twemoji_to_rgb565 pil_pixels png size) w
  = quantize <$> pil_pixels png size.
Proof.
  unfold eval. rewrite process_twemoji_run. now destruct (pil_pixels png size).
Qed.

Lemma process_twemoji_exec (png : bytes) (size : Z) (w : World) :
  exec (process_twemoji_to_rgb565 pil_pixels png size) w
  = match pil_pixels png size with
    | Some _ => w
    | None => exec (print_err DImageError) w
    end.
Proof.
  unfold exec at 1. rewrite process_twemoji_run. now destruct (pil_pixels png size).
Qed.

(** The loop body's choice, spelled out on the outcome of the fetch. *)
Lemma resolve_bitmap_run (cp : Z) (acc : Acc) (w : World) :
  resolve_bitmap pil_pixels cp acc w =
  let png_data := eval (download_twemoji cp) w in
  let wd := exec (download_twemoji cp) w in
  if truthy png_data then
    match pil_pixels (default [] png_data) 12 with
    | Some pixels =>
        if truthy (Some (quantize pixels))
        then (quantize pixels, bump_success acc, wd)
        else (generate_placeholder 12, bump_fail acc, wd)
    | None => (generate_placeholder 12, bump_fail acc, exec (print_err DImageError) wd)
    end
  else (generate_placeholder 12, bump_fail acc, wd).
Proof.
  cbn zeta. unfold resolve_bitmap. rewrite run_bind.
  destruct (truthy (eval (download_twemoji cp) w)); [|reflexivity].
  rewrite run_bind, process_twemoji_eval, process_twemoji_exec.
  destruct (pil_pixels _ 12) as [pixels|]; cbn [fmap option_fmap option_map]; [|reflexivity].
  destruct (truthy _); reflexivity.
Qed.

Lemma resolve_bitmap_eval (cp : Z) (acc : Acc) (w : World) :
  eval (resolve_bitmap pil_pixels cp acc) w
  = choose_bitmap pil_pixels (eval (download_twemoji cp) w) acc.
Proof.
  unfold eval at 1. rewrite resolve_bitmap_run. cbn zeta. unfold choose_bitmap.
  destruct (truthy (eval _ w)); [|reflexivity].
  destruct (pil_pixels _ 12) as [pixels|]; [destruct (truthy _)|]; reflexivity.
Qed.

(** Whatever happens, [resolve_bitmap] touches the cache, the network and
    the trace only through its one fetch, prints nothing on standard
    output and leaves [all_entries] alone. *)
Lemma resolve_bitmap_frame (cp : Z) (acc : Acc) (w : World) :
  let w' := exec (resolve_bitmap pil_pixels cp acc) w in
  let wd := exec (download_twemoji cp) w in
  cache_dir w' = cache_dir wd /\ network w' = network wd
  /\ requests w' = requests wd /\ trace w' = trace wd
  /\ stdout w' = stdout w
  /\ all_entries (snd (eval (resolve_bitmap pil_pixels cp acc) w)) = all_entries acc.
Proof.
  cbn zeta. rewrite <- (download_stdout cp w).
  unfold eval, exec. rewrite resolve_bitmap_run. cbn zeta.
  destruct (truthy (eval _ w)); [|cbn; tauto].
  destruct (pil_pixels _ 12) as [pixels|]; [destruct (truthy _)|]; cbn; tauto.
Qed.

(** Exactly one counter goes up by one. *)
Lemma resolve_bitmap_counts (cp : Z) (acc : Acc) (w : World) :
  let acc' := snd (eval (resolve_bitmap pil_pixels cp acc) w) in
  (success_count acc' + fail_count acc' = success_count acc + fail_count acc + 1)%Z.
Proof.
  cbn zeta. unfold eval. rewrite resolve_bitmap_run. cbn zeta.
  destruct (truthy (eval _ w)); [|cbn; lia].
  destruct (pil_pixels _ 12) as [pixels|]; [destruct (truthy _)|]; cbn; lia.
Qed.

End Bitmap.

(** ** One pass of the loop body *)

Lemma download_trace (cp : Z) (w : World) :
  trace (exec (download_twemoji cp) w) = trace w ++ fetch_events cp w.
Proof.
  unfold exec, fetch_events. fetch_cases cp w; reflexivity.
Qed.

Section Step.

Variable pil_pixels : bytes -> Z -> option (list (Z * Z * Z)).

Lemma process_emoji_run (cat : string) (cp : Z) (sc : string) (acc : Acc) (w : World) :
  process_emoji pil_pixels cat (cp, sc) acc w =
  let w1 := exec (print_err (DProcessing cp sc)) w in
  let r := eval (resolve_bitmap pil_pixels cp acc) w1 in
  let w2 := exec (resolve_bitmap pil_pixels cp acc) w1 in
  (mkAcc (all_entries (snd r) ++ [entry_of_record (cat, (cp, sc))])
         (success_count (snd r)) (fail_count (snd r)),
   mkWorld (cache_dir w2) (network w2) (requests w2) (trace w2 ++ [EvSleep])
           (stdout w2 ++ bitmap_lines (var_name_of sc) (fst r)) (stderr w2)).
Proof.
  cbn zeta. unfold process_emoji. rewrite !run_bind.
  set (w1 := exec (print_err (DProcessing cp sc)) w).
  unfold eval, exec.
  destruct (resolve_bitmap pil_pixels cp acc w1) as [[data acc'] w2] eqn:E.
  cbn [fst snd]. rewrite !run_bind. unfold eval, exec.
  rewrite for_each_print. reflexivity.
Qed.

(** A fetch does not look at the diagnostics already written. *)
Lemma download_eval_after_print_err (cp : Z) (d : Diag) (w : World) :
  eval (download_twemoji cp) (exec (print_err d) w) = eval (download_twemoji cp) w.
Proof. now rewrite !download_eval. Qed.

Lemma process_emoji_eval (cat : string) (cp : Z) (sc : string) (acc : Acc) (w : World) :
  eval (process_emoji pil_pixels cat (cp, sc) acc) w =
  let acc' := snd (choose_bitmap pil_pixels (eval (download_twemoji cp) w) acc) in
  mkAcc (all_entries acc' ++ [entry_of_record (cat, (cp, sc))])
        (success_count acc') (fail_count acc').
Proof.
  unfold eval at 1. rewrite process_emoji_run. cbn zeta. cbn [fst].
  now rewrite resolve_bitmap_eval, download_eval_after_print_err.
Qed.

Lemma process_emoji_cache_dir (cat : string) (cp : Z) (sc : string) (acc : Acc) (w : World) :
  cache_dir (exec (process_emoji pil_pixels cat (cp, sc) acc) w)
  = cache_dir (exec (download_twemoji cp) w).
Proof.
  unfold exec at 1. rewrite process_emoji_run. cbn zeta. cbn [snd cache_dir].
  destruct (resolve_bitmap_frame pil_pixels cp acc
              (exec (print_err (DProcessing cp sc)) w)) as (-> & _).
  unfold exec. fetch_cases cp w.
  - erewrite download_hit by exact Hc. reflexivity.
  - erewrite download_miss_ok by (exact Hc || exact Hn). reflexivity.
  - erewrite download_miss_fail by (exact Hc || exact Hn). reflexivity.
Qed.

(** The entry of the record is appended, whatever the fetch did. *)
Lemma process_emoji_entries (cat : string) (e : Z * string) (acc : Acc) (w : World) :
  all_entries (eval (process_emoji pil_pixels cat e acc) w)
  = all_entries acc ++ [entry_of_record (cat, e)].
Proof.
  destruct e as [cp sc]. unfold eval. rewrite process_emoji_run. cbn zeta. cbn [fst all_entries].
  now destruct (resolve_bitmap_frame pil_pixels cp acc
                  (exec (print_err (DProcessing cp sc)) w)) as (_ & _ & _ & _ & _ & ->).
Qed.

(** One array is printed: that of the bitmap [resolve_bitmap] chose. *)
Lemma process_emoji_stdout (cat : string) (cp : Z) (sc : string) (acc : Acc) (w : World) :
  stdout (exec (process_emoji pil_pixels cat (cp, sc) acc) w)
  = stdout w ++ bitmap_lines (var_name_of sc)
       (fst (eval (resolve_bitmap pil_pixels cp acc)
                  (exec (print_err (DProcessing cp sc)) w))).
Proof.
  unfold exec at 1. rewrite process_emoji_run. cbn zeta. cbn [snd stdout].
  now destruct (resolve_bitmap_frame pil_pixels cp acc
                  (exec (print_err (DProcessing cp sc)) w)) as (_ & _ & _ & _ & -> & _).
Qed.

Lemma process_emoji_stdout_choice (cat : string) (cp : Z) (sc : string) (acc : Acc) (w : World) :
  stdout (exec (process_emoji pil_pixels cat (cp, sc) acc) w)
  = stdout w ++ bitmap_lines (var_name_of sc)
       (fst (choose_bitmap pil_pixels (eval (download_twemoji cp) w) acc)).
Proof.
  now rewrite process_emoji_stdout, resolve_bitmap_eval, download_eval_after_print_err.
Qed.

(** The trace grows by the events of the fetch, then one sleep. *)
Lemma process_emoji_trace (cat : string) (cp : Z) (sc : string) (acc : Acc) (w : World) :
  trace (exec (process_emoji pil_pixels cat (cp, sc) acc) w)
  = trace w ++ fetch_events cp w ++ [EvSleep].
Proof.
  unfold exec at 1. rewrite process_emoji_run. cbn zeta. cbn [snd trace].
  destruct (resolve_bitmap_frame pil_pixels cp acc
              (exec (print_err (DProcessing cp sc)) w)) as (_ & _ & _ & -> & _ & _).
  rewrite download_trace. now rewrite <- app_assoc.
Qed.

Lemma process_emoji_counts (cat : string) (e : Z * string) (acc : Acc) (w : World) :
  let acc' := eval (process_emoji pil_pixels cat e acc) w in
  success_count acc' + fail_count acc' = success_count acc + fail_count acc + 1.
Proof.
  destruct e as [cp sc]. cbn zeta. unfold eval. rewrite process_emoji_run. cbn zeta.
  cbn [fst success_count fail_count].
  apply (resolve_bitmap_counts pil_pixels cp acc).
Qed.

End Step.

(** ** The two loops and [main] *)

Lemma fetch_events_no_sleep (cp : Z) (w : World) :
  count_sleeps (fetch_events cp w) = 0%nat.
Proof.
  unfold fetch_events.
  destruct (cached w _); [reflexivity|].
  destruct (network w _ _); [|reflexivity].
  now destruct (cache_dir w).
Qed.

Lemma config_records_app (d1 d2 : list (string * list (Z * string))) :
  config_records (d1 ++ d2) = config_records d1 ++ config_records d2.
Proof. unfold config_records. apply flat_map_app. Qed.

Lemma config_records_single (cat : string) (emojis : list (Z * string)) :
  config_records [(cat, emojis)] = map (fun e => (cat, e)) emojis.
Proof. unfold config_records. cbn. apply app_nil_r. Qed.

Section Progress.

Variable pil_pixels : bytes -> Z -> option (list (Z * Z * Z)).

Lemma progressed_refl (acc : Acc) (w : World) : progressed acc w [] acc w.
Proof.
  unfold progressed. cbn. rewrite app_nil_r.
  split; [reflexivity|]. split; [|lia].
  exists []. now rewrite app_nil_r.
Qed.

(** Printing on standard output is no progress through the records. *)
Lemma progressed_print (acc : Acc) (w : World) (lines : list string) :
  progressed acc w [] acc (exec (for_each lines print) w).
Proof.
  unfold exec. rewrite for_each_print. unfold progressed. cbn [snd trace stdout map length].
  split; [now rewrite app_nil_r|]. split; [eauto|]. split; lia.
Qed.

Lemma progressed_trans (acc0 : Acc) (w0 : World) rs1 acc1 w1 rs2 acc2 w2 :
  progressed acc0 w0 rs1 acc1 w1 -> progressed acc1 w1 rs2 acc2 w2 ->
  progressed acc0 w0 (rs1 ++ rs2) acc2 w2.
Proof.
  intros (He1 & [b1 Ho1] & Hs1 & Hc1) (He2 & [b2 Ho2] & Hs2 & Hc2).
  split; [|split; [|split]].
  - rewrite He2, He1, map_app. now rewrite <- app_assoc.
  - exists (b1 ++ b2). rewrite Ho2, Ho1. now rewrite <- app_assoc.
  - rewrite Hs2, Hs1, length_app. lia.
  - rewrite Hc2, Hc1, length_app. lia.
Qed.

Lemma process_emoji_progressed (cat : string) (e : Z * string) (acc : Acc) (w : World) :
  progressed acc w [(cat, e)]
    (eval (process_emoji pil_pixels cat e acc) w)
    (exec (process_emoji pil_pixels cat e acc) w).
Proof.
  split; [|split; [|split]].
  - apply process_emoji_entries.
  - destruct e as [cp sc]. rewrite process_emoji_stdout. eauto.
  - destruct e as [cp sc]. rewrite process_emoji_trace, !count_sleeps_app.
    rewrite fetch_events_no_sleep. cbn. lia.
  - rewrite process_emoji_counts. cbn. lia.
Qed.

Lemma emojis_loop_progressed (cat : string) (emojis : list (Z * string))
      (acc : Acc) (w : World) :
  progressed acc w (map (fun e => (cat, e)) emojis)
    (eval (for_fold emojis (process_emoji pil_pixels cat) acc) w)
    (exec (for_fold emojis (process_emoji pil_pixels cat) acc) w).
Proof.
  apply (for_fold_invariant (process_emoji pil_pixels cat)
           (fun seen a v => progressed acc w (map (fun e => (cat, e)) seen) a v)
        ) with (seen := []); [|apply progressed_refl].
  intros seen x s v Hinv. rewrite map_app.
  eapply progressed_trans; [exact Hinv|]. apply process_emoji_progressed.
Qed.

Lemma process_category_run (cat : string) (emojis : list (Z * string))
      (acc : Acc) (w : World) :
  process_category pil_pixels (cat, emojis) acc w =
  for_fold emojis (process_emoji pil_pixels cat) acc
    (exec (for_each
             [("// ============ " +:+ cat +:+ " ("
               +:+ format_int (Z.of_nat (length emojis))
               +:+ " emoji) ============")%string; ""%string] print) w).
Proof.
  unfold process_category. rewrite !run_bind. reflexivity.
Qed.

Lemma process_category_progressed (item : string * list (Z * string))
      (acc : Acc) (w : World) :
  progressed acc w (config_records [item])
    (eval (process_category pil_pixels item acc) w)
    (exec (process_category pil_pixels item acc) w).
Proof.
  destruct item as [cat emojis]. rewrite config_records_single.
  unfold eval, exec. rewrite process_category_run.
  exact (progressed_trans _ _ _ _ _ _ _ _
           (progressed_print acc w _)
           (emojis_loop_progressed cat emojis acc _)).
Qed.

Lemma categories_loop_progressed (data : list (string * list (Z * string)))
      (acc : Acc) (w : World) :
  progressed acc w (config_records data)
    (eval (for_fold data (process_category pil_pixels) acc) w)
    (exec (for_fold data (process_category pil_pixels) acc) w).
Proof.
  apply (for_fold_invariant (process_category pil_pixels)
           (fun seen a v => progressed acc w (config_records seen) a v)
        ) with (seen := []); [|apply progressed_refl].
  intros seen x s v Hinv. rewrite config_records_app.
  eapply progressed_trans; [exact Hinv|]. apply process_category_progressed.
Qed.

End Progress.

(** ** The whole run *)

Section Main.

Variable pil_pixels : bytes -> Z -> option (list (Z * Z * Z)).

Lemma main_on_run (data : list (string * list (Z * string))) (tot : Z) (w : World) :
  main_on pil_pixels data tot w =
  let w3 := exec (for_each (header_lines tot) print)
              (exec ensure_cache_dir (exec (print_err DGenerating) w)) in
  let acc := eval (for_fold data (process_category pil_pixels) (mkAcc [] 0 0)) w3 in
  let w4 := exec (for_fold data (process_category pil_pixels) (mkAcc [] 0 0)) w3 in
  (acc, exec (print_err (DDone (success_count acc) (fail_count acc)))
             (exec (for_each (table_lines (all_entries acc)) print) w4)).
Proof.
  cbn zeta. unfold main_on. rewrite !run_bind. reflexivity.
Qed.

Lemma main_on_eval (data : list (string * list (Z * string))) (tot : Z) (w : World) :
  eval (main_on pil_pixels data tot) w =
  eval (for_fold data (process_category pil_pixels) (mkAcc [] 0 0))
       (exec (for_each (header_lines tot) print)
             (exec ensure_cache_dir (exec (print_err DGenerating) w))).
Proof. unfold eval at 1. now rewrite main_on_run. Qed.

Lemma main_on_exec (data : list (string * list (Z * string))) (tot : Z) (w : World) :
  exec (main_on pil_pixels data tot) w =
  let w3 := exec (for_each (header_lines tot) print)
              (exec ensure_cache_dir (exec (print_err DGenerating) w)) in
  let acc := eval (for_fold data (process_category pil_pixels) (mkAcc [] 0 0)) w3 in
  exec (print_err (DDone (success_count acc) (fail_count acc)))
       (exec (for_each (table_lines (all_entries acc)) print)
             (exec (for_fold data (process_category pil_pixels) (mkAcc [] 0 0)) w3)).
Proof. unfold exec at 1. now rewrite main_on_run. Qed.

Lemma print_err_quiet (d : Diag) (w : World) :
  stdout (exec (print_err d) w) = stdout w
  /\ trace (exec (print_err d) w) = trace w
  /\ cache_dir (exec (print_err d) w) = cache_dir w.
Proof. repeat split. Qed.

Lemma for_each_print_exec (l : list string) (w : World) :
  stdout (exec (for_each l print) w) = stdout w ++ l
  /\ trace (exec (for_each l print) w) = trace w
  /\ cache_dir (exec (for_each l print) w) = cache_dir w.
Proof. unfold exec. rewrite for_each_print. repeat split. Qed.

Lemma ensure_cache_dir_quiet (w : World) :
  stdout (exec ensure_cache_dir w) = stdout w
  /\ count_sleeps (trace (exec ensure_cache_dir w)) = count_sleeps (trace w).
Proof.
  unfold exec. rewrite ensure_cache_dir_run. cbn [snd].
  destruct (cache_dir w); [tauto|]. cbn [stdout trace].
  rewrite count_sleeps_app. cbn. split; [reflexivity|lia].
Qed.

(** [main] over any configuration: the entries are the configuration's
    records in declaration order, the artifact is the header, then the
    sections, then the table of exactly these entries; the run sleeps once
    per record and counts each record once. *)
Lemma main_on_spec (data : list (string * list (Z * string))) (tot : Z) (w : World) :
  let acc := eval (main_on pil_pixels data tot) w in
  let w' := exec (main_on pil_pixels data tot) w in
  all_entries acc = map entry_of_record (config_records data)
  /\ (exists body,
        stdout w' = stdout w ++ header_lines tot ++ body
                    ++ table_lines (map entry_of_record (config_records data)))
  /\ count_sleeps (trace w') = (count_sleeps (trace w) + length (config_records data))%nat
  /\ success_count acc + fail_count acc = Z.of_nat (length (config_records data)).
Proof.
  cbn zeta. rewrite main_on_eval, main_on_exec. cbn zeta.
  set (w2 := exec ensure_cache_dir (exec (print_err DGenerating) w)).
  set (w3 := exec (for_each (header_lines tot) print) w2).
  destruct (categories_loop_progressed pil_pixels data (mkAcc [] 0 0) w3)
    as (He & [body Ho] & Hs & Hc).
  cbn [all_entries success_count fail_count app] in He, Hc.
  assert (Hw2 : stdout w2 = stdout w /\ count_sleeps (trace w2) = count_sleeps (trace w)).
  { subst w2. destruct (ensure_cache_dir_quiet (exec (print_err DGenerating) w)) as [-> ->].
    split; reflexivity. }
  destruct Hw2 as [Ho2 Hs2].
  assert (Hw3 : stdout w3 = stdout w ++ header_lines tot
                /\ count_sleeps (trace w3) = count_sleeps (trace w)).
  { subst w3. destruct (for_each_print_exec (header_lines tot) w2) as (-> & -> & _).
    rewrite Ho2, Hs2. split; reflexivity. }
  destruct Hw3 as [Ho3 Hs3].
  match goal with
  | |- context [exec (print_err ?d) ?v] =>
      destruct (print_err_quiet d v) as (-> & -> & _)
  end.
  match goal with
  | |- context [exec (for_each ?l print) ?v] =>
      destruct (for_each_print_exec l v) as (-> & -> & _)
  end.
  split; [exact He|]. split; [|split].
  - exists body. rewrite Ho, Ho3, He. now rewrite <- !app_assoc.
  - rewrite Hs, Hs3. reflexivity.
  - rewrite Hc. lia.
Qed.

End Main.

(** ** Runs over a warm cache *)

Section Warm.

Variable pil_pixels : bytes -> Z -> option (list (Z * Z * Z)).
Variable files : gmap string bytes.

Lemma process_emoji_in_step (cat : string) (e : Z * string)
      (acc1 : Acc) (w1 : World) (acc2 : Acc) (w2 : World) :
  has_file files e -> in_step files acc1 w1 acc2 w2 ->
  in_step files (eval (process_emoji pil_pixels cat e acc1) w1)
          (exec (process_emoji pil_pixels cat e acc1) w1)
          (eval (process_emoji pil_pixels cat e acc2) w2)
          (exec (process_emoji pil_pixels cat e acc2) w2).
Proof.
  destruct e as [cp sc]. intros [data Hdata] (<- & Hout & Hc1 & Hc2).
  cbn [fst] in Hdata.
  assert (H1 : cached w1 (codepoint_to_twemoji_filename cp) = Some data)
    by (unfold cached; rewrite Hc1; exact Hdata).
  assert (H2 : cached w2 (codepoint_to_twemoji_filename cp) = Some data)
    by (unfold cached; rewrite Hc2; exact Hdata).
  assert (E1 : eval (download_twemoji cp) w1 = Some data)
    by (rewrite download_eval, H1; reflexivity).
  assert (E2 : eval (download_twemoji cp) w2 = Some data)
    by (rewrite download_eval, H2; reflexivity).
  unfold in_step.
  rewrite !process_emoji_eval, !process_emoji_stdout_choice, !process_emoji_cache_dir.
  rewrite E1, E2, Hout. unfold exec.
  rewrite (download_hit cp w1 data H1), (download_hit cp w2 data H2).
  cbn [snd cache_dir]. tauto.
Qed.

Lemma emojis_loop_in_step (cat : string) (emojis : list (Z * string))
      (acc1 : Acc) (w1 : World) (acc2 : Acc) (w2 : World) :
  List.Forall (has_file files) emojis -> in_step files acc1 w1 acc2 w2 ->
  in_step files (eval (for_fold emojis (process_emoji pil_pixels cat) acc1) w1)
          (exec (for_fold emojis (process_emoji pil_pixels cat) acc1) w1)
          (eval (for_fold emojis (process_emoji pil_pixels cat) acc2) w2)
          (exec (for_fold emojis (process_emoji pil_pixels cat) acc2) w2).
Proof.
  apply (for_fold_lockstep (process_emoji pil_pixels cat) (has_file files) (in_step files)).
  intros x s1 v1 s2 v2. apply process_emoji_in_step.
Qed.

Lemma in_step_print (lines : list string) (acc1 : Acc) (w1 : World)
      (acc2 : Acc) (w2 : World) :
  in_step files acc1 w1 acc2 w2 ->
  in_step files acc1 (exec (for_each lines print) w1) acc2 (exec (for_each lines print) w2).
Proof.
  intros (Ha & Ho & H1 & H2). unfold in_step.
  destruct (for_each_print_exec lines w1) as (-> & _ & ->).
  destruct (for_each_print_exec lines w2) as (-> & _ & ->).
  rewrite Ho. tauto.
Qed.

Lemma process_category_in_step (item : string * list (Z * string))
      (acc1 : Acc) (w1 : World) (acc2 : Acc) (w2 : World) :
  List.Forall (has_file files) (snd item) -> in_step files acc1 w1 acc2 w2 ->
  in_step files (eval (process_category pil_pixels item acc1) w1)
          (exec (process_category pil_pixels item acc1) w1)
          (eval (process_category pil_pixels item acc2) w2)
          (exec (process_category pil_pixels item acc2) w2).
Proof.
  destruct item as [cat emojis]. cbn [snd]. intros Hfiles Hstep.
  unfold eval, exec. rewrite !process_category_run.
  apply emojis_loop_in_step; [exact Hfiles|].
  apply in_step_print. exact Hstep.
Qed.

Lemma categories_loop_in_step (data : list (string * list (Z * string)))
      (acc1 : Acc) (w1 : World) (acc2 : Acc) (w2 : World) :
  List.Forall (fun item => List.Forall (has_file files) (snd item)) data ->
  in_step files acc1 w1 acc2 w2 ->
  in_step files (eval (for_fold data (process_category pil_pixels) acc1) w1)
          (exec (for_fold data (process_category pil_pixels) acc1) w1)
          (eval (for_fold data (process_category pil_pixels) acc2) w2)
          (exec (for_fold data (process_category pil_pixels) acc2) w2).
Proof.
  apply (for_fold_lockstep (process_category pil_pixels)
           (fun item => List.Forall (has_file files) (snd item)) (in_step files)).
  intros x s1 v1 s2 v2. apply process_category_in_step.
Qed.

Lemma fully_warm_has_files (data : list (string * list (Z * string))) :
  fully_warm files data = true ->
  List.Forall (fun item => List.Forall (has_file files) (snd item)) data.
Proof.
  unfold fully_warm. rewrite forallb_forall. intros Hall.
  apply List.Forall_forall. intros [cat emojis] Hitem.
  apply List.Forall_forall. intros [cp sc] He. cbn [snd] in *.
  unfold has_file. cbn [fst].
  apply (bool_decide_unpack _). apply Is_true_true, Hall.
  unfold config_codepoints, config_records.
  apply in_map_iff. exists (cat, (cp, sc)). split; [reflexivity|].
  apply in_flat_map. exists (cat, emojis). split; [exact Hitem|].
  cbn [fst snd]. apply in_map_iff. eauto.
Qed.

(** Two runs of [main] that start over the same fully warm cache, having
    printed the same lines, stay in step to the end. *)
Lemma main_on_in_step (data : list (string * list (Z * string))) (tot : Z)
      (w1 w2 : World) :
  fully_warm files data = true ->
  cache_dir w1 = Some files -> cache_dir w2 = Some files ->
  stdout w1 = stdout w2 ->
  in_step files (eval (main_on pil_pixels data tot) w1) (exec (main_on pil_pixels data tot) w1)
          (eval (main_on pil_pixels data tot) w2) (exec (main_on pil_pixels data tot) w2).
Proof.
  intros Hwarm Hc1 Hc2 Hout.
  rewrite !main_on_eval, !main_on_exec. cbn zeta.
  assert (Hensure : forall w, cache_dir w = Some files ->
            exec ensure_cache_dir (exec (print_err DGenerating) w)
            = exec (print_err DGenerating) w).
  { intros w Hc. unfold exec at 1. rewrite ensure_cache_dir_run.
    cbn [snd]. destruct (print_err_quiet DGenerating w) as (_ & _ & ->).
    now rewrite Hc. }
  rewrite !Hensure by assumption.
  pose proof (categories_loop_in_step data (mkAcc [] 0 0)
                (exec (for_each (header_lines tot) print) (exec (print_err DGenerating) w1))
                (mkAcc [] 0 0)
                (exec (for_each (header_lines tot) print) (exec (print_err DGenerating) w2))
                (fully_warm_has_files data Hwarm)) as Hloop.
  destruct Hloop as (Hacc & Ho & H1 & H2).
  { apply in_step_print. repeat split; assumption. }
  unfold in_step. rewrite Hacc.
  repeat match goal with
  | |- context [exec (print_err ?d) (exec (for_each ?l print) ?v)] =>
      destruct (print_err_quiet d (exec (for_each l print) v)) as (-> & _ & ->);
      destruct (for_each_print_exec l v) as (-> & _ & ->)
  end.
  rewrite Ho. tauto.
Qed.

End Warm.

(** ** Pacing of the requests *)

Lemma paced_app (pending : bool) (t1 t2 : list Event) :
  paced pending (t1 ++ t2) = p ← paced pending t1; paced p t2.
Proof.
  revert pending. induction t1 as [|e t1 IH]; intros pending; [reflexivity|].
  destruct e; cbn [app paced]; try apply IH.
  destruct pending; [reflexivity|apply IH].
Qed.

Lemma paced_run_refl (w : World) : paced_run w w.
Proof. exists []. split; [now rewrite app_nil_r|reflexivity]. Qed.

Lemma paced_run_trans (w0 w1 w2 : World) :
  paced_run w0 w1 -> paced_run w1 w2 -> paced_run w0 w2.
Proof.
  intros (e1 & Ht1 & Hp1) (e2 & Ht2 & Hp2). exists (e1 ++ e2). split.
  - rewrite Ht2, Ht1. now rewrite <- app_assoc.
  - rewrite paced_app, Hp1. exact Hp2.
Qed.

(** The events of one fetch followed by the sleep are well paced. *)
Lemma fetch_then_sleep_paced (cp : Z) (w : World) :
  paced false (fetch_events cp w ++ [EvSleep]) = Some false.
Proof.
  unfold fetch_events.
  destruct (cached w _); [reflexivity|].
  destruct (network w _ _); [|reflexivity].
  now destruct (cache_dir w).
Qed.

Lemma paced_run_quiet (w w' : World) : trace w' = trace w -> paced_run w w'.
Proof. intros H. exists []. split; [now rewrite app_nil_r|reflexivity]. Qed.

Lemma ensure_cache_dir_paced (w : World) : paced_run w (exec ensure_cache_dir w).
Proof.
  unfold exec. rewrite ensure_cache_dir_run. cbn [snd].
  destruct (cache_dir w); [apply paced_run_refl|].
  exists [EvMakeDirs]. split; reflexivity.
Qed.

Section Pacing.

Variable pil_pixels : bytes -> Z -> option (list (Z * Z * Z)).

Lemma process_emoji_paced (cat : string) (e : Z * string) (acc : Acc) (w : World) :
  paced_run w (exec (process_emoji pil_pixels cat e acc) w).
Proof.
  destruct e as [cp sc]. exists (fetch_events cp w ++ [EvSleep]). split.
  - rewrite process_emoji_trace. reflexivity.
  - apply fetch_then_sleep_paced.
Qed.

Lemma emojis_loop_paced (cat : string) (emojis : list (Z * string))
      (acc : Acc) (w : World) :
  paced_run w (exec (for_fold emojis (process_emoji pil_pixels cat) acc) w).
Proof.
  apply (for_fold_invariant (process_emoji pil_pixels cat)
           (fun _ _ v => paced_run w v)) with (seen := []);
    [|apply paced_run_refl].
  intros seen x s v Hinv.
  eapply paced_run_trans; [exact Hinv|apply process_emoji_paced].
Qed.

Lemma process_category_paced (item : string * list (Z * string))
      (acc : Acc) (w : World) :
  paced_run w (exec (process_category pil_pixels item acc) w).
Proof.
  destruct item as [cat emojis]. unfold exec. rewrite process_category_run.
  eapply paced_run_trans; [|apply emojis_loop_paced].
  apply paced_run_quiet. apply for_each_print_exec.
Qed.

Lemma categories_loop_paced (data : list (string * list (Z * string)))
      (acc : Acc) (w : World) :
  paced_run w (exec (for_fold data (process_category pil_pixels) acc) w).
Proof.
  apply (for_fold_invariant (process_category pil_pixels)
           (fun _ _ v => paced_run w v)) with (seen := []);
    [|apply paced_run_refl].
  intros seen x s v Hinv.
  eapply paced_run_trans; [exact Hinv|apply process_category_paced].
Qed.

(** In the events of a whole run, every request is followed by a sleep
    before the next request. *)
Lemma main_on_paced (data : list (string * list (Z * string))) (tot : Z) (w : World) :
  paced_run w (exec (main_on pil_pixels data tot) w).
Proof.
  rewrite main_on_exec. cbn zeta.
  eapply paced_run_trans; [|apply paced_run_quiet, print_err_quiet].
  eapply paced_run_trans; [|apply paced_run_quiet, for_each_print_exec].
  eapply paced_run_trans; [|apply categories_loop_paced].
  eapply paced_run_trans; [|apply paced_run_quiet, for_each_print_exec].
  eapply paced_run_trans; [|apply ensure_cache_dir_paced].
  apply paced_run_quiet, print_err_quiet.
Qed.

End Pacing.
(** ** The printed text *)

(** The array the loop body prints, line by line. *)
Lemma bitmap_lines_text (var_name : string) (data : list Z) :
  bitmap_lines var_name data = array_text var_name data.
Proof. reflexivity. Qed.

Lemma table_line_record (r : string * (Z * string)) :
  table_line (entry_of_record r) = table_record r.
Proof. destruct r as [cat [cp sc]]. reflexivity. Qed.

(** ** Values as they are printed *)

(** A test passed by every integer from 0 up to [n], [n] excluded. *)
Lemma holds_below_sound (f : Z -> bool) (n : N) :
  holds_below f n = true -> forall v, 0 <= v < Z.of_N n -> f v = true.
Proof.
  unfold holds_below.
  assert (H : forall k,
             snd (N.iter k (fun s : bool * Z => (fst s && f (snd s), snd s + 1)) (true, 0))
             = Z.of_N k
             /\ (fst (N.iter k (fun s : bool * Z => (fst s && f (snd s), snd s + 1)) (true, 0))
                 = true -> forall v, 0 <= v < Z.of_N k -> f v = true)).
  { intros k. induction k as [|k [IHv IHf]] using N.peano_ind.
    - split; [reflexivity|]. intros _ v Hv. cbn in Hv. lia.
    - rewrite N.iter_succ. cbn [fst snd]. split; [rewrite IHv; lia|].
      intros Hok v Hv. apply andb_true_iff in Hok as [Hok Hk].
      destruct (Z.eq_dec v (Z.of_N k)) as [->|Hne].
      + now rewrite <- IHv.
      + apply IHf; [exact Hok|lia]. }
  intros Hok. now apply (H n).
Qed.

Lemma hex_literal_length_all :
  holds_below (fun v => (String.length (hex_literal v) =? 6)%nat) 65536 = true.
Proof. vm_compute. reflexivity. Qed.

(** A 16-bit value is printed as [0x] and exactly four digits. *)
Lemma hex_literal_length (v : Z) : is_u16 v -> String.length (hex_literal v) = 6%nat.
Proof.
  intros [Hlo Hhi]. apply Nat.eqb_eq.
  apply (holds_below_sound _ 65536 hex_literal_length_all). lia.
Qed.

(** ** The rows of an array *)

Lemma firstn_add {A} (a b : nat) (l : list A) :
  firstn (a + b) l = firstn a l ++ firstn b (skipn a l).
Proof.
  revert l. induction a as [|a IH]; intros l; [reflexivity|].
  destruct l as [|x l]; cbn [Nat.add firstn skipn app].
  - now rewrite firstn_nil.
  - now rewrite IH.
Qed.

(** The rows of an array, one after the other, are the first values of
    the bitmap it is printed from: 144 of them for twelve rows. *)
Lemma row_values_concat (data : list Z) (m : nat) :
  concat (map (row_values data) (seq 0 m)) = firstn (12 * m) data.
Proof.
  induction m as [|m IH]; [now rewrite Nat.mul_0_r|].
  rewrite seq_S, map_app, concat_app, IH. cbn [Nat.add map concat].
  rewrite app_nil_r. unfold row_values.
  replace (12 * S m)%nat with (12 * m + 12)%nat by lia.
  now rewrite firstn_add.
Qed.

Lemma row_values_all (data : list Z) :
  length data = 144%nat -> concat (map (row_values data) (seq 0 12)) = data.
Proof.
  intros Hlen. rewrite row_values_concat. change (12 * 12)%nat with 144%nat.
  rewrite <- Hlen. apply firstn_all.
Qed.

Lemma row_values_length (data : list Z) (k : nat) :
  length data = 144%nat -> (k < 12)%nat -> length (row_values data k) = 12%nat.
Proof.
  intros Hlen Hk. unfold row_values. rewrite length_firstn, length_skipn. lia.
Qed.

(** ** Which lines are table records *)

Lemma prefix_append (s t : string) : String.prefix s (s +:+ t) = true.
Proof.
  induction s as [|c s IH]; simpl; [now destruct t|].
  destruct (ascii_dec c c) as [_|Hne]; [exact IH|now destruct Hne].
Qed.

Lemma filter_none {A} (f : A -> bool) (l : list A) :
  List.Forall (fun x => f x = false) l -> List.filter f l = [].
Proof.
  induction 1 as [|x l Hx _ IH]; [reflexivity|]. cbn. now rewrite Hx.
Qed.

Lemma filter_all {A} (f : A -> bool) (l : list A) :
  List.Forall (fun x => f x = true) l -> List.filter f l = l.
Proof.
  induction 1 as [|x l Hx _ IH]; [reflexivity|]. cbn. now rewrite Hx, IH.
Qed.

Lemma filter_andb {A} (f g : A -> bool) (l : list A) :
  List.filter (fun x => f x && g x) l = List.filter g (List.filter f l).
Proof.
  induction l as [|x l IH]; [reflexivity|]. cbn.
  destruct (f x); cbn; [destruct (g x)|]; now rewrite IH.
Qed.

Lemma is_table_record_record (r : string * (Z * string)) :
  is_table_record (table_record r) = true.
Proof. destruct r as [cat [cp sc]]. apply prefix_append. Qed.

Lemma row_text_no_record (values : list Z) (last : bool) :
  is_table_record (row_text values last) = false.
Proof.
  destruct values as [|v [|v' rest]]; [now destruct last|reflexivity|reflexivity].
Qed.

Lemma array_text_no_record (var_name : string) (data : list Z) :
  List.filter is_table_record (array_text var_name data) = [].
Proof.
  apply filter_none. unfold array_text. constructor; [reflexivity|].
  apply List.Forall_app. split.
  - apply List.Forall_forall. intros line Hline.
    apply in_map_iff in Hline as (k & <- & _). apply row_text_no_record.
  - repeat constructor.
Qed.

Lemma table_lines_records (rs : list (string * (Z * string))) :
  List.filter is_table_record (table_lines (map entry_of_record rs)) = map table_record rs.
Proof.
  unfold table_lines. rewrite !List.filter_app, map_map.
  rewrite (map_ext _ table_record) by apply table_line_record.
  rewrite (filter_all is_table_record (map table_record rs)).
  - cbn. now rewrite app_nil_r.
  - apply List.Forall_forall. intros line Hline.
    apply in_map_iff in Hline as (r & <- & _). apply is_table_record_record.
Qed.

Lemma plain_refl (w : World) : plain w w.
Proof. exists []. split; [now rewrite app_nil_r|reflexivity]. Qed.

Lemma plain_trans (w0 w1 w2 : World) : plain w0 w1 -> plain w1 w2 -> plain w0 w2.
Proof.
  intros (b1 & Ho1 & Hf1) (b2 & Ho2 & Hf2). exists (b1 ++ b2). split.
  - rewrite Ho2, Ho1. now rewrite <- app_assoc.
  - now rewrite List.filter_app, Hf1, Hf2.
Qed.

Lemma plain_print (lines : list string) (w : World) :
  List.filter is_table_record lines = [] -> plain w (exec (for_each lines print) w).
Proof. intros Hnone. exists lines. split; [apply for_each_print_exec|exact Hnone]. Qed.

Section Table.

Variable pil_pixels : bytes -> Z -> option (list (Z * Z * Z)).

Lemma process_emoji_plain (cat : string) (e : Z * string) (acc : Acc) (w : World) :
  plain w (exec (process_emoji pil_pixels cat e acc) w).
Proof.
  destruct e as [cp sc]. eexists. split; [apply process_emoji_stdout|].
  rewrite bitmap_lines_text. apply array_text_no_record.
Qed.

Lemma process_category_plain (item : string * list (Z * string)) (acc : Acc) (w : World) :
  plain w (exec (process_category pil_pixels item acc) w).
Proof.
  destruct item as [cat emojis]. unfold exec. rewrite process_category_run.
  set (w1 := exec (for_each _ print) w).
  apply (plain_trans w w1); [apply plain_print; reflexivity|].
  apply (for_fold_invariant (process_emoji pil_pixels cat) (fun _ _ v => plain w1 v))
    with (seen := []); [|apply plain_refl].
  intros _ x s v Hinv. eapply plain_trans; [exact Hinv|apply process_emoji_plain].
Qed.

Lemma categories_loop_plain (data : list (string * list (Z * string)))
      (acc : Acc) (w : World) :
  plain w (exec (for_fold data (process_category pil_pixels) acc) w).
Proof.
  apply (for_fold_invariant (process_category pil_pixels) (fun _ _ v => plain w v))
    with (seen := []); [|apply plain_refl].
  intros _ x s v Hinv. eapply plain_trans; [exact Hinv|apply process_category_plain].
Qed.

(** The artifact of a run: the header, the sections, in which no line is
    a table record, and the table of the configuration's records. *)
Lemma main_on_table (data : list (string * list (Z * string))) (tot : Z) (w : World) :
  exists body,
    stdout (exec (main_on pil_pixels data tot) w)
    = stdout w ++ header_lines tot ++ body
      ++ table_lines (map entry_of_record (config_records data))
    /\ List.filter is_table_record body = [].
Proof.
  rewrite main_on_exec. cbn zeta.
  set (w2 := exec ensure_cache_dir (exec (print_err DGenerating) w)).
  set (w3 := exec (for_each (header_lines tot) print) w2).
  destruct (categories_loop_progressed pil_pixels data (mkAcc [] 0 0) w3) as (He & _).
  cbn [all_entries app] in He.
  destruct (categories_loop_plain data (mkAcc [] 0 0) w3) as (body & Ho & Hplain).
  exists body. split; [|exact Hplain].
  match goal with
  | |- context [exec (print_err ?d) ?v] => destruct (print_err_quiet d v) as (-> & _)
  end.
  match goal with
  | |- context [exec (for_each ?l print) ?v] =>
      destruct (for_each_print_exec l v) as (-> & _)
  end.
  rewrite Ho, He. subst w3.
  destruct (for_each_print_exec (header_lines tot) w2) as (-> & _). subst w2.
  destruct (ensure_cache_dir_quiet (exec (print_err DGenerating) w)) as (-> & _).
  cbn [stdout exec print_err snd]. now rewrite <- !app_assoc.
Qed.

(** The table records of the artifact are those of the configuration's
    records, in declaration order, and nothing else in the artifact looks
    like one. *)
Lemma main_on_records (data : list (string * list (Z * string))) (tot : Z) (w : World) :
  exists lines,
    stdout (exec (main_on pil_pixels data tot) w) = stdout w ++ lines
    /\ List.filter is_table_record lines = map table_record (config_records data).
Proof.
  destruct (main_on_table data tot w) as (body & Ho & Hplain).
  eexists. split; [exact Ho|].
  rewrite !List.filter_app, Hplain, table_lines_records.
  rewrite (filter_none is_table_record (header_lines tot)); [reflexivity|].
  repeat constructor.
Qed.

End Table.

(** ** The name a table record carries *)

(** Among the table records of records with pairwise distinct short
    codes, each short code is carried by the record of its own line
    only. *)
Lemma records_named_unique (rs : list (string * (Z * string))) (lines : list string) :
  List.filter is_table_record lines = map table_record rs ->
  (forall r, In r rs -> name_field (table_record r) = snd (snd r)) ->
  NoDup (map (fun r => snd (snd r)) rs) ->
  forall r, In r rs -> records_named (snd (snd r)) lines = [table_record r].
Proof.
  intros Hlines Hname Hnd r Hr. unfold records_named.
  rewrite filter_andb, Hlines. clear Hlines lines.
  induction rs as [|r0 rs IH]; [destruct Hr|].
  cbn [map] in Hnd. apply NoDup_cons in Hnd as [Hfresh Hnd].
  cbn [map List.filter]. rewrite (Hname r0 (or_introl eq_refl)).
  destruct Hr as [->|Hr].
  - rewrite String.eqb_refl. f_equal. apply filter_none.
    apply List.Forall_forall. intros line Hline.
    apply in_map_iff in Hline as (r' & <- & Hr').
    rewrite (Hname r' (or_intror Hr')). apply String.eqb_neq. intros Heq.
    apply Hfresh. apply list_elem_of_In. apply in_map_iff. now exists r'.
  - assert (Hne : String.eqb (snd (snd r0)) (snd (snd r)) = false).
    { apply String.eqb_neq. intros Heq. apply Hfresh.
      apply list_elem_of_In. apply in_map_iff. now exists r. }
    rewrite Hne. apply IH; [|exact Hnd|exact Hr].
    intros r' Hr'. apply Hname. now right.
Qed.

Lemma config_name_fields :
  forall r, In r (config_records EMOJI_DATA) -> name_field (table_record r) = snd (snd r).
Proof.
  apply List.map_ext_in_iff. vm_compute. reflexivity.
Qed.
(** ** The image pipeline *)

Section PillowFacts.

Variable load : bytes -> Z -> option (list Pillow.rgba).
Variable blend : Byte.byte -> Byte.byte -> Byte.byte -> Byte.byte.

Lemma byte_channel8 (b : Byte.byte) : channel8 (Z.of_N (Byte.to_N b)).
Proof. pose proof (Byte.to_N_bounded b). unfold channel8. lia. Qed.

(** The pixel list has the size of the canvas, whatever was decoded, and
    its channels are bytes. *)
Lemma pillow_pixels_contract : pil_contract (Pillow.pixels load blend).
Proof.
  intros png size pixels. unfold Pillow.pixels.
  destruct (Z.ltb_spec size 0) as [Hneg|Hpos]; [discriminate|].
  destruct (load png size) as [img|]; [|discriminate].
  destruct (Nat.eqb_spec (length img) (length (Pillow.new_canvas size))) as [Hlen|_];
    [|discriminate].
  intros [= <-]. split.
  - unfold Pillow.getdata, Pillow.paste. rewrite length_map, length_zip_with, Hlen.
    unfold Pillow.new_canvas. rewrite repeat_length. lia.
  - unfold Pillow.getdata. apply List.Forall_map. apply List.Forall_forall.
    intros [[r g] b] _. repeat split; apply byte_channel8.
Qed.

End PillowFacts.

Example sample_pillow_pixels :
  Pillow.pixels Pillow.sample_load Pillow.sample_blend Sample.png 12
  = Some (repeat (255, 128, 7) 144).
Proof. reflexivity. Qed.

(** ** C8 and C9: the fetch policy and the cache round trip *)

(** C8, as stated, does not hold: a file whose retrieval failed is
    requested again within the run.  With no cache and the network down,
    the fetch of U+1F5FF returns failure, and a run of [main] requests the
    file of U+1F5FF twice, once for "moyai" and once for "moai": the first
    failure left nothing behind that would stop the second request. *)
Lemma failed_fetch_requested_again :
  let w' := exec (main Sample.pil) SampleWorlds.cold_world_down in
  eval (download_twemoji 0x1F5FF) SampleWorlds.cold_world_down = None
  /\ requests_for (twemoji_url 0x1F5FF) (trace w') = 2%nat
  /\ requests_for (twemoji_url 0x1F600) (trace w') = 1%nat
  /\ cache_dir w' = Some ∅.
Proof. vm_compute. repeat split. Qed.

(** C8, amended.  [download_twemoji] looks in the cache first: on a hit it
    returns the cached bytes, makes no request and leaves the cache as it
    is.  On a miss it makes one request; when that succeeds the body is in
    the cache, under the code point's file name, in the world the call
    returns together with the body (the write precedes the return); when
    it fails with [URLError] or [HTTPError] the call returns [None] after
    that single request, with the cache unchanged.  A call never makes
    more than one request.  A failure is not remembered: the next call
    for the same code point, as made for a code point the configuration
    declares twice, finds the cache as the failed call found it and makes
    a request of its own. *)
Theorem download_twemoji_policy (cp : Z) (w : World) :
  let f := codepoint_to_twemoji_filename cp in
  let r := eval (download_twemoji cp) w in
  let w' := exec (download_twemoji cp) w in
  (forall data,
      cached w f = Some data ->
      r = Some data
      /\ trace w' = trace w ++ [EvCacheRead f]
      /\ requests w' = requests w
      /\ cache_dir w' = cache_dir w)
  /\ (forall data,
      cached w f = None ->
      network w (requests w) (twemoji_url cp) = Some data ->
      r = Some data
      /\ cached w' f = Some data
      /\ trace w' = trace w ++ [EvRequest (twemoji_url cp)]
                    ++ match cache_dir w with Some _ => [] | None => [EvMakeDirs] end
                    ++ [EvCacheWrite f data]
      /\ requests w' = S (requests w))
  /\ (cached w f = None ->
      network w (requests w) (twemoji_url cp) = None ->
      r = None
      /\ trace w' = trace w ++ [EvRequest (twemoji_url cp)]
      /\ requests w' = S (requests w)
      /\ cache_dir w' = cache_dir w
      /\ stderr w' = stderr w ++ [DDownloadFailed f]
      /\ trace (exec (download_twemoji cp) w')
         = trace w ++ [EvRequest (twemoji_url cp)]
           ++ fetch_events cp w'
      /\ requests (exec (download_twemoji cp) w') = S (S (requests w)))
  /\ (count_requests (trace w') <= count_requests (trace w) + 1)%nat
  /\ (requests w' <= S (requests w))%nat.
Proof.
  cbn zeta. split; [|split; [|split; [|split]]].
  - intros data Hc. unfold eval, exec. rewrite (download_hit cp w data Hc). repeat split.
  - intros data Hc Hn. unfold eval, exec. rewrite (download_miss_ok cp w data Hc Hn).
    cbn [fst snd trace requests]. repeat split.
    unfold cached. cbn [cache_dir mbind option_bind]. apply lookup_insert_eq.
  - intros Hc Hn.
    assert (Hw1 : exec (download_twemoji cp) w
                  = mkWorld (cache_dir w) (network w) (S (requests w))
                      (trace w ++ [EvRequest (twemoji_url cp)]) (stdout w)
                      (stderr w ++ [DDownloadFailed (codepoint_to_twemoji_filename cp)]))
      by (unfold exec; now rewrite (download_miss_fail cp w Hc Hn)).
    split; [unfold eval; now rewrite (download_miss_fail cp w Hc Hn)|].
    rewrite Hw1. cbn [trace requests cache_dir stderr].
    do 4 (split; [reflexivity|]). split.
    + rewrite download_trace. cbn [trace]. now rewrite <- app_assoc.
    + unfold exec.
      fetch_cases cp (mkWorld (cache_dir w) (network w) (S (requests w))
                        (trace w ++ [EvRequest (twemoji_url cp)]) (stdout w)
                        (stderr w ++ [DDownloadFailed (codepoint_to_twemoji_filename cp)]));
        try reflexivity.
      unfold cached in *. cbn [cache_dir] in *. congruence.
  - rewrite download_requests. destruct (cached w _); lia.
  - unfold exec. fetch_cases cp w; cbn [snd requests]; lia.
Qed.

Lemma download_twemoji_policy_witness :
  eval (download_twemoji 0x1F600) SampleWorlds.hit_world = Some Sample.png
  /\ requests (exec (download_twemoji 0x1F600) SampleWorlds.hit_world) = 0%nat
  /\ eval (download_twemoji 0x1F600) SampleWorlds.cold_world_up = Some Sample.png
  /\ cached (exec (download_twemoji 0x1F600) SampleWorlds.cold_world_up)
            (codepoint_to_twemoji_filename 0x1F600) = Some Sample.png
  /\ eval (download_twemoji 0x1F600) SampleWorlds.cold_world_down = None
  /\ requests (exec (download_twemoji 0x1F600) SampleWorlds.cold_world_down) = 1%nat
  /\ requests (exec (download_twemoji 0x1F600)
                    (exec (download_twemoji 0x1F600) SampleWorlds.cold_world_down)) = 2%nat.
Proof.
  destruct (download_twemoji_policy 0x1F600 SampleWorlds.hit_world) as (Hhit & _ & _).
  destruct (download_twemoji_policy 0x1F600 SampleWorlds.cold_world_up) as (_ & Hok & _).
  destruct (download_twemoji_policy 0x1F600 SampleWorlds.cold_world_down)
    as (_ & _ & Hfail & _).
  destruct (Hhit Sample.png) as (H1 & _ & H2 & _); [reflexivity|].
  destruct (Hok Sample.png) as (H3 & H4 & _); [reflexivity|reflexivity|].
  destruct Hfail as (H5 & _ & H6 & _ & _ & _ & H7); [reflexivity|reflexivity|].
  repeat split; assumption.
Defined.

Lemma cache_get_put (filename : string) (data : bytes) (w : World) :
  eval (cache_get filename) (exec (cache_put filename data) w) = Some data.
Proof.
  unfold eval, exec. rewrite cache_put_run. cbn [snd].
  unfold cache_get, cached. cbn [cache_dir mbind option_bind].
  now rewrite lookup_insert_eq.
Qed.

(** C9.  Storing [b] in the cache for an identifier and reading the
    cache entry of that identifier gives back [b], byte for byte; so does
    a fetch of that identifier, without a request. *)
Theorem cache_put_get_roundtrip (cp : Z) (b : bytes) (w : World) :
  let f := codepoint_to_twemoji_filename cp in
  eval (cache_get f) (exec (cache_put f b) w) = Some b
  /\ eval (download_twemoji cp) (exec (cache_put f b) w) = Some b
  /\ requests (exec (download_twemoji cp) (exec (cache_put f b) w)) = requests w.
Proof.
  cbn zeta. split; [apply cache_get_put|].
  assert (Hc : cached (exec (cache_put (codepoint_to_twemoji_filename cp) b) w)
                      (codepoint_to_twemoji_filename cp) = Some b).
  { unfold exec. rewrite cache_put_run. unfold cached.
    cbn [snd cache_dir mbind option_bind]. apply lookup_insert_eq. }
  split; [now rewrite download_eval, Hc|].
  unfold exec at 1. rewrite (download_hit _ _ _ Hc). cbn [snd requests].
  unfold exec. now rewrite cache_put_run.
Qed.

(** ** C6 and C7: what reaches the artifact *)

Section Artifact.

Variable pil_pixels : bytes -> Z -> option (list (Z * Z * Z)).

Lemma choose_bitmap_no_bytes (png_data : option bytes) (acc : Acc) :
  truthy png_data = false ->
  choose_bitmap pil_pixels png_data acc = (generate_placeholder 12, bump_fail acc).
Proof. intros H. unfold choose_bitmap. now rewrite H. Qed.

Lemma choose_bitmap_no_bitmap (png : bytes) (acc : Acc) :
  truthy (quantize <$> pil_pixels png 12) = false ->
  choose_bitmap pil_pixels (Some png) acc = (generate_placeholder 12, bump_fail acc).
Proof.
  intros H. unfold choose_bitmap. cbn [default from_option id].
  destruct (truthy (Some png)); [|reflexivity].
  destruct (pil_pixels png 12) as [pixels|]; [|reflexivity].
  cbn [fmap option_fmap option_map] in H. now rewrite H.
Qed.

(** The bitmap chosen is the placeholder or a non-empty rasterisation. *)
Lemma choose_bitmap_cases (png_data : option bytes) (acc : Acc) :
  fst (choose_bitmap pil_pixels png_data acc) = generate_placeholder 12
  \/ exists png pixels,
       pil_pixels png 12 = Some pixels
       /\ fst (choose_bitmap pil_pixels png_data acc) = quantize pixels.
Proof.
  unfold choose_bitmap.
  destruct (truthy png_data); [|now left].
  destruct (pil_pixels _ 12) as [pixels|] eqn:Hp; [|now left].
  destruct (truthy _); [|now left].
  right. eauto.
Qed.

Lemma quantize_ok (pixels : list (Z * Z * Z)) :
  length pixels = 144%nat ->
  List.Forall (fun '(r, g, b) => channel8 r /\ channel8 g /\ channel8 b) pixels ->
  bitmap_ok (quantize pixels).
Proof.
  intros Hlen Hpx. split.
  - unfold quantize. now rewrite length_map.
  - unfold quantize. apply List.Forall_map.
    eapply List.Forall_impl; [|exact Hpx].
    intros [[r g] b] (Hr & Hg & Hb). now apply rgb565_is_u16.
Qed.

(** Under Pillow's contract the bitmap the loop body settles on has 144
    values of 16 bits. *)
Lemma choose_bitmap_ok (png_data : option bytes) (acc : Acc) :
  pil_contract pil_pixels ->
  bitmap_ok (fst (choose_bitmap pil_pixels png_data acc)).
Proof.
  intros Hpil.
  destruct (choose_bitmap_cases png_data acc) as [->|(png & pixels & Hp & ->)].
  - apply generate_placeholder_ok.
  - destruct (Hpil png 12 pixels Hp) as [Hlen Hch]. now apply quantize_ok.
Qed.

Lemma process_twemoji_ok (png : bytes) (w : World) (data : list Z) :
  pil_contract pil_pixels ->
  eval (process_twemoji_to_rgb565 pil_pixels png 12) w = Some data -> bitmap_ok data.
Proof.
  intros Hpil. rewrite process_twemoji_eval.
  destruct (pil_pixels png 12) as [pixels|] eqn:Hp; [|discriminate].
  cbn [fmap option_fmap option_map]. intros [= <-].
  destruct (Hpil png 12 pixels Hp) as [Hlen Hch]. now apply quantize_ok.
Qed.

(** C6.  Whatever the configuration and the world, the artifact ends
    with the combined table: the count constant, printed as the number of
    records, and then one record per configuration record,
    [{ 0x<id>, "<name>", EMOJI_BMP_<NAME>, EmojiCategory::<category> },],
    in declaration order (categories in dict order, entries in list
    order), nothing sorted, merged or left out; no line before the table
    is a table record.  For [EMOJI_DATA] the constant reads 1013, the
    table has 1013 records, the first is that of "grin" and the last that
    of "pirate". *)
Theorem table_in_declaration_order
        (data : list (string * list (Z * string))) (tot : Z) (w : World) :
  (exists body,
      stdout (exec (main_on pil_pixels data tot) w)
      = stdout w ++ header_lines tot ++ body
        ++ ["// ============ EMOJI TABLE ============";
            "";
            "const int EMOJI_COUNT = "
              +:+ format_int (Z.of_nat (length (config_records data))) +:+ ";";
            "";
            "const EmojiEntry EMOJI_TABLE[EMOJI_COUNT] PROGMEM = {"]%string
        ++ map table_record (config_records data)
        ++ ["};"; ""; "#endif // MESHBERRY_EMOJI_DATA_H"]%string
      /\ List.filter is_table_record body = [])
  /\ all_entries (eval (main_on pil_pixels data tot) w)
     = map entry_of_record (config_records data)
  /\ (exists body,
        stdout (exec (main pil_pixels) w)
        = stdout w ++ header_lines 1013 ++ body
          ++ ["// ============ EMOJI TABLE ============";
              "";
              "const int EMOJI_COUNT = 1013;";
              "";
              "const EmojiEntry EMOJI_TABLE[EMOJI_COUNT] PROGMEM = {"]%string
          ++ map table_record (config_records EMOJI_DATA)
          ++ ["};"; ""; "#endif // MESHBERRY_EMOJI_DATA_H"]%string
        /\ List.filter is_table_record body = [])
  /\ length (map table_record (config_records EMOJI_DATA)) = 1013%nat
  /\ nth_error (map table_record (config_records EMOJI_DATA)) 0
     = Some ("    { 0x1F600, " +:+ dquote +:+ "grin" +:+ dquote
             +:+ ", EMOJI_BMP_GRIN, EmojiCategory::FACES },")%string
  /\ nth_error (map table_record (config_records EMOJI_DATA)) 1012
     = Some ("    { 0x1F3F4, " +:+ dquote +:+ "pirate" +:+ dquote
             +:+ ", EMOJI_BMP_PIRATE, EmojiCategory::FLAGS },")%string.
Proof.
  assert (Htable : forall d t,
             exists body,
               stdout (exec (main_on pil_pixels d t) w)
               = stdout w ++ header_lines t ++ body
                 ++ ["// ============ EMOJI TABLE ============";
                     "";
                     "const int EMOJI_COUNT = "
                       +:+ format_int (Z.of_nat (length (config_records d))) +:+ ";";
                     "";
                     "const EmojiEntry EMOJI_TABLE[EMOJI_COUNT] PROGMEM = {"]%string
                 ++ map table_record (config_records d)
                 ++ ["};"; ""; "#endif // MESHBERRY_EMOJI_DATA_H"]%string
               /\ List.filter is_table_record body = []).
  { intros d t. destruct (main_on_table pil_pixels d t w) as (body & Ho & Hplain).
    exists body. split; [|exact Hplain]. rewrite Ho. unfold table_lines.
    rewrite !length_map, map_map.
    now rewrite (map_ext _ table_record) by apply table_line_record. }
  split; [apply Htable|]. split; [apply main_on_spec|].
  split; [exact (Htable EMOJI_DATA total)|].
  split; [reflexivity|]. split; reflexivity.
Qed.

End Artifact.

(** C7.  Every array the loop body prints holds a bitmap of exactly 144
    values, each in 0..0xFFFF: the array is the declaration, twelve rows
    and the closing brace; the rows hold twelve values each, together the
    144 values of the bitmap in order, and each value is printed as [0x]
    and four hexadecimal digits.  This holds of every bitmap the
    rasteriser returns, for the canvas [Image.new] creates has 12 x 12
    pixels of 8-bit channels whatever was decoded and pasted, and of the
    placeholder for any argument. *)
Theorem emitted_bitmaps_fit
        (load : bytes -> Z -> option (list Pillow.rgba))
        (blend : Byte.byte -> Byte.byte -> Byte.byte -> Byte.byte)
        (cat : string) (cp : Z) (sc : string) (acc : Acc) (w : World) :
  (exists data,
      stdout (exec (process_emoji (Pillow.pixels load blend) cat (cp, sc) acc) w)
      = stdout w
        ++ ("static const uint16_t EMOJI_BMP_" +:+ upper sc +:+ "[144] PROGMEM = {")%string
           :: map (fun k => row_text (row_values data k) (k =? 11)%nat) (seq 0 12)
        ++ ["};"; ""]%string
      /\ length data = 144%nat
      /\ List.Forall is_u16 data
      /\ concat (map (row_values data) (seq 0 12)) = data
      /\ List.Forall (fun k => length (row_values data k) = 12%nat) (seq 0 12)
      /\ List.Forall (fun v => String.length (hex_literal v) = 6%nat) data)
  /\ (forall png w0 data,
        eval (process_twemoji_to_rgb565 (Pillow.pixels load blend) png 12) w0 = Some data ->
        length data = 144%nat /\ List.Forall is_u16 data)
  /\ (forall size,
        length (generate_placeholder size) = 144%nat
        /\ List.Forall is_u16 (generate_placeholder size)).
Proof.
  pose proof (pillow_pixels_contract load blend) as Hpil.
  split; [|split].
  - destruct (choose_bitmap_ok (Pillow.pixels load blend)
                (eval (download_twemoji cp) w) acc Hpil) as [Hlen Hu16].
    eexists. split; [|split; [exact Hlen|split; [exact Hu16|split; [|split]]]].
    + rewrite process_emoji_stdout_choice, bitmap_lines_text. reflexivity.
    + now apply row_values_all.
    + apply List.Forall_forall. intros k Hk. apply in_seq in Hk.
      apply row_values_length; [exact Hlen|lia].
    + eapply List.Forall_impl; [|exact Hu16]. apply hex_literal_length.
  - intros png w0 data Hdata.
    exact (process_twemoji_ok (Pillow.pixels load blend) png w0 data Hpil Hdata).
  - intros size. exact (generate_placeholder_ok size).
Qed.


(** ** The sample environment *)

Lemma sample_pil_contract : pil_contract Sample.pil.
Proof.
  intros png size pixels. unfold Sample.pil.
  destruct png as [|b rest]; [discriminate|].
  destruct b; try discriminate. intros [= <-]. split.
  - apply repeat_length.
  - apply List.Forall_forall. intros px Hpx.
    apply repeat_spec in Hpx. subst px. unfold channel8. lia.
Qed.

(** ** C3: uniqueness in the configuration *)

(** Among records with pairwise distinct short codes, each record's code
    point and short code are carried by exactly one entry. *)
Lemma occurrences_unique (rs : list (string * (Z * string))) :
  NoDup (map (fun r => snd (snd r)) rs) ->
  forall r, In r rs ->
    occurrences (fst (snd r)) (snd (snd r)) (map entry_of_record rs) = 1%nat.
Proof.
  unfold occurrences.
  induction rs as [|[cat [cp sc]] rs IH]; intros Hnd r Hin; [destruct Hin|].
  cbn [map] in Hnd. apply NoDup_cons in Hnd as [Hfresh Hnd].
  destruct r as [cat' [cp' sc']]. cbn [fst snd map List.filter entry_of_record] in *.
  unfold carries at 1. cbn [entry_codepoint entry_shortcode].
  destruct Hin as [Heq|Hin].
  - injection Heq as <- <- <-. rewrite Z.eqb_refl, String.eqb_refl. cbn [andb length].
    f_equal. apply length_zero_iff_nil.
    destruct (List.filter _ _) as [|e l] eqn:Hf; [reflexivity|exfalso].
    assert (He : In e (List.filter (carries cp sc) (map entry_of_record rs)))
      by (rewrite Hf; now left).
    apply filter_In in He as [He Hcarry].
    apply in_map_iff in He as ([c [p s]] & <- & Hr).
    unfold carries in Hcarry. cbn in Hcarry.
    apply andb_true_iff in Hcarry as [_ Hs]. apply String.eqb_eq in Hs. subst s.
    apply Hfresh. apply list_elem_of_In. apply in_map_iff.
    exists (c, (p, sc)). split; [reflexivity|exact Hr].
  - assert (Hne : String.eqb sc sc' = false).
    { apply String.eqb_neq. intros ->. apply Hfresh.
      apply list_elem_of_In. apply in_map_iff.
      exists (cat', (cp', sc')). split; [reflexivity|exact Hin]. }
    rewrite Hne, andb_false_r. apply (IH Hnd (cat', (cp', sc')) Hin).
Qed.

(** Every record of the configuration has a code point that [chr()]
    accepts and an ASCII short code. *)
Lemma config_in_domain : forallb in_domain (config_records EMOJI_DATA) = true.
Proof. vm_compute. reflexivity. Qed.

Lemma shortcodes_unique : NoDup (config_shortcodes EMOJI_DATA).
Proof. apply (bool_decide_unpack _). vm_compute. exact I. Qed.

(** C3, as stated, does not hold: the code point U+1F5FF is declared
    twice, as "moyai" under TRAVEL and as "moai" under OBJECTS (and seven
    more code points are declared twice), so the code points of the
    configuration are not pairwise distinct, and a run ends with two
    entries carrying U+1F5FF. *)
Lemma codepoints_not_unique :
  nth_error (config_records EMOJI_DATA) 553
    = Some ("TRAVEL"%string, (0x1F5FF, "moyai"%string))
  /\ nth_error (config_records EMOJI_DATA) 762
    = Some ("OBJECTS"%string, (0x1F5FF, "moai"%string))
  /\ ~ NoDup (config_codepoints EMOJI_DATA)
  /\ length (List.filter (fun e => entry_codepoint e =? 0x1F5FF)
                         (all_entries (eval (main Sample.pil) SampleWorlds.warm_world_down)))
     = 2%nat.
Proof.
  split; [reflexivity|]. split; [reflexivity|]. split.
  - apply (bool_decide_eq_false_1 _). vm_compute. reflexivity.
  - destruct (main_on_spec Sample.pil EMOJI_DATA total SampleWorlds.warm_world_down)
      as (He & _).
    unfold main. rewrite He. vm_compute. reflexivity.
Qed.

(** C3, amended.  The short codes of the configuration are pairwise
    distinct.  The table records of the artifact are those of the
    configuration's records, and for every record of the configuration
    exactly one table record of the artifact carries its short code: the
    record [{ 0x<id>, "<name>", EMOJI_BMP_<NAME>, EmojiCategory::<category> },]
    of that code point and short code.  The two records of U+1F5FF are
    shown.  The entries the table is printed from hold exactly one entry
    with the record's code point and short code. *)
Theorem names_unique_one_entry_each
        (pil_pixels : bytes -> Z -> option (list (Z * Z * Z))) (w : World) :
  NoDup (config_shortcodes EMOJI_DATA)
  /\ (exists lines,
        stdout (exec (main pil_pixels) w) = stdout w ++ lines
        /\ List.filter is_table_record lines
           = map table_record (config_records EMOJI_DATA)
        /\ List.Forall
             (fun r => records_named (snd (snd r)) lines = [table_record r])
             (config_records EMOJI_DATA))
  /\ table_record ("TRAVEL", (0x1F5FF, "moyai"))%string
     = ("    { 0x1F5FF, " +:+ dquote +:+ "moyai" +:+ dquote
        +:+ ", EMOJI_BMP_MOYAI, EmojiCategory::TRAVEL },")%string
  /\ table_record ("OBJECTS", (0x1F5FF, "moai"))%string
     = ("    { 0x1F5FF, " +:+ dquote +:+ "moai" +:+ dquote
        +:+ ", EMOJI_BMP_MOAI, EmojiCategory::OBJECTS },")%string
  /\ List.Forall
       (fun r => occurrences (fst (snd r)) (snd (snd r))
                             (all_entries (eval (main pil_pixels) w)) = 1%nat)
       (config_records EMOJI_DATA).
Proof.
  split; [exact shortcodes_unique|]. split; [|split; [reflexivity|split; [reflexivity|]]].
  - destruct (main_on_records pil_pixels EMOJI_DATA total w) as (lines & Ho & Hrec).
    exists lines. split; [exact Ho|]. split; [exact Hrec|].
    apply List.Forall_forall. intros r Hr.
    apply (records_named_unique (config_records EMOJI_DATA) lines Hrec
             config_name_fields shortcodes_unique r Hr).
  - destruct (main_on_spec pil_pixels EMOJI_DATA total w) as (He & _).
    unfold main. rewrite He.
    apply List.Forall_forall. intros r Hr.
    apply occurrences_unique; [exact shortcodes_unique|exact Hr].
Qed.

(** ** C4: determinism over a warm cache *)

Lemma script_run (pil_pixels : bytes -> Z -> option (list (Z * Z * Z))) (w : World) :
  script pil_pixels w = main pil_pixels (exec (print_err (DTotal total)) w).
Proof. unfold script. now rewrite run_bind. Qed.

Lemma artifact_text_stdout (w1 w2 : World) :
  stdout w1 = stdout w2 -> artifact_text w1 = artifact_text w2.
Proof. unfold artifact_text. now intros ->. Qed.

(** C4.  Two runs of the whole script that start with the same cache
    contents, every configured identifier's file being there, with the
    same configuration and the same image library, print the same
    artifact, line for line and byte for byte, whatever the two networks
    would have answered; and both leave the cache as they found it, so a
    further run starts from the same cache again. *)
Theorem warm_cache_determinism
        (pil_pixels : bytes -> Z -> option (list (Z * Z * Z)))
        (files : gmap string bytes) (w1 w2 : World) :
  fully_warm files EMOJI_DATA = true ->
  cache_dir w1 = Some files -> cache_dir w2 = Some files ->
  stdout w1 = stdout w2 ->
  artifact_text (exec (script pil_pixels) w1) = artifact_text (exec (script pil_pixels) w2)
  /\ stdout (exec (script pil_pixels) w1) = stdout (exec (script pil_pixels) w2)
  /\ cache_dir (exec (script pil_pixels) w1) = Some files
  /\ cache_dir (exec (script pil_pixels) w2) = Some files.
Proof.
  intros Hwarm Hc1 Hc2 Hout.
  assert (Hstep : in_step files
            (eval (script pil_pixels) w1) (exec (script pil_pixels) w1)
            (eval (script pil_pixels) w2) (exec (script pil_pixels) w2)).
  { unfold eval, exec. rewrite !script_run.
    apply (main_on_in_step pil_pixels files EMOJI_DATA total); assumption. }
  destruct Hstep as (_ & Ho & H1 & H2).
  split; [now apply artifact_text_stdout|]. tauto.
Qed.

Lemma warm_cache_determinism_witness :
  fully_warm Sample.warm_files EMOJI_DATA = true
  /\ artifact_text (exec (script Sample.pil) SampleWorlds.warm_world_up)
     = artifact_text (exec (script Sample.pil) SampleWorlds.warm_world_down).
Proof.
  assert (Hwarm : fully_warm Sample.warm_files EMOJI_DATA = true)
    by (vm_compute; reflexivity).
  destruct (warm_cache_determinism Sample.pil Sample.warm_files
              SampleWorlds.warm_world_up SampleWorlds.warm_world_down Hwarm
              eq_refl eq_refl eq_refl) as (Htext & _).
  split; [exact Hwarm|exact Htext].
Defined.

(** ** C2: where the delay falls *)

(** C2, as stated, does not hold.  With the file of U+1F600 in the cache
    the loop body reads the file and then sleeps, and a whole run over a
    warm cache makes no request and still sleeps 1013 times. *)
Lemma delay_follows_cache_hit :
  cached SampleWorlds.hit_world (codepoint_to_twemoji_filename 0x1F600) = Some Sample.png
  /\ trace (exec (process_emoji Sample.pil "FACES" (0x1F600, "grin"%string) Sample.acc0)
                 SampleWorlds.hit_world)
     = [EvCacheRead "1f600.png"; EvSleep]
  /\ count_requests (trace (exec (main Sample.pil) SampleWorlds.warm_world_down)) = 0%nat
  /\ count_sleeps (trace (exec (main Sample.pil) SampleWorlds.warm_world_down)) = 1013%nat.
Proof.
  split; [reflexivity|]. split; [reflexivity|]. split.
  - vm_compute. reflexivity.
  - destruct (main_on_spec Sample.pil EMOJI_DATA total SampleWorlds.warm_world_down)
      as (_ & _ & Hs & _).
    exact Hs.
Qed.

(** C2, amended.  The loop body sleeps once after every identifier,
    whether its bytes came from the cache or from the network: its trace
    is the events of the fetch, none of which is a sleep, followed by one
    sleep.  Hence a run of [main] sleeps once per configured entry, 1013
    times, and in its trace every request is followed by a sleep before
    the next request. *)
Theorem delay_after_every_identifier
        (pil_pixels : bytes -> Z -> option (list (Z * Z * Z)))
        (cat : string) (cp : Z) (sc : string) (acc : Acc) (w : World) :
  trace (exec (process_emoji pil_pixels cat (cp, sc) acc) w)
  = trace w ++ fetch_events cp w ++ [EvSleep]
  /\ count_sleeps (fetch_events cp w) = 0%nat
  /\ count_sleeps (trace (exec (main pil_pixels) w))
     = (count_sleeps (trace w) + 1013)%nat
  /\ (exists events,
        trace (exec (main pil_pixels) w) = trace w ++ events
        /\ paced false events = Some false).
Proof.
  split; [apply process_emoji_trace|]. split; [apply fetch_events_no_sleep|].
  split.
  - destruct (main_on_spec pil_pixels EMOJI_DATA total w) as (_ & _ & Hs & _).
    exact Hs.
  - apply (main_on_paced pil_pixels EMOJI_DATA total w).
Qed.


(** ** Cache file names *)

Lemma string_length_append (s1 s2 : string) :
  String.length (s1 +:+ s2) = (String.length s1 + String.length s2)%nat.
Proof. induction s1 as [|c s1 IH]; simpl; [reflexivity|now f_equal]. Qed.

Lemma append_inv_tail (s1 s2 t : string) : s1 +:+ t = s2 +:+ t -> s1 = s2.
Proof.
  revert s2. induction s1 as [|c s1 IH]; intros [|c' s2] H.
  - reflexivity.
  - exfalso. apply (f_equal String.length) in H.
    rewrite !string_length_append in H. simpl in H. lia.
  - exfalso. apply (f_equal String.length) in H.
    rewrite !string_length_append in H. simpl in H. lia.
  - simpl in H. injection H as -> H. f_equal. now apply IH.
Qed.

Lemma to_hex_uint_nonnil (n : N) : N.to_hex_uint n <> Hexadecimal.Nil.
Proof.
  intros H. pose proof (Unsigned.of_to n) as Hn. rewrite H in Hn.
  cbn in Hn. subst n. discriminate H.
Qed.

Lemma hex_digits_inj (n n' : N) : hex_digits n = hex_digits n' -> n = n'.
Proof.
  unfold hex_digits. intros H.
  apply Unsigned.to_uint_inj.
  apply (f_equal NilZero.uint_of_string) in H.
  rewrite !NilZero.usu in H by apply to_hex_uint_nonnil.
  now injection H.
Qed.

(** A digit string never starts with a minus sign. *)
Lemma hex_digits_no_sign (n : N) (s : string) : hex_digits n <> String "-" s.
Proof.
  unfold hex_digits. pose proof (to_hex_uint_nonnil n) as Hnn.
  destruct (N.to_hex_uint n); try contradiction; cbn; discriminate.
Qed.

Lemma format_hex_plain (v : Z) :
  format_hex false 0 v = ((if (v <? 0)%Z then "-" else "") +:+ hex_digits (Z.abs_N v))%string.
Proof. unfold format_hex. cbn [Nat.sub repeat_char]. reflexivity. Qed.

Lemma format_hex_plain_inj (v v' : Z) :
  format_hex false 0 v = format_hex false 0 v' -> v = v'.
Proof.
  rewrite !format_hex_plain.
  destruct (Z.ltb_spec v 0) as [Hv|Hv]; destruct (Z.ltb_spec v' 0) as [Hv'|Hv'];
    cbn [String.append]; intros H.
  - injection H as H. apply hex_digits_inj in H. lia.
  - symmetry in H. now apply hex_digits_no_sign in H.
  - now apply hex_digits_no_sign in H.
  - apply hex_digits_inj in H. lia.
Qed.

Lemma codepoint_to_twemoji_filename_eq (cp cp' : Z) :
  codepoint_to_twemoji_filename cp = codepoint_to_twemoji_filename cp' -> cp = cp'.
Proof.
  unfold codepoint_to_twemoji_filename. intros H.
  apply append_inv_tail in H. now apply format_hex_plain_inj.
Qed.

(** X1.  Distinct code points, of either sign, never share a cache file
    name, nor a URL. *)
Theorem codepoint_to_twemoji_filename_inj (cp cp' : Z) :
  cp <> cp' ->
  codepoint_to_twemoji_filename cp <> codepoint_to_twemoji_filename cp'
  /\ twemoji_url cp <> twemoji_url cp'.
Proof.
  intros Hne. split; intros H; apply Hne.
  - now apply codepoint_to_twemoji_filename_eq.
  - unfold twemoji_url in H.
    apply (inj (String.app _)) in H. apply (inj (String.app _)) in H.
    now apply codepoint_to_twemoji_filename_eq.
Qed.

Lemma codepoint_to_twemoji_filename_inj_witness :
  codepoint_to_twemoji_filename 0x1F600 <> codepoint_to_twemoji_filename (-0x1F600)
  /\ twemoji_url 0x1F600 <> twemoji_url 0x1F601.
Proof.
  split.
  - apply (codepoint_to_twemoji_filename_inj 0x1F600 (-0x1F600)). lia.
  - apply (codepoint_to_twemoji_filename_inj 0x1F600 0x1F601). lia.
Defined.

(** ** The cache as a store *)

Lemma cached_after_put (filename other : string) (data : bytes) (w : World) :
  cached (exec (cache_put filename data) w) other
  = if decide (filename = other) then Some data else cached w other.
Proof.
  unfold exec. rewrite cache_put_run. unfold cached.
  cbn [snd cache_dir mbind option_bind]. rewrite lookup_insert.
  case_decide; [reflexivity|].
  destruct (cache_dir w); [reflexivity|apply lookup_empty].
Qed.

(** X2.  Storing bytes for one identifier leaves what the cache holds
    for every other identifier as it was, whether or not the cache
    directory existed before. *)
Theorem cache_put_other (cp cp' : Z) (b : bytes) (w : World) :
  cp <> cp' ->
  eval (cache_get (codepoint_to_twemoji_filename cp'))
       (exec (cache_put (codepoint_to_twemoji_filename cp) b) w)
  = eval (cache_get (codepoint_to_twemoji_filename cp')) w.
Proof.
  intros Hne.
  assert (Hget : forall f v, eval (cache_get f) v = cached v f).
  { intros f v. unfold eval, cache_get. now destruct (cached v f). }
  rewrite !Hget, cached_after_put.
  case_decide as Heq; [|reflexivity].
  now apply codepoint_to_twemoji_filename_eq in Heq.
Qed.

Lemma cache_put_other_witness :
  eval (cache_get (codepoint_to_twemoji_filename 0x1F600))
       (exec (cache_put (codepoint_to_twemoji_filename 0x263A) [x00]) SampleWorlds.hit_world)
  = Some Sample.png.
Proof.
  rewrite (cache_put_other 0x263A 0x1F600 [x00] SampleWorlds.hit_world) by lia.
  reflexivity.
Defined.

(** X3.  A fetch that returned bytes can be repeated: the second call
    returns the same bytes and makes no request.  A fetch that failed
    left nothing behind: the cache is as before and the second call makes
    a new request. *)
Theorem download_twemoji_again (cp : Z) (w : World) :
  let w1 := exec (download_twemoji cp) w in
  (forall data,
      eval (download_twemoji cp) w = Some data ->
      eval (download_twemoji cp) w1 = Some data
      /\ requests (exec (download_twemoji cp) w1) = requests w1
      /\ cache_dir (exec (download_twemoji cp) w1) = cache_dir w1)
  /\ (eval (download_twemoji cp) w = None ->
      cache_dir w1 = cache_dir w
      /\ eval (download_twemoji cp) w1
         = network w (S (requests w)) (twemoji_url cp)
      /\ requests (exec (download_twemoji cp) w1) = S (S (requests w))).
Proof.
  cbn zeta. split.
  - intros data Hdata.
    assert (Hc : cached (exec (download_twemoji cp) w)
                        (codepoint_to_twemoji_filename cp) = Some data).
    { revert Hdata. unfold eval, exec. fetch_cases cp w; cbn [fst snd].
      - intros [= <-]. exact Hc.
      - intros [= <-]. unfold cached. cbn [cache_dir mbind option_bind].
        apply lookup_insert_eq.
      - discriminate. }
    remember (exec (download_twemoji cp) w) as w1 eqn:Ew1.
    rewrite download_eval, Hc. unfold exec.
    rewrite (download_hit cp w1 data Hc). repeat split.
  - rewrite download_eval.
    destruct (cached w (codepoint_to_twemoji_filename cp)) as [data|] eqn:Hc;
      [discriminate|].
    intros Hn.
    assert (Hw1 : exec (download_twemoji cp) w
                  = mkWorld (cache_dir w) (network w) (S (requests w))
                      (trace w ++ [EvRequest (twemoji_url cp)]) (stdout w)
                      (stderr w ++ [DDownloadFailed (codepoint_to_twemoji_filename cp)])).
    { unfold exec. now rewrite (download_miss_fail cp w Hc Hn). }
    rewrite Hw1. split; [reflexivity|]. split.
    + rewrite download_eval. unfold cached in *. cbn [cache_dir network requests].
      now rewrite Hc.
    + unfold exec. fetch_cases cp (mkWorld (cache_dir w) (network w) (S (requests w))
                      (trace w ++ [EvRequest (twemoji_url cp)]) (stdout w)
                      (stderr w ++ [DDownloadFailed (codepoint_to_twemoji_filename cp)]));
        try reflexivity.
      unfold cached in *. cbn [cache_dir] in *. congruence.
Qed.

Lemma download_twemoji_again_witness :
  eval (download_twemoji 0x1F600)
       (exec (download_twemoji 0x1F600) SampleWorlds.cold_world_up) = Some Sample.png
  /\ requests (exec (download_twemoji 0x1F600)
                    (exec (download_twemoji 0x1F600) SampleWorlds.cold_world_up)) = 1%nat
  /\ requests (exec (download_twemoji 0x1F600)
                    (exec (download_twemoji 0x1F600) SampleWorlds.cold_world_down)) = 2%nat.
Proof.
  destruct (download_twemoji_again 0x1F600 SampleWorlds.cold_world_up) as (Hok & _).
  destruct (download_twemoji_again 0x1F600 SampleWorlds.cold_world_down) as (_ & Hfail).
  destruct (Hok Sample.png eq_refl) as (H1 & H2 & _).
  destruct (Hfail eq_refl) as (_ & _ & H3).
  split; [exact H1|]. split; [exact H2|exact H3].
Defined.

(** ** The cache over a run *)

Section LoopRuleOn.

Context {A S : Type}.
Variable body : A -> S -> M S.

(** The loop rule for elements that satisfy a side condition [P]. *)
Lemma for_fold_invariant_on (P : A -> Prop) (Inv : list A -> S -> World -> Prop) :
  (forall seen x s w,
      P x -> Inv seen s w ->
      Inv (seen ++ [x]) (eval (body x s) w) (exec (body x s) w)) ->
  forall l seen s w,
    List.Forall P l -> Inv seen s w ->
    Inv (seen ++ l) (eval (for_fold l body s) w) (exec (for_fold l body s) w).
Proof.
  intros Hstep l. induction l as [|x l IH]; intros seen s w HP Hinv.
  - rewrite app_nil_r. exact Hinv.
  - unfold eval, exec in *. rewrite for_fold_cons.
    replace (seen ++ x :: l) with ((seen ++ [x]) ++ l) by now rewrite <- app_assoc.
    apply IH; [now inversion HP|]. apply Hstep; [now inversion HP|exact Hinv].
Qed.

End LoopRuleOn.

Lemma cache_kept_refl (w : World) : cache_kept w w.
Proof. intros f d H. exact H. Qed.

Lemma cache_kept_trans (w0 w1 w2 : World) :
  cache_kept w0 w1 -> cache_kept w1 w2 -> cache_kept w0 w2.
Proof. intros H1 H2 f d H. apply H2, H1, H. Qed.

Lemma cache_kept_same_dir (w w' : World) : cache_dir w' = cache_dir w -> cache_kept w w'.
Proof. intros H f d. unfold cached. now rewrite H. Qed.

(** What a fetch leaves in the cache, the network and the counter. *)
Lemma download_state (cp : Z) (w : World) :
  let w' := exec (download_twemoji cp) w in
  network w' = network w
  /\ cache_kept w w'
  /\ (forall data, eval (download_twemoji cp) w = Some data ->
                   cached w' (codepoint_to_twemoji_filename cp) = Some data)
  /\ requests w' = (requests w
                    + match cached w (codepoint_to_twemoji_filename cp) with
                      | Some _ => 0 | None => 1 end)%nat.
Proof.
  cbn zeta. unfold eval, exec. fetch_cases cp w; cbn [fst snd network requests].
  - split; [reflexivity|]. split; [now apply cache_kept_same_dir|].
    split; [|lia]. intros d [= <-]. exact Hc.
  - split; [reflexivity|]. split; [|split; [|lia]].
    + intros g b Hg. unfold cached in *. cbn [cache_dir mbind option_bind].
      destruct (cache_dir w) as [files|]; [|discriminate]. cbn in *.
      rewrite lookup_insert_ne; [exact Hg|]. intros <-. congruence.
    + intros d [= <-]. unfold cached. cbn [cache_dir mbind option_bind].
      apply lookup_insert_eq.
  - split; [reflexivity|]. split; [now apply cache_kept_same_dir|].
    split; [discriminate|lia].
Qed.

Lemma count_requests_fetch_events (cp : Z) (w : World) :
  count_requests (fetch_events cp w)
  = match cached w (codepoint_to_twemoji_filename cp) with
    | Some _ => 0%nat | None => 1%nat end.
Proof.
  unfold fetch_events.
  destruct (cached w _); [reflexivity|].
  destruct (network w _ _); [|reflexivity].
  now destruct (cache_dir w).
Qed.

Section CacheRun.

Variable pil_pixels : bytes -> Z -> option (list (Z * Z * Z)).

(** The loop body leaves the cache, the network and the request counter
    as its fetch left them. *)
Lemma process_emoji_fetch_state (cat : string) (cp : Z) (sc : string)
      (acc : Acc) (w : World) :
  let w' := exec (process_emoji pil_pixels cat (cp, sc) acc) w in
  let wd := exec (download_twemoji cp) w in
  cache_dir w' = cache_dir wd /\ network w' = network wd /\ requests w' = requests wd.
Proof.
  cbn zeta. split; [apply process_emoji_cache_dir|].
  unfold exec at 1 3. rewrite process_emoji_run. cbn zeta. cbn [snd network requests].
  destruct (resolve_bitmap_frame pil_pixels cp acc
              (exec (print_err (DProcessing cp sc)) w)) as (_ & -> & -> & _).
  unfold exec. fetch_cases cp w.
  - erewrite download_hit by exact Hc. split; reflexivity.
  - erewrite download_miss_ok by (exact Hc || exact Hn). split; reflexivity.
  - erewrite download_miss_fail by (exact Hc || exact Hn). split; reflexivity.
Qed.

Lemma process_emoji_cache_kept (cat : string) (e : Z * string) (acc : Acc) (w : World) :
  cache_kept w (exec (process_emoji pil_pixels cat e acc) w).
Proof.
  destruct e as [cp sc].
  destruct (process_emoji_fetch_state cat cp sc acc w) as (Hc & _).
  destruct (download_state cp w) as (_ & Hk & _).
  eapply cache_kept_trans; [exact Hk|]. now apply cache_kept_same_dir.
Qed.

End CacheRun.

(** ** Lifting a property of the loop body to the whole run *)

Lemma same_io_print_err (d : Diag) (w : World) : same_io w (exec (print_err d) w).
Proof. repeat split. Qed.

Lemma same_io_for_each_print (l : list string) (w : World) :
  same_io w (exec (for_each l print) w).
Proof. unfold exec. rewrite for_each_print. repeat split. Qed.

Section Lift.

Variable pil_pixels : bytes -> Z -> option (list (Z * Z * Z)).

(** [R rs w w']: going from [w] to [w'] through the records [rs]. *)
Variable R : list (string * (Z * string)) -> World -> World -> Prop.

Hypothesis R_quiet : forall w w', same_io w w' -> R [] w w'.
Hypothesis R_trans : forall rs1 rs2 w0 w1 w2,
    R rs1 w0 w1 -> R rs2 w1 w2 -> R (rs1 ++ rs2) w0 w2.
Hypothesis R_ensure : forall w, R [] w (exec ensure_cache_dir w).
Hypothesis R_step : forall cat e acc w,
    R [(cat, e)] w (exec (process_emoji pil_pixels cat e acc) w).

Lemma lift_refl (w : World) : R [] w w.
Proof. apply R_quiet. repeat split. Qed.

Lemma lift_quiet_then (rs : list (string * (Z * string))) (w0 w1 w2 : World) :
  same_io w0 w1 -> R rs w1 w2 -> R rs w0 w2.
Proof. intros Hq HR. apply (R_trans [] rs w0 w1 w2); [now apply R_quiet|exact HR]. Qed.

Lemma lift_then_quiet (rs : list (string * (Z * string))) (w0 w1 w2 : World) :
  R rs w0 w1 -> same_io w1 w2 -> R rs w0 w2.
Proof.
  intros HR Hq. rewrite <- (app_nil_r rs).
  apply (R_trans rs [] w0 w1 w2); [exact HR|now apply R_quiet].
Qed.

Lemma lift_emojis (cat : string) (emojis : list (Z * string)) (acc : Acc) (w : World) :
  R (map (fun e => (cat, e)) emojis) w
    (exec (for_fold emojis (process_emoji pil_pixels cat) acc) w).
Proof.
  apply (for_fold_invariant (process_emoji pil_pixels cat)
           (fun seen _ v => R (map (fun e => (cat, e)) seen) w v)) with (seen := []);
    [|apply lift_refl].
  intros seen x s v Hinv. rewrite map_app.
  eapply R_trans; [exact Hinv|apply R_step].
Qed.

Lemma lift_category (item : string * list (Z * string)) (acc : Acc) (w : World) :
  R (config_records [item]) w (exec (process_category pil_pixels item acc) w).
Proof.
  destruct item as [cat emojis]. rewrite config_records_single.
  unfold exec. rewrite process_category_run.
  eapply lift_quiet_then; [|apply lift_emojis].
  apply same_io_for_each_print.
Qed.

Lemma lift_categories (data : list (string * list (Z * string))) (acc : Acc) (w : World) :
  R (config_records data) w (exec (for_fold data (process_category pil_pixels) acc) w).
Proof.
  apply (for_fold_invariant (process_category pil_pixels)
           (fun seen _ v => R (config_records seen) w v)) with (seen := []);
    [|apply lift_refl].
  intros seen x s v Hinv. rewrite config_records_app.
  eapply R_trans; [exact Hinv|apply lift_category].
Qed.

(** The run of [main], from the world just after [ensure_cache_dir()]. *)
Lemma lift_main_after_ensure (data : list (string * list (Z * string))) (tot : Z)
      (w : World) :
  R (config_records data)
    (exec ensure_cache_dir (exec (print_err DGenerating) w))
    (exec (main_on pil_pixels data tot) w).
Proof.
  rewrite main_on_exec. cbn zeta.
  eapply lift_then_quiet; [|apply same_io_print_err].
  eapply lift_then_quiet; [|apply same_io_for_each_print].
  eapply lift_quiet_then; [apply same_io_for_each_print|].
  apply lift_categories.
Qed.

Lemma lift_main (data : list (string * list (Z * string))) (tot : Z) (w : World) :
  R (config_records data) w (exec (main_on pil_pixels data tot) w).
Proof.
  eapply lift_quiet_then; [apply same_io_print_err|].
  apply (R_trans [] _ _ _ _ (R_ensure _)). apply lift_main_after_ensure.
Qed.

End Lift.

(** ** X4 to X7: what a run does to the cache and to the network *)

Lemma ensure_cache_dir_state (w : World) :
  let w' := exec ensure_cache_dir w in
  is_Some (cache_dir w') /\ cache_kept w w' /\ network w' = network w
  /\ requests w' = requests w
  /\ count_requests (trace w') = count_requests (trace w)
  /\ (is_Some (cache_dir w) -> w' = w).
Proof.
  cbn zeta. unfold exec. rewrite ensure_cache_dir_run. cbn [snd].
  destruct (cache_dir w) as [files|] eqn:Hd.
  - rewrite Hd. repeat split; eauto using cache_kept_refl.
  - cbn [cache_dir network requests trace]. rewrite count_requests_app. cbn.
    repeat split; eauto; try lia.
    + intros f d. unfold cached. now rewrite Hd.
    + intros [x Hx]. discriminate.
Qed.

Lemma fully_warm_fetched (files : gmap string bytes)
      (data : list (string * list (Z * string))) (w : World) :
  cache_dir w = Some files ->
  fully_warm files data = true <-> fetched (config_records data) w.
Proof.
  intros Hd. unfold fully_warm, fetched, config_codepoints.
  rewrite forallb_forall, List.Forall_forall. split.
  - intros H r Hr. unfold cached. rewrite Hd. cbn [mbind option_bind].
    apply (bool_decide_unpack _), Is_true_true, H.
    apply in_map_iff. eauto.
  - intros H cp Hcp. apply in_map_iff in Hcp as (r & <- & Hr).
    apply Is_true_true, bool_decide_pack. specialize (H r Hr).
    unfold cached in H. rewrite Hd in H. exact H.
Qed.

Section Runs.

Variable pil_pixels : bytes -> Z -> option (list (Z * Z * Z)).

(** Once the cache directory exists, the rest of the run keeps it. *)
Lemma main_on_cache_dir_exists (data : list (string * list (Z * string))) (tot : Z)
      (w : World) :
  is_Some (cache_dir (exec (main_on pil_pixels data tot) w)).
Proof.
  pose (R := fun (_ : list (string * (Z * string))) (v v' : World) =>
               is_Some (cache_dir v) -> is_Some (cache_dir v')).
  assert (HR : R (config_records data)
                 (exec ensure_cache_dir (exec (print_err DGenerating) w))
                 (exec (main_on pil_pixels data tot) w)).
  { apply (lift_main_after_ensure pil_pixels R); unfold R.
    - intros v v' (Hc & _). now rewrite Hc.
    - tauto.
    - intros cat [cp sc] acc v.
      destruct (process_emoji_fetch_state pil_pixels cat cp sc acc v) as (-> & _).
      intros [fs Hfs]. unfold exec. fetch_cases cp v; cbn [snd cache_dir]; eauto. }
  apply HR. apply ensure_cache_dir_state.
Qed.

(** X4.  A run never deletes or alters a file of the cache: whatever the
    cache held before [main], under any name, it holds after it, with the
    same bytes.  After [main] the cache directory exists, whether it
    existed before or not. *)
Theorem main_keeps_cache (data : list (string * list (Z * string))) (tot : Z)
        (w : World) :
  let w' := exec (main_on pil_pixels data tot) w in
  (forall filename b, cached w filename = Some b -> cached w' filename = Some b)
  /\ is_Some (cache_dir w').
Proof.
  cbn zeta. split; [|apply main_on_cache_dir_exists].
  change (cache_kept w (exec (main_on pil_pixels data tot) w)).
  apply (lift_main pil_pixels (fun _ v v' => cache_kept v v')).
  - intros v v' (Hc & _). now apply cache_kept_same_dir.
  - intros _ _ w0 w1 w2. apply cache_kept_trans.
  - intros v. now destruct (ensure_cache_dir_state v) as (_ & Hk & _).
  - intros cat e acc v. apply process_emoji_cache_kept.
Qed.

(** X5.  One pass of the loop body makes one request when the file of
    its code point is not in the cache and none when it is.  A run
    therefore makes at most one request per configured record: the number
    of requests on the trace grows by at most the number of records, and
    the request counter advances by exactly that growth.  For
    [EMOJI_DATA] that is at most 1013 requests. *)
Theorem main_requests_bounded (data : list (string * list (Z * string))) (tot : Z)
        (w : World) :
  (forall cat cp sc acc v,
      count_requests (trace (exec (process_emoji pil_pixels cat (cp, sc) acc) v))
      = (count_requests (trace v)
         + match cached v (codepoint_to_twemoji_filename cp) with
           | Some _ => 0
           | None => 1
           end)%nat)
  /\ requests_within (length (config_records data)) w (exec (main_on pil_pixels data tot) w)
  /\ requests_within 1013 w (exec (main pil_pixels) w).
Proof.
  assert (Hstep : forall cat cp sc acc v,
             count_requests (trace (exec (process_emoji pil_pixels cat (cp, sc) acc) v))
             = (count_requests (trace v)
                + match cached v (codepoint_to_twemoji_filename cp) with
                  | Some _ => 0
                  | None => 1
                  end)%nat).
  { intros cat cp sc acc v.
    rewrite process_emoji_trace, !count_requests_app, count_requests_fetch_events.
    cbn. lia. }
  assert (H : forall d t,
             requests_within (length (config_records d)) w
                             (exec (main_on pil_pixels d t) w)).
  { intros d t.
    apply (lift_main pil_pixels (fun rs v v' => requests_within (length rs) v v'));
      unfold requests_within.
    - intros v v' (_ & _ & -> & ->). cbn. lia.
    - intros rs1 rs2 w0 w1 w2 H1 H2. rewrite length_app. lia.
    - intros v. destruct (ensure_cache_dir_state v) as (_ & _ & _ & -> & -> & _).
      cbn. lia.
    - intros cat [cp sc] acc v.
      destruct (process_emoji_fetch_state pil_pixels cat cp sc acc v) as (_ & _ & ->).
      destruct (download_state cp v) as (_ & _ & _ & ->).
      rewrite Hstep. destruct (cached v _); cbn; lia. }
  split; [exact Hstep|]. split; [apply H|apply (H EMOJI_DATA total)].
Qed.

End Runs.

Lemma main_keeps_cache_witness :
  cached SampleWorlds.hit_world "1f600.png" = Some Sample.png
  /\ cached (exec (main Sample.pil) SampleWorlds.hit_world) "1f600.png" = Some Sample.png
  /\ cache_dir SampleWorlds.cold_world_down = None
  /\ is_Some (cache_dir (exec (main Sample.pil) SampleWorlds.cold_world_down)).
Proof.
  assert (H : cached SampleWorlds.hit_world "1f600.png" = Some Sample.png) by reflexivity.
  destruct (main_keeps_cache Sample.pil EMOJI_DATA total SampleWorlds.hit_world)
    as (Hkept & _).
  destruct (main_keeps_cache Sample.pil EMOJI_DATA total SampleWorlds.cold_world_down)
    as (_ & Hdir).
  split; [exact H|]. split; [exact (Hkept _ _ H)|]. split; [reflexivity|exact Hdir].
Defined.

Section Rerun.

Variable pil_pixels : bytes -> Z -> option (list (Z * Z * Z)).

Lemma offline_main (files : gmap string bytes)
      (data : list (string * list (Z * string))) (tot : Z) (w : World) :
  cache_dir w = Some files -> fetched (config_records data) w ->
  offline files w (exec (main_on pil_pixels data tot) w).
Proof.
  pose (R := fun (rs : list (string * (Z * string))) (v v' : World) =>
               cache_dir v = Some files -> fetched rs v -> offline files v v').
  enough (HR : R (config_records data) w (exec (main_on pil_pixels data tot) w))
    by exact HR.
  apply (lift_main pil_pixels R); unfold R, offline.
  - intros v v' (Hc & _ & Hr & Ht) Hd _. now rewrite Hc, Hr, Ht.
  - intros rs1 rs2 w0 w1 w2 H1 H2 Hd Hf.
    unfold fetched in Hf. apply List.Forall_app in Hf as [Hf1 Hf2].
    destruct (H1 Hd Hf1) as (Hd1 & Hr1 & Ht1).
    assert (Hf2' : fetched rs2 w1).
    { unfold fetched, cached in *. now rewrite Hd1, <- Hd. }
    destruct (H2 Hd1 Hf2') as (Hd2 & Hr2 & Ht2).
    split; [exact Hd2|]. split; congruence.
  - intros v Hd _. destruct (ensure_cache_dir_state v) as (_ & _ & _ & _ & _ & Hsame).
    rewrite Hsame by (rewrite Hd; eauto). tauto.
  - intros cat [cp sc] acc v Hd Hf.
    apply List.Forall_inv in Hf. cbn [fst snd] in Hf. destruct Hf as [b Hb].
    destruct (process_emoji_fetch_state pil_pixels cat cp sc acc v) as (-> & _ & ->).
    rewrite process_emoji_trace, !count_requests_app, count_requests_fetch_events, Hb.
    unfold exec. rewrite (download_hit cp v b Hb). cbn. split; [exact Hd|]. split; lia.
Qed.

(** X6.  Over a cache that holds a file for every configured identifier
    a run is offline: it makes no request, whatever is cached (even an
    empty or undecodable file), and leaves the cache exactly as it was. *)
Theorem warm_run_is_offline (files : gmap string bytes)
        (data : list (string * list (Z * string))) (tot : Z) (w : World) :
  cache_dir w = Some files ->
  fully_warm files data = true ->
  cache_dir (exec (main_on pil_pixels data tot) w) = Some files
  /\ requests (exec (main_on pil_pixels data tot) w) = requests w
  /\ count_requests (trace (exec (main_on pil_pixels data tot) w))
     = count_requests (trace w).
Proof.
  intros Hd Hwarm. apply offline_main; [exact Hd|].
  now apply (fully_warm_fetched files data w Hd).
Qed.

Lemma stocked_main (data : list (string * list (Z * string))) (tot : Z) (w : World) :
  always_answers (network w) ->
  stocked w (config_records data) (exec (main_on pil_pixels data tot) w).
Proof.
  pose (R := fun (rs : list (string * (Z * string))) (v v' : World) =>
               always_answers (network v) -> stocked v rs v').
  enough (HR : R (config_records data) w (exec (main_on pil_pixels data tot) w))
    by exact HR.
  apply (lift_main pil_pixels R); unfold R, stocked.
  - intros v v' (Hc & Hn & _) _. split; [exact Hn|].
    split; [now apply cache_kept_same_dir|constructor].
  - intros rs1 rs2 w0 w1 w2 H1 H2 Hnet.
    destruct (H1 Hnet) as (Hn1 & Hk1 & Hf1).
    destruct H2 as (Hn2 & Hk2 & Hf2); [now rewrite Hn1|].
    split; [congruence|]. split; [eapply cache_kept_trans; eassumption|].
    unfold fetched in *. apply List.Forall_app. split; [|exact Hf2].
    eapply List.Forall_impl; [|exact Hf1].
    intros r [b Hb]. exists b. now apply Hk2.
  - intros v _. destruct (ensure_cache_dir_state v) as (_ & Hk & Hn & _).
    split; [exact Hn|]. split; [exact Hk|constructor].
  - intros cat [cp sc] acc v Hnet.
    destruct (process_emoji_fetch_state pil_pixels cat cp sc acc v) as (Hc & Hn & _).
    destruct (download_state cp v) as (Hnd & _ & Hself & _).
    split; [congruence|]. split; [apply process_emoji_cache_kept|].
    constructor; [|constructor]. cbn [fst snd].
    assert (Hsome : is_Some (eval (download_twemoji cp) v)).
    { rewrite download_eval. destruct (cached v _); [eauto|apply Hnet]. }
    destruct Hsome as [b Hb]. exists b.
    unfold cached. rewrite Hc. apply (Hself b Hb).
Qed.

(** X7.  When the network answers every request, a run leaves a cache
    that holds a file for every configured identifier, whatever the cache
    held before; a second run, over any network, then makes no request and
    leaves that cache as it is. *)
Theorem answered_run_warms_cache
        (data : list (string * list (Z * string))) (tot : Z) (w : World) :
  always_answers (network w) ->
  let w1 := exec (main_on pil_pixels data tot) w in
  exists files,
    cache_dir w1 = Some files
    /\ fully_warm files data = true
    /\ forall w2, cache_dir w2 = Some files ->
         cache_dir (exec (main_on pil_pixels data tot) w2) = Some files
         /\ count_requests (trace (exec (main_on pil_pixels data tot) w2))
            = count_requests (trace w2).
Proof.
  intros Hnet. cbn zeta.
  destruct (stocked_main data tot w Hnet) as (_ & _ & Hf).
  destruct (main_on_cache_dir_exists pil_pixels data tot w) as [files Hfiles].
  exists files. split; [exact Hfiles|].
  assert (Hwarm : fully_warm files data = true)
    by now apply (fully_warm_fetched files data _ Hfiles).
  split; [exact Hwarm|].
  intros w2 Hd2.
  destruct (offline_main files data tot w2 Hd2) as (H1 & _ & H3);
    [now apply (fully_warm_fetched files data w2 Hd2)|].
  split; assumption.
Qed.

End Rerun.

Lemma warm_run_is_offline_witness :
  fully_warm Sample.warm_files EMOJI_DATA = true
  /\ requests (exec (main Sample.pil) SampleWorlds.warm_world_up) = 0%nat.
Proof.
  assert (Hwarm : fully_warm Sample.warm_files EMOJI_DATA = true)
    by (vm_compute; reflexivity).
  destruct (warm_run_is_offline Sample.pil Sample.warm_files EMOJI_DATA total
              SampleWorlds.warm_world_up eq_refl Hwarm) as (_ & Hr & _).
  split; [exact Hwarm|exact Hr].
Defined.

Lemma sample_net_up_answers : always_answers Sample.net_up.
Proof. intros k url. unfold Sample.net_up. eauto. Qed.

Lemma answered_run_warms_cache_witness :
  always_answers (network SampleWorlds.cold_world_up)
  /\ exists files,
       cache_dir (exec (main Sample.pil) SampleWorlds.cold_world_up) = Some files
       /\ fully_warm files EMOJI_DATA = true.
Proof.
  destruct (answered_run_warms_cache Sample.pil EMOJI_DATA total
              SampleWorlds.cold_world_up sample_net_up_answers)
    as (files & Hd & Hw & _).
  split; [exact sample_net_up_answers|]. exists files. split; assumption.
Defined.

(** ** X8: the arrays the artifact declares *)

Lemma is_array_decl_decl (var_name : string) : is_array_decl (array_decl var_name) = true.
Proof. unfold is_array_decl, array_decl. apply prefix_append. Qed.

Lemma bitmap_lines_decl (var_name : string) (data : list Z) :
  List.filter is_array_decl (bitmap_lines var_name data) = [array_decl var_name].
Proof.
  unfold bitmap_lines. rewrite !List.filter_app.
  change (List.filter is_array_decl [_]) with
    (if is_array_decl (array_decl var_name) then [array_decl var_name] else []).
  rewrite is_array_decl_decl.
  rewrite (filter_none is_array_decl (map _ _)).
  - reflexivity.
  - apply List.Forall_forall. intros line Hline.
    apply in_map_iff in Hline as (i & <- & _). reflexivity.
Qed.

Lemma table_lines_no_decl (entries : list Entry) :
  List.filter is_array_decl (table_lines entries) = [].
Proof.
  unfold table_lines. rewrite !List.filter_app.
  rewrite (filter_none is_array_decl (map _ _)); [reflexivity|].
  apply List.Forall_forall. intros line Hline.
  apply in_map_iff in Hline as (e & <- & _). reflexivity.
Qed.

Lemma header_lines_no_decl (tot : Z) :
  List.filter is_array_decl (header_lines tot) = [].
Proof. reflexivity. Qed.

Lemma declares_refl (w : World) : declares [] w w.
Proof. exists []. split; [now rewrite app_nil_r|reflexivity]. Qed.

Lemma declares_trans (rs1 rs2 : list (string * (Z * string))) (w0 w1 w2 : World) :
  declares rs1 w0 w1 -> declares rs2 w1 w2 -> declares (rs1 ++ rs2) w0 w2.
Proof.
  intros (b1 & Ho1 & Hf1) (b2 & Ho2 & Hf2). exists (b1 ++ b2). split.
  - rewrite Ho2, Ho1. now rewrite <- app_assoc.
  - now rewrite List.filter_app, Hf1, Hf2, map_app.
Qed.

Lemma declares_print (lines : list string) (w : World) :
  List.filter is_array_decl lines = [] ->
  declares [] w (exec (for_each lines print) w).
Proof.
  intros Hnone. exists lines. split; [apply for_each_print_exec|exact Hnone].
Qed.

Lemma declares_same_stdout (w w' : World) : stdout w' = stdout w -> declares [] w w'.
Proof. intros H. exists []. split; [now rewrite app_nil_r|reflexivity]. Qed.

(** Upper-casing merges none of the configured short codes. *)
Lemma upper_shortcodes_unique : NoDup (map upper (config_shortcodes EMOJI_DATA)).
Proof. apply (bool_decide_unpack _). vm_compute. exact I. Qed.

Lemma declared_names_unique : NoDup (declared_names EMOJI_DATA).
Proof.
  unfold declared_names, var_name_of.
  replace (map _ (config_records EMOJI_DATA))
    with (String.app "EMOJI_BMP_" <$> map upper (config_shortcodes EMOJI_DATA)).
  - apply (NoDup_fmap_2 _). exact upper_shortcodes_unique.
  - unfold config_shortcodes.
    induction (config_records EMOJI_DATA) as [|r rs IH]; [reflexivity|].
    cbn [map fmap list_fmap]. f_equal. exact IH.
Qed.

Section Declarations.

Variable pil_pixels : bytes -> Z -> option (list (Z * Z * Z)).

Lemma process_emoji_declares (cat : string) (e : Z * string) (acc : Acc) (w : World) :
  declares [(cat, e)] w (exec (process_emoji pil_pixels cat e acc) w).
Proof.
  destruct e as [cp sc]. eexists. split; [apply process_emoji_stdout|].
  apply bitmap_lines_decl.
Qed.

Lemma emojis_loop_declares (cat : string) (emojis : list (Z * string))
      (acc : Acc) (w : World) :
  declares (map (fun e => (cat, e)) emojis) w
    (exec (for_fold emojis (process_emoji pil_pixels cat) acc) w).
Proof.
  apply (for_fold_invariant (process_emoji pil_pixels cat)
           (fun seen _ v => declares (map (fun e => (cat, e)) seen) w v))
    with (seen := []); [|apply declares_refl].
  intros seen x s v Hinv. rewrite map_app.
  eapply declares_trans; [exact Hinv|apply process_emoji_declares].
Qed.

Lemma process_category_declares (item : string * list (Z * string))
      (acc : Acc) (w : World) :
  declares (config_records [item]) w (exec (process_category pil_pixels item acc) w).
Proof.
  destruct item as [cat emojis]. rewrite config_records_single.
  unfold exec. rewrite process_category_run.
  eapply (declares_trans []); [|apply emojis_loop_declares].
  apply declares_print. reflexivity.
Qed.

Lemma categories_loop_declares (data : list (string * list (Z * string)))
      (acc : Acc) (w : World) :
  declares (config_records data) w
    (exec (for_fold data (process_category pil_pixels) acc) w).
Proof.
  apply (for_fold_invariant (process_category pil_pixels)
           (fun seen _ v => declares (config_records seen) w v))
    with (seen := []); [|apply declares_refl].
  intros seen x s v Hinv. rewrite config_records_app.
  eapply declares_trans; [exact Hinv|apply process_category_declares].
Qed.

Lemma main_on_declares (data : list (string * list (Z * string))) (tot : Z) (w : World) :
  declares (config_records data) w (exec (main_on pil_pixels data tot) w).
Proof.
  rewrite main_on_exec. cbn zeta.
  rewrite <- (app_nil_r (config_records data)).
  eapply declares_trans; [|apply declares_same_stdout, print_err_quiet].
  rewrite <- (app_nil_r (config_records data)).
  eapply declares_trans; [|apply declares_print, table_lines_no_decl].
  eapply (declares_trans []); [|apply categories_loop_declares].
  eapply (declares_trans [] []); [|apply declares_print, header_lines_no_decl].
  eapply (declares_trans [] []);
    [apply declares_same_stdout, print_err_quiet
    |apply declares_same_stdout, ensure_cache_dir_quiet].
Qed.

(** X8.  Whatever the fetches did, the artifact opens exactly one array
    per configuration record, in declaration order, named after the
    record's short code; these are, in the same order, the names the
    table records refer to.  For [EMOJI_DATA] the 1013 names are pairwise
    distinct, so no constant is declared twice. *)
Theorem artifact_declares_each_bitmap
        (data : list (string * list (Z * string))) (tot : Z) (w : World) :
  (exists body,
      stdout (exec (main_on pil_pixels data tot) w) = stdout w ++ body
      /\ List.filter is_array_decl body = map array_decl (declared_names data))
  /\ map entry_var_name (all_entries (eval (main_on pil_pixels data tot) w))
     = declared_names data
  /\ NoDup (declared_names EMOJI_DATA).
Proof.
  split; [|split].
  - destruct (main_on_declares data tot w) as (body & Ho & Hf).
    exists body. split; [exact Ho|]. rewrite Hf. unfold declared_names.
    now rewrite map_map.
  - destruct (main_on_spec pil_pixels data tot w) as (-> & _).
    unfold declared_names. rewrite map_map. apply map_ext.
    intros [cat [cp sc]]. reflexivity.
  - exact declared_names_unique.
Qed.

End Declarations.

(** ** X9 and X10: more on the quantiser *)

(** X9.  Two 8-bit colours get the same RGB565 value exactly when they
    agree on the five top bits of red, the six top bits of green and the
    five top bits of blue: nothing else is lost. *)
Theorem rgb_to_rgb565_collisions (r g b r' g' b' : Z) :
  channel8 r -> channel8 g -> channel8 b ->
  channel8 r' -> channel8 g' -> channel8 b' ->
  rgb_to_rgb565 r g b = rgb_to_rgb565 r' g' b'
  <-> r / 8 = r' / 8 /\ g / 4 = g' / 4 /\ b / 8 = b' / 8.
Proof.
  intros Hr Hg Hb Hr' Hg' Hb'.
  rewrite !rgb565_sum_form by assumption.
  unfold channel8 in *.
  assert (0 <= r / 8 <= 31) by (Z.div_mod_to_equations; lia).
  assert (0 <= g / 4 <= 63) by (Z.div_mod_to_equations; lia).
  assert (0 <= b / 8 <= 31) by (Z.div_mod_to_equations; lia).
  assert (0 <= r' / 8 <= 31) by (Z.div_mod_to_equations; lia).
  assert (0 <= g' / 4 <= 63) by (Z.div_mod_to_equations; lia).
  assert (0 <= b' / 8 <= 31) by (Z.div_mod_to_equations; lia).
  split; [intros Heq; lia|intros (-> & -> & ->); reflexivity].
Qed.

Lemma rgb_to_rgb565_collisions_witness :
  rgb_to_rgb565 255 215 0 = rgb_to_rgb565 248 212 7
  /\ rgb_to_rgb565 255 215 0 <> rgb_to_rgb565 247 215 0.
Proof.
  assert (C : forall c, 0 <= c <= 255 -> channel8 c) by (intros c H; exact H).
  split.
  - apply (rgb_to_rgb565_collisions 255 215 0 248 212 7); try (apply C; lia).
    repeat split; reflexivity.
  - intros Heq.
    apply (rgb_to_rgb565_collisions 255 215 0 247 215 0) in Heq; try (apply C; lia).
    destruct Heq as (Hred & _). discriminate Hred.
Defined.

Lemma land_low_byte (x mask : Z) :
  0 <= mask <= 255 -> Z.land x mask = Z.land (x mod 256) mask.
Proof.
  intros Hm. change 256 with (2 ^ 8). rewrite <- Z.land_ones by lia.
  rewrite <- Z.land_assoc. f_equal.
  apply Z.bits_inj'. intros n Hn. rewrite Z.land_spec.
  destruct (Z_lt_le_dec n 8) as [Hlt|Hge].
  - now rewrite Z.ones_spec_low by lia.
  - rewrite (testbit_above mask 8 n) by (change (2 ^ 8) with 256; lia).
    symmetry. apply andb_false_r.
Qed.

(** X10.  Red and green are masked before they are shifted, so for any
    integers [r] and [g], negative or large, only their low eight bits
    count and the result stays a 16-bit value as long as blue is an 8-bit
    value.  Blue is shifted without a mask: a blue of 256 lands on the
    lowest green bit. *)
Theorem rgb_to_rgb565_masks_red_green (r g b : Z) :
  channel8 b ->
  rgb_to_rgb565 r g b = rgb_to_rgb565 (r mod 256) (g mod 256) b
  /\ is_u16 (rgb_to_rgb565 r g b)
  /\ rgb_to_rgb565 0 0 256 = rgb_to_rgb565 0 4 0.
Proof.
  intros Hb.
  assert (Heq : rgb_to_rgb565 r g b = rgb_to_rgb565 (r mod 256) (g mod 256) b).
  { unfold rgb_to_rgb565.
    now rewrite (land_low_byte r 0xF8), (land_low_byte g 0xFC) by lia. }
  split; [exact Heq|]. split; [|reflexivity].
  rewrite Heq. apply rgb565_is_u16; [| |exact Hb]; unfold channel8.
  - pose proof (Z.mod_pos_bound r 256). lia.
  - pose proof (Z.mod_pos_bound g 256). lia.
Qed.

Lemma rgb_to_rgb565_masks_red_green_witness :
  rgb_to_rgb565 (-1) 1000 7 = rgb_to_rgb565 255 232 7
  /\ is_u16 (rgb_to_rgb565 (-1) 1000 7).
Proof.
  assert (Hb : channel8 7) by (unfold channel8; lia).
  destruct (rgb_to_rgb565_masks_red_green (-1) 1000 7 Hb) as (Heq & Hu & _).
  split; [exact Heq|exact Hu].
Defined.


(** * Theorems about the theme patch script *)

Module ThemePatchFacts.

Import ThemePatch.

(** ** Substrings *)

Lemma append_cons (c : ascii) (s u : string) : String c s +:+ u = String c (s +:+ u).
Proof. reflexivity. Qed.

Lemma append_nil (u : string) : "" +:+ u = u.
Proof. reflexivity. Qed.

Lemma prefix_iff (s t : string) :
  String.prefix s t = true <-> exists u, t = s +:+ u.
Proof.
  revert t. induction s as [|c s IH]; intros t.
  - split; [intros _; exists t; reflexivity|intros _; now destruct t].
  - destruct t as [|c' t]; cbn [String.prefix].
    + split; [discriminate|intros [u Hu]; rewrite append_cons in Hu; discriminate].
    + destruct (ascii_dec c c') as [<-|Hne].
      * rewrite IH. split; intros [u Hu]; exists u; rewrite append_cons in *; congruence.
      * split; [discriminate|intros [u Hu]; rewrite append_cons in Hu; congruence].
Qed.

Lemma contains_iff (needle hay : string) :
  contains needle hay = true <-> exists pre post, hay = pre +:+ needle +:+ post.
Proof.
  induction hay as [|c hay IH]; cbn [contains]; rewrite orb_true_iff, prefix_iff.
  - split.
    + intros [[u Hu]|Hf]; [|discriminate]. exists ""%string, u. exact Hu.
    + intros (pre & post & H). left.
      destruct pre; [now exists post|rewrite append_cons in H; discriminate].
  - rewrite IH. split.
    + intros [[u Hu]|(pre & post & H)].
      * exists ""%string, u. exact Hu.
      * exists (String c pre), post. rewrite append_cons. now rewrite H.
    + intros (pre & post & H). destruct pre as [|c' pre].
      * left. now exists post.
      * right. rewrite append_cons in H. injection H as _ H. now exists pre, post.
Qed.

Lemma append_assoc (a b c : string) : (a +:+ b) +:+ c = a +:+ (b +:+ c).
Proof. induction a as [|x a IH]; [reflexivity|]. now rewrite !append_cons, IH. Qed.

(** A string that contains [outer] contains every part of [outer]. *)
Lemma contains_part (inner outer hay : string) :
  contains inner outer = true -> contains outer hay = true ->
  contains inner hay = true.
Proof.
  rewrite !contains_iff. intros (p1 & q1 & ->) (p2 & q2 & ->).
  exists (p2 +:+ p1), (q1 +:+ q2). now rewrite !append_assoc.
Qed.


(** ** Finding the library *)

Section Patching.

Variable path_join : string -> string -> string.
Variable basename : string -> string.
Variable dirname : string -> string.

(** X11.  The library directory is the first listed name whose
    lower-case form contains "device-ui"; the script's second test, for
    "meshtastic-device-ui", never decides anything.  Names that match
    further down the listing are ignored. *)
Theorem find_device_ui_first_match (libdeps_dir : string) (names : list string) :
  find_device_ui path_join libdeps_dir names
  = path_join libdeps_dir
      <$> List.find (fun name => contains "device-ui" (lower name)) names.
Proof.
  induction names as [|name rest IH]; [reflexivity|].
  cbn [find_device_ui List.find].
  destruct (contains "device-ui" (lower name)) eqn:Hshort; [reflexivity|].
  destruct (contains "meshtastic-device-ui" (lower name)) eqn:Hlong; [|exact IH].
  exfalso. assert (Hin : contains "device-ui" (lower name) = true).
  { apply (contains_part _ "meshtastic-device-ui"); [reflexivity|exact Hlong]. }
  congruence.
Qed.

(** ** One patch *)

Lemma backup_differs (path : string) : path <> (path +:+ ".original")%string.
Proof.
  intros H. apply (f_equal String.length) in H.
  rewrite string_length_append in H. cbn in H. lia.
Qed.

Lemma files_say (line : string) (w : PatchWorld) : files (say line w) = files w.
Proof. reflexivity. Qed.

Lemma dirs_say (line : string) (w : PatchWorld) : dirs (say line w) = dirs w.
Proof. reflexivity. Qed.

Lemma files_copy2 (src dst : string) (w : PatchWorld) :
  files (copy2 basename dirname src dst w)
  = match files w !! src with
    | Some content => <[dst := content]> (files w)
    | None => files w
    end.
Proof. unfold copy2. now destruct (files w !! src). Qed.

Lemma dirs_copy2 (src dst : string) (w : PatchWorld) :
  dirs (copy2 basename dirname src dst w)
  = match files w !! src, files w !! dst with
    | Some _, None => add_name (dirname dst) (basename dst) (dirs w)
    | _, _ => dirs w
    end.
Proof. unfold copy2. destruct (files w !! src); [|reflexivity]. now destruct (files w !! dst). Qed.

(** What a patch does to the files, in terms of the contents before it. *)
Lemma files_apply_patch (od dd sr tr : string) (w : PatchWorld) :
  let s := path_join od sr in
  let t := path_join dd tr in
  let b := (t +:+ ".original")%string in
  files (apply_patch path_join basename dirname od dd (sr, tr) w)
  = match files w !! s, files w !! t with
    | Some _, Some original =>
        let kept := match files w !! b with
                    | Some _ => files w
                    | None => <[b := original]> (files w)
                    end in
        match kept !! s with
        | Some content => <[t := content]> kept
        | None => kept
        end
    | _, _ => files w
    end.
Proof.
  cbn zeta. unfold apply_patch, file_exists.
  destruct (files w !! path_join od sr) as [c|] eqn:Hs; cbn [negb];
    [|rewrite bool_decide_eq_false_2 by (intros [? ?]; discriminate); reflexivity].
  rewrite bool_decide_eq_true_2 by eauto. cbn [negb].
  destruct (files w !! path_join dd tr) as [o|] eqn:Ht;
    [|rewrite bool_decide_eq_false_2 by (intros [? ?]; discriminate); reflexivity].
  rewrite bool_decide_eq_true_2 by eauto.
  destruct (files w !! (path_join dd tr +:+ ".original")%string) as [k|] eqn:Hb.
  - rewrite bool_decide_eq_true_2 by eauto. cbn [negb].
    rewrite files_say, files_copy2, Hs. reflexivity.
  - rewrite bool_decide_eq_false_2 by (intros [? ?]; discriminate). cbn [negb].
    rewrite files_say, files_copy2, files_say, files_copy2, Ht. reflexivity.
Qed.

(** What a patch does to the directory listings: the name of a backup
    it creates is the only name it adds. *)
Lemma dirs_apply_patch (od dd sr tr : string) (w : PatchWorld) :
  let s := path_join od sr in
  let t := path_join dd tr in
  let b := (t +:+ ".original")%string in
  dirs (apply_patch path_join basename dirname od dd (sr, tr) w)
  = match files w !! s, files w !! t, files w !! b with
    | Some _, Some _, None => add_name (dirname b) (basename b) (dirs w)
    | _, _, _ => dirs w
    end.
Proof.
  cbn zeta. unfold apply_patch, file_exists.
  destruct (files w !! path_join od sr) as [c|] eqn:Hs; cbn [negb];
    [|rewrite bool_decide_eq_false_2 by (intros [? ?]; discriminate); reflexivity].
  rewrite bool_decide_eq_true_2 by eauto. cbn [negb].
  destruct (files w !! path_join dd tr) as [o|] eqn:Ht;
    [|rewrite bool_decide_eq_false_2 by (intros [? ?]; discriminate); reflexivity].
  rewrite bool_decide_eq_true_2 by eauto.
  destruct (files w !! (path_join dd tr +:+ ".original")%string) as [k|] eqn:Hb.
  - rewrite bool_decide_eq_true_2 by eauto. cbn [negb].
    rewrite dirs_say, dirs_copy2, Hs, Ht. reflexivity.
  - rewrite bool_decide_eq_false_2 by (intros [? ?]; discriminate). cbn [negb].
    rewrite dirs_say, dirs_copy2, !files_say, !files_copy2, Ht.
    rewrite (lookup_insert_ne _ (path_join dd tr +:+ ".original")%string (path_join dd tr))
      by (intros Heq; symmetry in Heq; now apply backup_differs in Heq).
    rewrite Ht, dirs_say, dirs_copy2, Ht, Hb.
    now destruct (<[_ := o]> (files w) !! path_join od sr).
Qed.

Lemma apply_patch_other (od dd sr tr : string) (w : PatchWorld) (p : string) :
  p <> path_join dd tr -> p <> (path_join dd tr +:+ ".original")%string ->
  files (apply_patch path_join basename dirname od dd (sr, tr) w) !! p = files w !! p.
Proof.
  intros Ht Hb. rewrite files_apply_patch. cbn zeta.
  repeat case_match; rewrite ?lookup_insert_ne by congruence; reflexivity.
Qed.

Lemma apply_patch_keeps (od dd : string) (patch : string * string)
      (w : PatchWorld) (p : string) :
  is_Some (files w !! p) ->
  is_Some (files (apply_patch path_join basename dirname od dd patch w) !! p).
Proof.
  destruct patch as [sr tr]. intros Hp. rewrite files_apply_patch. cbn zeta.
  repeat case_match; rewrite ?lookup_insert; repeat case_decide; eauto.
Qed.

(** ** The patch loop *)

(** Listings only grow, and only by the base names of backups. *)
Lemma loop_listing (od dd : string) (l : list (string * string)) (w : PatchWorld)
      (d : string) :
  exists added,
    dirs (fold_left (fun v patch => apply_patch path_join basename dirname od dd patch v) l w)
      !! d
    = (fun names => names ++ added) <$> dirs w !! d
    /\ forall n, In n added ->
         exists b, In b (backups_of path_join dd l) /\ dirname b = d /\ basename b = n.
Proof.
  revert w. induction l as [|[sr tr] l IH]; intros w.
  - exists []. split; [|intros n []]. cbn [fold_left].
    destruct (dirs w !! d); cbn; [now rewrite app_nil_r|reflexivity].
  - cbn [fold_left].
    destruct (IH (apply_patch path_join basename dirname od dd (sr, tr) w))
      as (added & Hd & Hadded).
    set (b := (path_join dd tr +:+ ".original")%string).
    assert (Hstep : exists first,
               dirs (apply_patch path_join basename dirname od dd (sr, tr) w) !! d
               = (fun names => names ++ first) <$> dirs w !! d
               /\ forall n, In n first -> dirname b = d /\ basename b = n).
    { rewrite dirs_apply_patch. cbn zeta. fold b.
      assert (Hsame : exists first,
                 dirs w !! d = (fun names => names ++ first) <$> dirs w !! d
                 /\ forall n, In n first -> dirname b = d /\ basename b = n).
      { exists []. split; [|intros n []].
        destruct (dirs w !! d); cbn; [now rewrite app_nil_r|reflexivity]. }
      destruct (files w !! path_join od sr); [|exact Hsame].
      destruct (files w !! path_join dd tr); [|exact Hsame].
      destruct (files w !! b); [exact Hsame|].
      unfold add_name. destruct (decide (dirname b = d)) as [<-|Hne].
      - exists [basename b]. rewrite lookup_alter_eq. split; [reflexivity|].
        intros n [<-|[]]. now split.
      - rewrite lookup_alter_ne by exact Hne. exact Hsame. }
    destruct Hstep as (first & Hfirst & Hfirst_in).
    exists (first ++ added). split.
    + rewrite Hd, Hfirst. destruct (dirs w !! d); cbn; [now rewrite app_assoc|reflexivity].
    + intros n Hin. apply in_app_iff in Hin as [Hin|Hin].
      * destruct (Hfirst_in n Hin) as [Hdir Hbase]. exists b. split; [now left|now split].
      * destruct (Hadded n Hin) as (b' & Hb' & Hrest). exists b'. split; [now right|exact Hrest].
Qed.

Lemma loop_keeps (od dd : string) (l : list (string * string)) (w : PatchWorld)
      (p : string) :
  is_Some (files w !! p) ->
  is_Some (files (fold_left (fun v patch => apply_patch path_join basename dirname od dd patch v)
                            l w) !! p).
Proof.
  revert w. induction l as [|patch l IH]; intros w Hp; [exact Hp|].
  cbn [fold_left]. apply IH. now apply apply_patch_keeps.
Qed.

Lemma loop_other (od dd : string) (l : list (string * string)) (w : PatchWorld)
      (p : string) :
  ~ In p (targets_of path_join dd l ++ backups_of path_join dd l) ->
  files (fold_left (fun v patch => apply_patch path_join basename dirname od dd patch v) l w) !! p
  = files w !! p.
Proof.
  revert w. induction l as [|[sr tr] l IH]; intros w Hp; [reflexivity|].
  cbn [fold_left]. rewrite IH.
  - apply apply_patch_other; intros ->; apply Hp; apply in_app_iff;
      [left|right]; now left.
  - intros Hin. apply Hp. apply in_app_iff in Hin as [Hin|Hin]; apply in_app_iff;
      [left|right]; now right.
Qed.

Lemma separate_cons (od dd sr0 tr0 : string) (l : list (string * string)) :
  separate path_join od dd ((sr0, tr0) :: l) ->
  let t0 := path_join dd tr0 in
  let b0 := (t0 +:+ ".original")%string in
  separate path_join od dd l
  /\ ~ In t0 (targets_of path_join dd l ++ backups_of path_join dd l)
  /\ ~ In b0 (targets_of path_join dd l ++ backups_of path_join dd l)
  /\ (forall sr tr, In (sr, tr) ((sr0, tr0) :: l) ->
        path_join od sr <> t0 /\ path_join od sr <> b0).
Proof.
  intros [Hnd Hsrc]. cbn zeta. cbn [targets_of backups_of sources_of map snd fst] in *.
  set (T := targets_of path_join dd l) in *.
  set (B := backups_of path_join dd l) in *.
  change (map (fun p => path_join dd (snd p)) l) with T in *.
  change (map (fun p => (path_join dd (snd p) +:+ ".original")%string) l) with B in *.
  cbn [app] in Hnd. apply NoDup_cons in Hnd as [Ht0 Hnd].
  rewrite list_elem_of_In in Ht0.
  pose proof (NoDup_remove_1 _ _ _ (proj1 (NoDup_ListNoDup _) Hnd)) as Hnd'.
  pose proof (NoDup_remove_2 _ _ _ (proj1 (NoDup_ListNoDup _) Hnd)) as Hb0.
  split; [|split; [|split]].
  - split; [now apply NoDup_ListNoDup|].
    apply List.Forall_inv_tail in Hsrc.
    eapply List.Forall_impl; [|exact Hsrc].
    intros s Hs Hin. apply Hs. apply in_app_iff in Hin as [Hin|Hin].
    + right. apply in_app_iff. now left.
    + right. apply in_app_iff. right. now right.
  - intros Hin. apply Ht0. apply in_app_iff in Hin as [Hin|Hin];
      apply in_app_iff; [now left|right; now right].
  - exact Hb0.
  - intros sr tr Hin.
    assert (Hs : In (path_join od sr) (sources_of path_join od ((sr0, tr0) :: l))).
    { unfold sources_of. apply in_map_iff. exists (sr, tr). split; [reflexivity|exact Hin]. }
    rewrite List.Forall_forall in Hsrc. specialize (Hsrc _ Hs).
    split; intros Heq; apply Hsrc; rewrite Heq.
    + now left.
    + right. apply in_app_iff. right. now left.
Qed.

(** Under the separate layout, what the loop leaves at the target and at
    the backup of each of its patches. *)
Lemma loop_effect (od dd : string) (l : list (string * string)) (w : PatchWorld) :
  separate path_join od dd l ->
  forall sr tr, In (sr, tr) l ->
    let s := path_join od sr in
    let t := path_join dd tr in
    let b := (t +:+ ".original")%string in
    let w' := fold_left (fun v patch => apply_patch path_join basename dirname od dd patch v) l w in
    files w' !! t
    = match files w !! s, files w !! t with
      | Some content, Some _ => Some content
      | _, _ => files w !! t
      end
    /\ files w' !! b
       = match files w !! s, files w !! t, files w !! b with
         | Some _, Some original, None => Some original
         | _, _, _ => files w !! b
         end.
Proof.
  revert w. induction l as [|[sr0 tr0] l IH]; intros w Hsep sr tr Hin; [destruct Hin|].
  destruct (separate_cons od dd sr0 tr0 l Hsep) as (Hsep' & Ht0 & Hb0 & Hsrc).
  cbn zeta. cbn [fold_left].
  set (w1 := apply_patch path_join basename dirname od dd (sr0, tr0) w).
  destruct Hin as [Heq|Hin].
  - injection Heq as -> ->.
    rewrite !loop_other by assumption.
    destruct (Hsrc sr tr (or_introl eq_refl)) as [Hst Hsb].
    subst w1. rewrite files_apply_patch. cbn zeta.
    destruct (files w !! path_join od sr) as [c|] eqn:Hs; [|tauto].
    destruct (files w !! path_join dd tr) as [o|] eqn:Ht; [|tauto].
    destruct (files w !! (path_join dd tr +:+ ".original")%string) as [k|] eqn:Hb.
    + rewrite Hs. rewrite lookup_insert_eq.
      rewrite lookup_insert_ne by (apply backup_differs). now rewrite Hb.
    + rewrite lookup_insert_ne by congruence. rewrite Hs, lookup_insert_eq.
      rewrite lookup_insert_ne by (apply backup_differs).
      now rewrite lookup_insert_eq.
  - destruct (IH w1 Hsep' sr tr Hin) as [-> ->].
    assert (HT : In (path_join dd tr) (targets_of path_join dd l)).
    { unfold targets_of. apply in_map_iff. exists (sr, tr). now split. }
    assert (HB : In (path_join dd tr +:+ ".original")%string (backups_of path_join dd l)).
    { unfold backups_of. apply in_map_iff. exists (sr, tr). now split. }
    destruct (Hsrc sr tr (or_intror Hin)) as [Hst Hsb].
    subst w1.
    rewrite !(apply_patch_other od dd sr0 tr0 w (path_join od sr)) by assumption.
    rewrite !(apply_patch_other od dd sr0 tr0 w (path_join dd tr))
      by (intros Heq;
          (solve [apply Ht0; rewrite <- Heq; apply in_app_iff; now left]
           || solve [apply Hb0; rewrite <- Heq; apply in_app_iff; now left])).
    rewrite !(apply_patch_other od dd sr0 tr0 w (path_join dd tr +:+ ".original")%string)
      by (intros Heq;
          (solve [apply Ht0; rewrite <- Heq; apply in_app_iff; now right]
           || solve [apply Hb0; rewrite <- Heq; apply in_app_iff; now right])).
    split; reflexivity.
Qed.

(** ** The whole script *)

Lemma find_device_ui_none (libdeps_dir : string) (names : list string) :
  List.Forall (fun name => contains "device-ui" (lower name) = false) names ->
  find_device_ui path_join libdeps_dir names = None.
Proof.
  intros Hall. induction Hall as [|name rest Hname _ IH]; [reflexivity|].
  cbn [find_device_ui]. rewrite Hname.
  destruct (contains "meshtastic-device-ui" (lower name)) eqn:Hlong; [|exact IH].
  exfalso. assert (Hin : contains "device-ui" (lower name) = true).
  { apply (contains_part _ "meshtastic-device-ui"); [reflexivity|exact Hlong]. }
  congruence.
Qed.

(** X12.  When the library directory of the build environment does not
    exist, or lists no name containing "device-ui", the script changes no
    file and prints one warning. *)
Theorem apply_patches_without_library
        (l : list (string * string)) (env : gmap string string) (w : PatchWorld) :
  (dirs w !! libdeps_dir_of path_join env = None
   \/ exists names,
        dirs w !! libdeps_dir_of path_join env = Some names
        /\ List.Forall (fun name => contains "device-ui" (lower name) = false) names) ->
  let w' := apply_patches_on path_join basename dirname l env w in
  files w' = files w
  /\ dirs w' = dirs w
  /\ printed w'
     = printed w
       ++ ["WARNING: device-ui library not found, Unbound Meshberry patches not applied"%string].
Proof.
  intros Hmissing. cbn zeta.
  assert (Hnone : device_ui_dir_of path_join env w = None).
  { unfold device_ui_dir_of. destruct Hmissing as [->|(names & -> & Hall)];
      [reflexivity|now apply find_device_ui_none]. }
  unfold apply_patches_on. rewrite Hnone. repeat split.
Qed.

(** X13.  The script never removes a file, and a path that is neither a
    patch target nor the backup of one under the library directory found
    keeps its contents, or stays absent.  A directory listing keeps the
    names it had, in their order; the names a run adds to it are base
    names of backups in that directory. *)
Theorem apply_patches_frame
        (l : list (string * string)) (env : gmap string string) (w : PatchWorld)
        (p : string) :
  let w' := apply_patches_on path_join basename dirname l env w in
  (is_Some (files w !! p) -> is_Some (files w' !! p))
  /\ ((forall dd, device_ui_dir_of path_join env w = Some dd ->
                  ~ In p (targets_of path_join dd l ++ backups_of path_join dd l)) ->
      files w' !! p = files w !! p)
  /\ exists added,
       dirs w' !! p = (fun names => names ++ added) <$> dirs w !! p
       /\ forall n, In n added ->
            exists dd b, device_ui_dir_of path_join env w = Some dd
                         /\ In b (backups_of path_join dd l)
                         /\ dirname b = p /\ basename b = n.
Proof.
  cbn zeta. unfold apply_patches_on.
  destruct (device_ui_dir_of path_join env w) as [dd|] eqn:Hdd.
  - split; [apply loop_keeps|]. split.
    + intros Hp. apply loop_other. now apply Hp.
    + destruct (loop_listing (override_dir_of path_join env) dd l w p)
        as (added & Hd & Hadded).
      exists added. split; [exact Hd|].
      intros n Hn. destruct (Hadded n Hn) as (b & Hb). now exists dd, b.
  - split; [auto|]. split; [auto|].
    exists []. split; [|intros n []].
    cbn [dirs say]. destruct (dirs w !! p); cbn; [now rewrite app_nil_r|reflexivity].
Qed.

(** X14.  With targets, backups and sources on separate paths, a run
    leaves at each patch target the patch's source bytes when both the
    source and the target existed, and leaves the target as it was, absent
    included, otherwise; the backup receives the target's original bytes
    only when the patch is applied and no backup existed, and is otherwise
    left as it was. *)
Theorem apply_patches_effect
        (l : list (string * string)) (env : gmap string string) (w : PatchWorld)
        (dd sr tr : string) :
  device_ui_dir_of path_join env w = Some dd ->
  separate path_join (override_dir_of path_join env) dd l ->
  In (sr, tr) l ->
  let s := path_join (override_dir_of path_join env) sr in
  let t := path_join dd tr in
  let b := (t +:+ ".original")%string in
  let w' := apply_patches_on path_join basename dirname l env w in
  files w' !! t
  = match files w !! s, files w !! t with
    | Some content, Some _ => Some content
    | _, _ => files w !! t
    end
  /\ files w' !! b
     = match files w !! s, files w !! t, files w !! b with
       | Some _, Some original, None => Some original
       | _, _, _ => files w !! b
       end.
Proof.
  intros Hdd Hsep Hin. cbn zeta. unfold apply_patches_on. rewrite Hdd.
  now apply loop_effect.
Qed.

Lemma written_paths (dd : string) (l : list (string * string)) (p : string) :
  In p (targets_of path_join dd l ++ backups_of path_join dd l) ->
  exists sr tr, In (sr, tr) l
                /\ (p = path_join dd tr \/ p = (path_join dd tr +:+ ".original")%string).
Proof.
  intros Hin. apply in_app_iff in Hin as [Hin|Hin];
    apply in_map_iff in Hin as ([sr tr] & <- & Hin); exists sr, tr; auto.
Qed.

Lemma apply_patch_settled (od dd : string) (patch : string * string) (w : PatchWorld) :
  settled path_join od dd w patch ->
  files (apply_patch path_join basename dirname od dd patch w) = files w
  /\ dirs (apply_patch path_join basename dirname od dd patch w) = dirs w.
Proof.
  destruct patch as [sr tr]. unfold settled. cbn [fst snd]. intros Hs.
  rewrite files_apply_patch, dirs_apply_patch. cbn zeta.
  destruct (files w !! path_join od sr) as [c|] eqn:Hsrc; [|now split].
  destruct (files w !! path_join dd tr) as [o|] eqn:Ht; [|now split].
  destruct Hs as [Hs|[Hs|[[k Hb] Heq]]]; [discriminate..|].
  rewrite Hb, Hsrc. split; [|reflexivity].
  apply insert_id. congruence.
Qed.

Lemma loop_settled (od dd : string) (l : list (string * string)) (w : PatchWorld) :
  List.Forall (settled path_join od dd w) l ->
  let w' := fold_left (fun v patch => apply_patch path_join basename dirname od dd patch v)
                      l w in
  files w' = files w /\ dirs w' = dirs w.
Proof.
  cbn zeta. revert w. induction l as [|patch l IH]; intros w Hall; [now split|].
  cbn [fold_left].
  destruct (apply_patch_settled od dd patch w (List.Forall_inv Hall)) as [Hf Hd].
  destruct (IH (apply_patch path_join basename dirname od dd patch w)) as [Hf' Hd'].
  - eapply List.Forall_impl; [|exact (List.Forall_inv_tail Hall)].
    intros q. unfold settled. now rewrite Hf.
  - split; congruence.
Qed.

Lemma find_device_ui_app (libdeps_dir dd : string) (names added : list string) :
  find_device_ui path_join libdeps_dir names = Some dd ->
  find_device_ui path_join libdeps_dir (names ++ added) = Some dd.
Proof.
  induction names as [|name rest IH]; [discriminate|].
  cbn [find_device_ui app]. now destruct (_ || _).
Qed.

(** X15.  With targets, backups and sources on separate paths, running
    the script a second time changes no file: each backup still holds the
    bytes the library shipped, not the patched ones. *)
Theorem apply_patches_twice
        (l : list (string * string)) (env : gmap string string) (w : PatchWorld) :
  (forall dd, device_ui_dir_of path_join env w = Some dd ->
              separate path_join (override_dir_of path_join env) dd l) ->
  let w1 := apply_patches_on path_join basename dirname l env w in
  let w2 := apply_patches_on path_join basename dirname l env w1 in
  files w2 = files w1 /\ dirs w2 = dirs w1.
Proof.
  intros Hsep. cbn zeta.
  destruct (device_ui_dir_of path_join env w) as [dd|] eqn:Hdd.
  - assert (Hdd1 : device_ui_dir_of path_join env
                     (apply_patches_on path_join basename dirname l env w) = Some dd).
    { destruct (loop_listing (override_dir_of path_join env) dd l w
                  (libdeps_dir_of path_join env)) as (added & Hd & _).
      unfold apply_patches_on. rewrite Hdd.
      unfold device_ui_dir_of in *. rewrite Hd.
      destruct (dirs w !! libdeps_dir_of path_join env) as [names|]; [|discriminate].
      cbn. now apply find_device_ui_app. }
    specialize (Hsep dd eq_refl).
    set (w1 := apply_patches_on path_join basename dirname l env w) in *.
    assert (Hw1 : w1 = fold_left (fun v patch => apply_patch path_join basename dirname
                                             (override_dir_of path_join env) dd patch v) l w)
      by (unfold w1, apply_patches_on; now rewrite Hdd).
    unfold apply_patches_on. rewrite Hdd1, Hw1.
    apply loop_settled. apply List.Forall_forall. intros [sr tr] Hin.
    destruct (loop_effect (override_dir_of path_join env) dd l w Hsep sr tr Hin) as [Ht Hb].
    cbn zeta in Ht, Hb. unfold settled. cbn [fst snd].
    assert (Hs : forall v,
               v = fold_left (fun v patch => apply_patch path_join basename dirname
                                               (override_dir_of path_join env) dd patch v) l w ->
               files v !! path_join (override_dir_of path_join env) sr
               = files w !! path_join (override_dir_of path_join env) sr).
    { intros v ->. apply loop_other. destruct Hsep as [_ Hsrc].
      rewrite List.Forall_forall in Hsrc. apply Hsrc.
      unfold sources_of. apply in_map_iff. exists (sr, tr). now split. }
    rewrite (Hs _ eq_refl), Ht, Hb.
    destruct (files w !! path_join (override_dir_of path_join env) sr) as [c|]; [|now left].
    destruct (files w !! path_join dd tr) as [o|]; [|right; now left].
    right. right. split; [|reflexivity].
    destruct (files w !! (path_join dd tr +:+ ".original")%string); eauto.
  - assert (Hw1 : apply_patches_on path_join basename dirname l env w
                  = say "WARNING: device-ui library not found, Unbound Meshberry patches not applied" w).
    { unfold apply_patches_on. now rewrite Hdd. }
    rewrite Hw1. unfold apply_patches_on.
    assert (Hdd1 : device_ui_dir_of path_join env
                     (say "WARNING: device-ui library not found, Unbound Meshberry patches not applied" w)
                   = None) by exact Hdd.
    rewrite Hdd1. now split.
Qed.

End Patching.

(** ** A sample project *)

Lemma sample_library_found :
  device_ui_dir_of posix_join sample_env sample_world = Some sample_library.
Proof. reflexivity. Qed.

Lemma sample_separate :
  separate posix_join (override_dir_of posix_join sample_env) sample_library PATCH_FILES.
Proof.
  split.
  - apply (bool_decide_unpack _). vm_compute. exact I.
  - repeat constructor; intros Hin; vm_compute in Hin; intuition discriminate.
Qed.

Lemma apply_patches_without_library_witness :
  dirs bare_world !! libdeps_dir_of posix_join sample_env = None
  /\ files (apply_patches posix_join posix_basename posix_dirname sample_env bare_world) = ∅
  /\ printed (apply_patches posix_join posix_basename posix_dirname sample_env bare_world)
     = ["WARNING: device-ui library not found, Unbound Meshberry patches not applied"%string].
Proof.
  assert (Hnone : dirs bare_world !! libdeps_dir_of posix_join sample_env = None)
    by reflexivity.
  destruct (apply_patches_without_library posix_join posix_basename posix_dirname PATCH_FILES
              sample_env bare_world (or_introl Hnone)) as (Hf & _ & Hp).
  split; [exact Hnone|]. split; [exact Hf|exact Hp].
Defined.

Lemma apply_patches_frame_witness :
  files (apply_patches posix_join posix_basename posix_dirname sample_env sample_world)
    !! "/p/lib/device-ui-override/source/graphics/TFT/Themes.cpp"%string
  = Some [x01].
Proof.
  destruct (apply_patches_frame posix_join posix_basename posix_dirname PATCH_FILES sample_env
              sample_world "/p/lib/device-ui-override/source/graphics/TFT/Themes.cpp")
    as (_ & Hframe & _).
  unfold apply_patches. rewrite Hframe; [reflexivity|].
  intros dd Hdd. rewrite sample_library_found in Hdd. injection Hdd as <-.
  intros Hin. vm_compute in Hin. intuition discriminate.
Defined.

(** In the sample project the run adds the backup's name to the listing
    of the directory of the first target. *)
Example sample_listing_after :
  dirs (apply_patches posix_join posix_basename posix_dirname sample_env sample_world)
    !! (sample_library +:+ "/source/graphics/TFT")%string
  = Some ["Themes.cpp"; "Themes.h"; "Themes.cpp.original"]%string.
Proof. reflexivity. Qed.

Lemma apply_patches_effect_witness :
  files (apply_patches posix_join posix_basename posix_dirname sample_env sample_world)
    !! (sample_library +:+ "/source/graphics/TFT/Themes.cpp")%string = Some [x01]
  /\ files (apply_patches posix_join posix_basename posix_dirname sample_env sample_world)
       !! (sample_library +:+ "/source/graphics/TFT/Themes.cpp.original")%string
     = Some [x03]
  /\ files (apply_patches posix_join posix_basename posix_dirname sample_env sample_world)
       !! (sample_library +:+ "/generated/ui_320x240/screens.c")%string = None.
Proof.
  destruct (apply_patches_effect posix_join posix_basename posix_dirname PATCH_FILES sample_env
              sample_world sample_library
              "source/graphics/TFT/Themes.cpp" "source/graphics/TFT/Themes.cpp"
              sample_library_found sample_separate (or_introl eq_refl)) as [Ht Hb].
  destruct (apply_patches_effect posix_join posix_basename posix_dirname PATCH_FILES sample_env
              sample_world sample_library
              "generated/ui_320x240/screens.c" "generated/ui_320x240/screens.c"
              sample_library_found sample_separate (or_intror (or_introl eq_refl)))
    as [Ht' _].
  split; [exact Ht|]. split; [exact Hb|exact Ht'].
Defined.

Lemma apply_patches_twice_witness :
  files (apply_patches posix_join posix_basename posix_dirname sample_env
           (apply_patches posix_join posix_basename posix_dirname sample_env sample_world))
  = files (apply_patches posix_join posix_basename posix_dirname sample_env sample_world).
Proof.
  apply (apply_patches_twice posix_join posix_basename posix_dirname PATCH_FILES sample_env sample_world).
  intros dd Hdd. rewrite sample_library_found in Hdd. injection Hdd as <-.
  exact sample_separate.
Defined.

End ThemePatchFacts.

(** ** X16 to X18: the ways through the loop body *)

Section Outcomes.

Variable pil_pixels : bytes -> Z -> option (list (Z * Z * Z)).

(** X16.  A cache file that is empty or that the rasteriser rejects is
    never repaired: the loop body takes the placeholder and counts a
    failure, but makes no request and leaves the file in the cache, so
    every later run meets it again. *)
Theorem bad_cache_entry_sticks
        (cat : string) (cp : Z) (sc : string) (acc : Acc) (w : World) (data : bytes) :
  cached w (codepoint_to_twemoji_filename cp) = Some data ->
  (truthy (Some data) = false \/ truthy (quantize <$> pil_pixels data 12) = false) ->
  let acc' := eval (process_emoji pil_pixels cat (cp, sc) acc) w in
  let w' := exec (process_emoji pil_pixels cat (cp, sc) acc) w in
  cache_dir w' = cache_dir w
  /\ cached w' (codepoint_to_twemoji_filename cp) = Some data
  /\ requests w' = requests w
  /\ trace w' = trace w ++ [EvCacheRead (codepoint_to_twemoji_filename cp); EvSleep]
  /\ stdout w' = stdout w ++ bitmap_lines (var_name_of sc) (generate_placeholder 12)
  /\ fail_count acc' = fail_count acc + 1
  /\ success_count acc' = success_count acc.
Proof.
  intros Hc Hbad. cbn zeta.
  assert (Heval : eval (download_twemoji cp) w = Some data)
    by (rewrite download_eval, Hc; reflexivity).
  assert (Hchoice : choose_bitmap pil_pixels (Some data) acc
                    = (generate_placeholder 12, bump_fail acc)).
  { destruct Hbad as [Hempty|Hraster].
    - now apply choose_bitmap_no_bytes.
    - now apply choose_bitmap_no_bitmap. }
  destruct (process_emoji_fetch_state pil_pixels cat cp sc acc w) as (Hd & _ & Hr).
  assert (Hwd : exec (download_twemoji cp) w
                = mkWorld (cache_dir w) (network w) (requests w)
                    (trace w ++ [EvCacheRead (codepoint_to_twemoji_filename cp)])
                    (stdout w) (stderr w))
    by (unfold exec; now rewrite (download_hit cp w data Hc)).
  rewrite Hwd in Hd, Hr. cbn [cache_dir requests] in Hd, Hr.
  split; [exact Hd|]. split; [unfold cached in *; now rewrite Hd|].
  split; [exact Hr|]. split.
  - rewrite process_emoji_trace. unfold fetch_events. now rewrite Hc.
  - rewrite process_emoji_stdout_choice, process_emoji_eval, Heval, Hchoice.
    repeat split.
Qed.

(** X17.  When the fetch returns a non-empty payload that the rasteriser
    turns into a non-empty pixel list, the loop body prints the array of
    the quantised pixels: twelve rows that hold, in pixel order, the
    values of the first 144 pixels and of no other, twelve to a row as
    long as there are pixels left.  It appends the entry, adds one to
    [success_count] and leaves [fail_count]. *)
Theorem success_prints_quantised_pixels
        (cat : string) (cp : Z) (sc : string) (acc : Acc) (w : World)
        (png : bytes) (pixels : list (Z * Z * Z)) :
  eval (download_twemoji cp) w = Some png -> png <> [] ->
  pil_pixels png 12 = Some pixels -> pixels <> [] ->
  let acc' := eval (process_emoji pil_pixels cat (cp, sc) acc) w in
  let w' := exec (process_emoji pil_pixels cat (cp, sc) acc) w in
  let data := map (fun '(r, g, b) => rgb_to_rgb565 r g b) pixels in
  stdout w'
  = stdout w
    ++ ("static const uint16_t EMOJI_BMP_" +:+ upper sc +:+ "[144] PROGMEM = {")%string
       :: map (fun k => row_text (row_values data k) (k =? 11)%nat) (seq 0 12)
    ++ ["};"; ""]%string
  /\ concat (map (row_values data) (seq 0 12))
     = map (fun '(r, g, b) => rgb_to_rgb565 r g b) (firstn 144 pixels)
  /\ all_entries acc' = all_entries acc ++ [entry_of_record (cat, (cp, sc))]
  /\ success_count acc' = success_count acc + 1
  /\ fail_count acc' = fail_count acc.
Proof.
  intros Hpng Hne Hpix Hpne. cbn zeta.
  assert (Hchoice : choose_bitmap pil_pixels (Some png) acc
                    = (quantize pixels, bump_success acc)).
  { unfold choose_bitmap. cbn [default from_option id].
    destruct png as [|x png]; [contradiction|]. cbn [truthy]. rewrite Hpix.
    destruct pixels as [|px pixels]; [contradiction|]. reflexivity. }
  rewrite process_emoji_stdout_choice, process_emoji_eval, Hpng, Hchoice.
  rewrite bitmap_lines_text.
  split; [reflexivity|]. split; [|repeat split].
  rewrite row_values_concat. change (12 * 12)%nat with 144%nat.
  apply firstn_map.
Qed.

(** X18.  When the fetch returns no bytes ([None], or an empty payload,
    which [if png_data:] treats alike) or the rasteriser returns no bitmap
    for the fetched bytes, the loop body still prints the array of the
    identifier, filled with the question-mark placeholder, and appends the
    identifier's entry; [fail_count] goes up by exactly one and
    [success_count] stays. *)
Theorem failure_prints_placeholder
        (cat : string) (cp : Z) (sc : string) (acc : Acc) (w : World) :
  (truthy (eval (download_twemoji cp) w) = false
   \/ exists png, eval (download_twemoji cp) w = Some png
                  /\ truthy (quantize <$> pil_pixels png 12) = false) ->
  let acc' := eval (process_emoji pil_pixels cat (cp, sc) acc) w in
  let w' := exec (process_emoji pil_pixels cat (cp, sc) acc) w in
  stdout w'
  = stdout w
    ++ ("static const uint16_t EMOJI_BMP_" +:+ upper sc +:+ "[144] PROGMEM = {")%string
       :: placeholder_rows
    ++ ["};"; ""]%string
  /\ all_entries acc' = all_entries acc ++ [entry_of_record (cat, (cp, sc))]
  /\ fail_count acc' = fail_count acc + 1
  /\ success_count acc' = success_count acc.
Proof.
  intros Hfail. cbn zeta.
  assert (Hchoice : choose_bitmap pil_pixels (eval (download_twemoji cp) w) acc
                    = (generate_placeholder 12, bump_fail acc)).
  { destruct Hfail as [Hnone|(png & Hpng & Hraster)].
    - now apply choose_bitmap_no_bytes.
    - rewrite Hpng. now apply choose_bitmap_no_bitmap. }
  rewrite process_emoji_stdout_choice, process_emoji_eval, Hchoice. cbn zeta.
  cbn [fst snd bump_fail all_entries success_count fail_count].
  repeat split.
Qed.

End Outcomes.

Lemma bad_cache_entry_sticks_witness :
  cached (fresh_world (Some {[ "1f600.png"%string := [] ]}) Sample.net_up)
         (codepoint_to_twemoji_filename 0x1F600) = Some []
  /\ requests (exec (process_emoji Sample.pil "FACES" (0x1F600, "grin"%string) Sample.acc0)
                    (fresh_world (Some {[ "1f600.png"%string := [] ]}) Sample.net_up))
     = 0%nat
  /\ fail_count (eval (process_emoji Sample.pil "FACES" (0x1F600, "grin"%string) Sample.acc0)
                      (fresh_world (Some {[ "1f600.png"%string := [] ]}) Sample.net_up))
     = 1.
Proof.
  assert (Hc : cached (fresh_world (Some {[ "1f600.png"%string := [] ]}) Sample.net_up)
                      (codepoint_to_twemoji_filename 0x1F600) = Some []) by reflexivity.
  destruct (bad_cache_entry_sticks Sample.pil "FACES" 0x1F600 "grin" Sample.acc0
              _ [] Hc (or_introl eq_refl)) as (_ & _ & Hr & _ & _ & Hf & _).
  split; [exact Hc|]. split; [exact Hr|exact Hf].
Defined.

Lemma success_prints_quantised_pixels_witness :
  eval (download_twemoji 0x1F600) SampleWorlds.cold_world_up = Some Sample.png
  /\ success_count (eval (process_emoji Sample.pil "FACES" (0x1F600, "grin"%string)
                                        Sample.acc0) SampleWorlds.cold_world_up) = 1
  /\ stdout (exec (process_emoji Sample.pil "FACES" (0x1F600, "grin"%string) Sample.acc0)
                  SampleWorlds.cold_world_up)
     = "static const uint16_t EMOJI_BMP_GRIN[144] PROGMEM = {"%string
       :: orange_rows ++ ["};"; ""]%string.
Proof.
  assert (Hpng : eval (download_twemoji 0x1F600) SampleWorlds.cold_world_up = Some Sample.png)
    by reflexivity.
  assert (Hne : Sample.png <> []) by discriminate.
  assert (Hpix : Sample.pil Sample.png 12 = Some (repeat (255, 128, 7) 144)) by reflexivity.
  assert (Hpne : repeat (255, 128, 7) 144 <> []) by discriminate.
  destruct (success_prints_quantised_pixels Sample.pil "FACES" 0x1F600 "grin" Sample.acc0
              SampleWorlds.cold_world_up Sample.png _ Hpng Hne Hpix Hpne)
    as (Hout & _ & _ & Hs & _).
  split; [exact Hpng|]. split; [exact Hs|exact Hout].
Defined.

Lemma failure_prints_placeholder_witness :
  truthy (eval (download_twemoji 0x1F600) SampleWorlds.cold_world_down) = false
  /\ stdout (exec (process_emoji Sample.pil "FACES" (0x1F600, "grin"%string) Sample.acc0)
                  SampleWorlds.cold_world_down)
     = "static const uint16_t EMOJI_BMP_GRIN[144] PROGMEM = {"%string
       :: placeholder_rows ++ ["};"; ""]%string
  /\ fail_count (eval (process_emoji Sample.pil "FACES" (0x1F600, "grin"%string) Sample.acc0)
                      SampleWorlds.cold_world_down) = 1
  /\ eval (download_twemoji 0x1F600) SampleWorlds.cold_world_junk = Some [x00]
  /\ fail_count (eval (process_emoji Sample.pil "FACES" (0x1F600, "grin"%string) Sample.acc0)
                      SampleWorlds.cold_world_junk) = 1.
Proof.
  assert (Hdown : truthy (eval (download_twemoji 0x1F600) SampleWorlds.cold_world_down) = false)
    by reflexivity.
  assert (Hjunk : eval (download_twemoji 0x1F600) SampleWorlds.cold_world_junk = Some [x00])
    by reflexivity.
  destruct (failure_prints_placeholder Sample.pil "FACES" 0x1F600 "grin" Sample.acc0
              SampleWorlds.cold_world_down (or_introl Hdown))
    as (Hout & _ & Hfail & _).
  destruct (failure_prints_placeholder Sample.pil "FACES" 0x1F600 "grin" Sample.acc0
              SampleWorlds.cold_world_junk
              (or_intror (ex_intro _ [x00] (conj Hjunk eq_refl))))
    as (_ & _ & Hfail' & _).
  split; [exact Hdown|]. split; [exact Hout|]. split; [exact Hfail|].
  split; [exact Hjunk|exact Hfail'].
Defined.
